(** * Conversion engine, backfill worker, ingest endpoint and webhook
      delivery store of the experiment-telemetry backend.

    Shallow embedding of
    - [backend_common/conversion.py]            (module [Conversion])
    - [workers/conversion_backfill.py] and
      [repositories/backfill_tasks.py]          (modules [Backfill], [TaskQueue])
    - [telemetry_ingest_service/api/routes/telemetry.py],
      [api/utils.py] and [domain/dto.py]        (module [Ingest])
    - [telemetry_ingest_service/services/profile_cache.py]
                                                (module [ProfileCache])
    - the webhook delivery store                (module [Webhooks])

    The ingest service behind the route and the webhook delivery store are
    not part of the sources; their definitions follow the specification and
    say so in their comments.

    Modelling conventions.
    - Python floats are modelled as exact rationals [Q]; rounding, NaN and
      infinities are outside the model.
    - A JSON value (a [dict[str, Any]] payload, a [jsonb] column) is the
      inductive [json]; a Python [dict] read from JSON keeps the last value
      of a duplicated key.
    - A Python exception is a value of [exc]; a pure Python function that
      may raise returns [pyres A].
    - Python's [float()] on a [str] is left abstract: every development is
      parameterised by [parse_float], so the results hold whatever strings
      [float()] accepts. *)

From Stdlib Require Import ZArith QArith List String Ascii Bool Lia Lqa Sorted.
Import ListNotations.

Open Scope Z_scope.

(** ** JSON values and Python exceptions *)

#[local] Set Warnings "-register-all".

Inductive json : Type :=
| JNull
| JBool (b : bool)
| JInt (z : Z)
| JFloat (q : Q)
| JStr (s : string)
| JList (l : list json)
| JObj (kvs : list (string * json)).

Inductive exc : Type :=
| KeyError (key : string)
| TypeError (msg : string)
| ValueError (msg : string)
| AttributeError (msg : string)
| IndexError (msg : string).

(** [repr] of a [str], each character read as the code point of its byte
    (U+0000 to U+00FF): single quotes unless the text has a single quote
    and no double quote; [\t], [\n], [\r], the backslash and the chosen
    quote escaped; the other characters that are not printable (below
    U+0020, U+007F to U+00A0, U+00AD) as [\xhh]. *)
Definition dquote : ascii := ascii_of_nat 34.
Definition squote : ascii := ascii_of_nat 39.
Definition backslash : ascii := ascii_of_nat 92.
Definition hex_digit (n : nat) : ascii :=
  ascii_of_nat (if Nat.ltb n 10 then 48 + n else 87 + n).
Fixpoint has_char (a : ascii) (s : string) : bool :=
  match s with
  | EmptyString => false
  | String b s' => Ascii.eqb a b || has_char a s'
  end.
Definition repr_char (q a : ascii) : string :=
  let n := nat_of_ascii a in
  if Ascii.eqb a q || Nat.eqb n 92 then String backslash (String a EmptyString)
  else if Nat.eqb n 9 then String backslash (String "t" EmptyString)
  else if Nat.eqb n 10 then String backslash (String "n" EmptyString)
  else if Nat.eqb n 13 then String backslash (String "r" EmptyString)
  else if Nat.ltb n 32 || (Nat.leb 127 n && Nat.leb n 160) || Nat.eqb n 173 then
    String backslash (String "x" (String (hex_digit (n / 16)) (String (hex_digit (n mod 16)) EmptyString)))
  else String a EmptyString.
Fixpoint repr_body (q : ascii) (s : string) : string :=
  match s with
  | EmptyString => EmptyString
  | String a s' => repr_char q a ++ repr_body q s'
  end.
Definition py_repr (s : string) : string :=
  let q := if has_char squote s && negb (has_char dquote s) then dquote else squote in
  String q (repr_body q s ++ String q EmptyString).

(** [str(exc)] *)
Definition exc_str (e : exc) : string :=
  match e with
  | KeyError k => py_repr k
  | TypeError m | ValueError m | AttributeError m | IndexError m => m
  end.

Inductive pyres (A : Type) : Type :=
| POk (a : A)
| PRaise (e : exc).
Arguments POk {A} a.
Arguments PRaise {A} e.

Definition pybind {A B : Type} (r : pyres A) (k : A -> pyres B) : pyres B :=
  match r with
  | POk a => k a
  | PRaise e => PRaise e
  end.

Notation "x <-? r ;; k" := (pybind r (fun x => k))
  (at level 61, r at next level, right associativity).

(** A dict built from JSON: a later binding of a key overrides an earlier one. *)
Fixpoint obj_get (k : string) (kvs : list (string * json)) : option json :=
  match kvs with
  | [] => None
  | (k', v) :: t =>
      match obj_get k t with
      | Some w => Some w
      | None => if String.eqb k k' then Some v else None
      end
  end.

(** [payload.get(k)]: only a dict has [.get]. *)
Definition dict_get (payload : json) (k : string) : pyres (option json) :=
  match payload with
  | JObj kvs => POk (obj_get k kvs)
  | JList _ => PRaise (AttributeError "'list' object has no attribute 'get'")
  | JStr _ => PRaise (AttributeError "'str' object has no attribute 'get'")
  | JNull => PRaise (AttributeError "'NoneType' object has no attribute 'get'")
  | JBool _ => PRaise (AttributeError "'bool' object has no attribute 'get'")
  | JInt _ => PRaise (AttributeError "'int' object has no attribute 'get'")
  | JFloat _ => PRaise (AttributeError "'float' object has no attribute 'get'")
  end.

(** [p[k]] with a string key. *)
Definition getitem (p : json) (k : string) : pyres json :=
  match p with
  | JObj kvs =>
      match obj_get k kvs with
      | Some v => POk v
      | None => PRaise (KeyError k)
      end
  | JList _ => PRaise (TypeError "list indices must be integers or slices, not str")
  | JStr _ => PRaise (TypeError "string indices must be integers, not 'str'")
  | JNull => PRaise (TypeError "'NoneType' object is not subscriptable")
  | JBool _ => PRaise (TypeError "'bool' object is not subscriptable")
  | JInt _ => PRaise (TypeError "'int' object is not subscriptable")
  | JFloat _ => PRaise (TypeError "'float' object is not subscriptable")
  end.

(** [isinstance(v, (int, float))]; [bool] is a subclass of [int]. *)
Definition isinstance_num (v : json) : bool :=
  match v with
  | JBool _ | JInt _ | JFloat _ => true
  | _ => false
  end.

(** ** The conversion engine ([backend_common/conversion.py]) *)
Module Conversion.
Section Engine.

Context (parse_float : string -> option Q).

Local Open Scope Q_scope.

(** [float(v)] *)
Definition py_float (v : json) : pyres Q :=
  match v with
  | JBool b => POk (if b then 1 else 0)
  | JInt z => POk (inject_Z z)
  | JFloat q => POk q
  | JStr s =>
      match parse_float s with
      | Some q => POk q
      | None => PRaise (ValueError ("could not convert string to float: " ++ py_repr s))
      end
  | JNull => PRaise (TypeError "float() argument must be a string or a real number, not 'NoneType'")
  | JList _ => PRaise (TypeError "float() argument must be a string or a real number, not 'list'")
  | JObj _ => PRaise (TypeError "float() argument must be a string or a real number, not 'dict'")
  end.

Definition apply_linear (payload : json) (raw_value : Q) : pyres (option Q) :=
  a_raw <-? dict_get payload "a" ;;
  b_raw <-? dict_get payload "b" ;;
  match a_raw, b_raw with
  | Some a, Some b =>
      if isinstance_num a && isinstance_num b then
        a' <-? py_float a ;;
        b' <-? py_float b ;;
        POk (Some (a' * raw_value + b'))
      else POk None
  | _, _ => POk None
  end.

(** The [for i, c in enumerate(coefficients)] loop of [_apply_polynomial]. *)
Fixpoint poly_loop (cs : list json) (raw_value result power : Q) : pyres (option Q) :=
  match cs with
  | [] => POk (Some result)
  | c :: rest =>
      if isinstance_num c then
        c' <-? py_float c ;;
        poly_loop rest raw_value (result + c' * power) (power * raw_value)
      else POk None
  end.

Definition apply_polynomial (payload : json) (raw_value : Q) : pyres (option Q) :=
  coefficients <-? dict_get payload "coefficients" ;;
  match coefficients with
  | Some (JList []) => POk None
  | Some (JList cs) => poly_loop cs raw_value 0 1
  | _ => POk None
  end.

(** [float(p["raw"])] and [float(p["physical"])] *)
Definition point_raw (p : json) : pyres Q := v <-? getitem p "raw" ;; py_float v.
Definition point_physical (p : json) : pyres Q := v <-? getitem p "physical" ;; py_float v.

(** [sorted(table, key=lambda p: float(p["raw"]))]: the keys are computed
    first, in list order, then the list is sorted stably by key. *)
Fixpoint decorate (tbl : list json) : pyres (list (Q * json)) :=
  match tbl with
  | [] => POk []
  | p :: rest =>
      k <-? point_raw p ;;
      ks <-? decorate rest ;;
      POk ((k, p) :: ks)
  end.

Definition qlt (a b : Q) : bool := negb (Qle_bool b a).

Fixpoint insert_by_key (kp : Q * json) (l : list (Q * json)) : list (Q * json) :=
  match l with
  | [] => [kp]
  | y :: rest => if qlt (fst y) (fst kp) then y :: insert_by_key kp rest else kp :: y :: rest
  end.

Fixpoint sort_by_key (l : list (Q * json)) : list (Q * json) :=
  match l with
  | [] => []
  | kp :: rest => insert_by_key kp (sort_by_key rest)
  end.

(** The interpolation loop [for i in range(len(sorted_points) - 1)]. *)
Fixpoint interp_loop (pts : list json) (raw_value : Q) : pyres (option Q) :=
  match pts with
  | p0 :: ((p1 :: _) as rest) =>
      x0 <-? point_raw p0 ;;
      y0 <-? point_physical p0 ;;
      x1 <-? point_raw p1 ;;
      y1 <-? point_physical p1 ;;
      if Qle_bool x0 raw_value && Qle_bool raw_value x1 then
        let t := if negb (Qeq_bool x1 x0) then (raw_value - x0) / (x1 - x0) else 0 in
        POk (Some (y0 + t * (y1 - y0)))
      else interp_loop rest raw_value
  | _ => POk None
  end.

Definition apply_lookup_table (payload : json) (raw_value : Q) : pyres (option Q) :=
  table <-? dict_get payload "table" ;;
  match table with
  | Some (JList tbl) =>
      if Nat.ltb (List.length tbl) 2 then POk None else
      match decorate tbl with
      | PRaise (TypeError _ | KeyError _ | ValueError _) => POk None
      | PRaise e => PRaise e
      | POk keyed =>
          let sorted_points := map snd (sort_by_key keyed) in
          match sorted_points with
          | [] => PRaise (IndexError "list index out of range")
          | first :: _ =>
              let final := last sorted_points first in
              lo <-? point_raw first ;;
              if Qle_bool raw_value lo then
                y <-? point_physical first ;; POk (Some y)
              else
                hi <-? point_raw final ;;
                if Qle_bool hi raw_value then
                  y <-? point_physical final ;; POk (Some y)
                else interp_loop sorted_points raw_value
          end
      end
  | _ => POk None
  end.

Definition apply_conversion (kind : string) (payload : json) (raw_value : Q) : pyres (option Q) :=
  if String.eqb kind "linear" then apply_linear payload raw_value
  else if String.eqb kind "polynomial" then apply_polynomial payload raw_value
  else if String.eqb kind "lookup_table" then apply_lookup_table payload raw_value
  else POk None.

End Engine.
End Conversion.

(** ** Reference semantics used in the statements *)
Module ConversionSpec.
Local Open Scope Q_scope.

(** [x ^ n] on a natural exponent. *)
Fixpoint qpow (x : Q) (n : nat) : Q :=
  match n with
  | O => 1
  | S n' => qpow x n' * x
  end.

(** [c_k * x^k + c_(k+1) * x^(k+1) + ...] *)
Fixpoint sum_from (cs : list Q) (x : Q) (k : nat) : Q :=
  match cs with
  | [] => 0
  | c :: rest => c * qpow x k + sum_from rest x (S k)
  end.

(** [c0 + c1*x + c2*x^2 + ... + cn*x^n] *)
Definition poly_sum (cs : list Q) (x : Q) : Q := sum_from cs x 0.

(** The numeric value of an [int]/[float] JSON entry. *)
Definition num_value (v : json) : Q :=
  match v with
  | JBool b => if b then 1 else 0
  | JInt z => inject_Z z
  | JFloat q => q
  | _ => 0
  end.

(** The values of a list of numbers, when every entry is a number. *)
Definition numeric_values (cs : list json) : option (list Q) :=
  if forallb isinstance_num cs then Some (map num_value cs) else None.

(** A table point whose ['raw'] and ['physical'] both pass [float()]. *)
Definition point_ok (parse_float : string -> option Q) (p : json) : bool :=
  match Conversion.point_raw parse_float p, Conversion.point_physical parse_float p with
  | POk _, POk _ => true
  | _, _ => false
  end.

Definition result_is (r : pyres (option Q)) (v : Q) : bool :=
  match r with
  | POk (Some w) => Qeq_bool w v
  | _ => false
  end.

End ConversionSpec.

(** ** Unit tests of [tests/test_conversion.py], evaluated on the model *)
Module ConversionTests.
Import Conversion ConversionSpec.
Local Open Scope string_scope.
Local Open Scope Q_scope.

Definition no_str_float (s : string) : option Q := None.
Definition pt (r y : Z) : json := JObj [("raw", JInt r); ("physical", JInt y)].
Definition simple_table : json := JList [pt 0 0; pt 10 100; pt 20 200].
Definition conv kind payload x := apply_conversion no_str_float kind payload x.

(** [str(KeyError('physical'))] is ['physical'] with its quotes. *)
Example repr_plain : exc_str (KeyError "physical") = "'physical'".
Proof. reflexivity. Qed.
(** A single quote inside switches [repr] to double quotes. *)
Example repr_squote : py_repr "it's" = String dquote ("it's" ++ String dquote EmptyString).
Proof. reflexivity. Qed.
(** A newline and a NUL are escaped. *)
Example repr_escapes : py_repr (String (ascii_of_nat 10) (String (ascii_of_nat 0) "a")) = "'\n\x00a'".
Proof. reflexivity. Qed.

Example linear_basic : result_is (conv "linear" (JObj [("a", JInt 2); ("b", JInt 1)]) 3) 7 = true.
Proof. reflexivity. Qed.
Example linear_missing_a : conv "linear" (JObj [("b", JInt 1)]) 3 = POk None.
Proof. reflexivity. Qed.
Example poly_quadratic :
  result_is (conv "polynomial" (JObj [("coefficients", JList [JInt 1; JInt 0; JInt 2])]) 3) 19 = true.
Proof. reflexivity. Qed.
Example poly_non_numeric :
  conv "polynomial" (JObj [("coefficients", JList [JInt 1; JStr "bad"])]) 3 = POk None.
Proof. reflexivity. Qed.
Example lookup_midpoint : result_is (conv "lookup_table" (JObj [("table", simple_table)]) 5) 50 = true.
Proof. reflexivity. Qed.
Example lookup_clamp_below : result_is (conv "lookup_table" (JObj [("table", simple_table)]) (-5)) 0 = true.
Proof. reflexivity. Qed.
Example lookup_clamp_above : result_is (conv "lookup_table" (JObj [("table", simple_table)]) 30) 200 = true.
Proof. reflexivity. Qed.
Example lookup_unsorted :
  result_is (conv "lookup_table" (JObj [("table", JList [pt 20 200; pt 0 0; pt 10 100])]) 5) 50 = true.
Proof. reflexivity. Qed.
Example lookup_non_linear :
  result_is (conv "lookup_table" (JObj [("table", JList [pt 0 0; pt 10 50; pt 20 200])]) 15) 125 = true.
Proof. reflexivity. Qed.
Example lookup_single_point : conv "lookup_table" (JObj [("table", JList [pt 0 0])]) 5 = POk None.
Proof. reflexivity. Qed.
Example lookup_invalid_entry :
  conv "lookup_table" (JObj [("table", JList [JInt 1; JInt 2; JInt 3])]) 5 = POk None.
Proof. reflexivity. Qed.
Example unknown_kind : conv "custom_formula" (JObj [("expr", JStr "x*2")]) 5 = POk None.
Proof. reflexivity. Qed.

End ConversionTests.

(** ** The backfill worker ([workers/conversion_backfill.py]) and its task
       repository ([repositories/backfill_tasks.py]) *)
Module Backfill.
Import Conversion.

Inductive conversion_status : Type := Converted | RawOnly | ConversionFailed.

(** A row of [telemetry_records]; UUIDs and timestamps are integers. *)
Record telemetry_record : Type := mkRecord {
  rec_id : Z;
  rec_sensor_id : Z;
  rec_timestamp : Z;
  rec_signal : string;
  rec_raw_value : Q;
  rec_physical_value : option Q;
  rec_conversion_status : conversion_status;
  rec_conversion_profile_id : option Z;
  rec_capture_session_id : option Z;
  rec_meta : json
}.

Inductive backfill_status : Type := Pending | Running | Completed | Failed.

(** A row of [conversion_backfill_tasks]. *)
Record backfill_task : Type := mkTask {
  task_id : Z;
  task_sensor_id : Z;
  task_project_id : Z;
  task_conversion_profile_id : Z;
  task_status : backfill_status;
  task_created_at : Z;
  task_started_at : option Z;
  task_completed_at : option Z;
  task_total_records : option Z;
  task_processed_records : Z;
  task_error_message : option string
}.

Record conversion_profile : Type := mkProfile {
  profile_id : Z;
  profile_kind : string;
  profile_payload : json   (** the [jsonb] payload, decoded *)
}.

(** The database. [db_records] lists the rows of [telemetry_records] in
    [(timestamp, id)] order, the order of the page query's [ORDER BY];
    [db_now] is the value of [now()]. *)
Record db : Type := mkDb {
  db_tasks : list backfill_task;
  db_records : list telemetry_record;
  db_profiles : list conversion_profile;
  db_now : Z
}.

Definition set_tasks (s : db) (ts : list backfill_task) : db :=
  mkDb ts (db_records s) (db_profiles s) (db_now s).
Definition set_records (s : db) (rs : list telemetry_record) : db :=
  mkDb (db_tasks s) rs (db_profiles s) (db_now s).

(** *** A state and exception monad *)

Inductive outcome (A : Type) : Type :=
| Ret (a : A) (s : db)
| Exn (e : exc) (s : db)
| OutOfFuel (s : db).
Arguments Ret {A} a s.
Arguments Exn {A} e s.
Arguments OutOfFuel {A} s.

Definition M (A : Type) : Type := db -> outcome A.

Definition ret {A : Type} (a : A) : M A := fun s => Ret a s.
Definition bind {A B : Type} (m : M A) (k : A -> M B) : M B :=
  fun s => match m s with
           | Ret a s' => k a s'
           | Exn e s' => Exn e s'
           | OutOfFuel s' => OutOfFuel s'
           end.
Definition raise {A : Type} (e : exc) : M A := fun s => Exn e s.
Definition lift {A : Type} (r : pyres A) : M A :=
  match r with POk a => ret a | PRaise e => raise e end.
Definition gets {A : Type} (f : db -> A) : M A := fun s => Ret (f s) s.
Definition modify (f : db -> db) : M unit := fun s => Ret tt (f s).
(** [try: m except Exception as exc: h(exc)] *)
Definition try_except {A : Type} (m : M A) (h : exc -> M A) : M A :=
  fun s => match m s with
           | Exn e s' => h e s'
           | o => o
           end.

Notation "x <- m ;; k" := (bind m (fun x => k))
  (at level 61, m at next level, right associativity).
Notation "m ;;; k" := (bind m (fun _ => k))
  (at level 61, right associativity).

(** *** [BackfillTaskRepository] *)

Definition is_pending (t : backfill_task) : bool :=
  match task_status t with Pending => true | _ => false end.

(** [SELECT id ... WHERE status = 'pending' ORDER BY created_at ASC LIMIT 1]:
    among pending tasks of equal [created_at] the first listed is taken. *)
Fixpoint earliest_pending (ts : list backfill_task) : option backfill_task :=
  match ts with
  | [] => None
  | t :: rest =>
      match earliest_pending rest with
      | Some u => if is_pending t && (task_created_at t <=? task_created_at u) then Some t else Some u
      | None => if is_pending t then Some t else None
      end
  end.

Definition update_task (tid : Z) (f : backfill_task -> backfill_task) : M unit :=
  modify (fun s => set_tasks s (map (fun u => if task_id u =? tid then f u else u) (db_tasks s))).

Definition start_task (now : Z) (u : backfill_task) : backfill_task :=
  mkTask (task_id u) (task_sensor_id u) (task_project_id u) (task_conversion_profile_id u)
    Running (task_created_at u) (Some now) (task_completed_at u)
    (task_total_records u) (task_processed_records u) (task_error_message u).

Definition claim_pending : M (option backfill_task) :=
  fun s =>
    match earliest_pending (db_tasks s) with
    | None => Ret None s
    | Some t =>
        match update_task (task_id t) (start_task (db_now s)) s with
        | Ret _ s' => Ret (find (fun u => task_id u =? task_id t) (db_tasks s')) s'
        | Exn e s' => Exn e s'
        | OutOfFuel s' => OutOfFuel s'
        end
    end.

Definition with_total (n : Z) (u : backfill_task) : backfill_task :=
  mkTask (task_id u) (task_sensor_id u) (task_project_id u) (task_conversion_profile_id u)
    (task_status u) (task_created_at u) (task_started_at u) (task_completed_at u)
    (Some n) (task_processed_records u) (task_error_message u).

Definition with_progress (p : Z) (u : backfill_task) : backfill_task :=
  mkTask (task_id u) (task_sensor_id u) (task_project_id u) (task_conversion_profile_id u)
    (task_status u) (task_created_at u) (task_started_at u) (task_completed_at u)
    (task_total_records u) p (task_error_message u).

Definition completed_task (now p : Z) (u : backfill_task) : backfill_task :=
  mkTask (task_id u) (task_sensor_id u) (task_project_id u) (task_conversion_profile_id u)
    Completed (task_created_at u) (task_started_at u) (Some now)
    (task_total_records u) p (task_error_message u).

Definition failed_task (now : Z) (msg : string) (u : backfill_task) : backfill_task :=
  mkTask (task_id u) (task_sensor_id u) (task_project_id u) (task_conversion_profile_id u)
    Failed (task_created_at u) (task_started_at u) (Some now)
    (task_total_records u) (task_processed_records u) (Some msg).

Definition set_total (tid total : Z) : M unit := update_task tid (with_total total).
Definition update_progress (tid processed : Z) : M unit := update_task tid (with_progress processed).
Definition mark_completed (tid processed : Z) : M unit :=
  now <- gets db_now ;; update_task tid (completed_task now processed).
Definition mark_failed (tid : Z) (error_message : string) : M unit :=
  now <- gets db_now ;; update_task tid (failed_task now error_message).

(** *** Telemetry records and the page query *)

Definition BATCH_SIZE : nat := 1000.

(** [datetime.min], in microseconds since the Unix epoch. *)
Definition datetime_min : Z := -62135596800000000.

Definition cursor : Type := (Z * Z)%type.

(** The initial cursor [(last_ts, last_id) = (datetime.min, 0)]. *)
Definition cursor0 : cursor := (datetime_min, 0).

Definition rec_key (r : telemetry_record) : cursor := (rec_timestamp r, rec_id r).

(** SQL row comparison [(a1, b1) < (a2, b2)]. *)
Definition key_ltb (k1 k2 : cursor) : bool :=
  (fst k1 <? fst k2) || ((fst k1 =? fst k2) && (snd k1 <? snd k2)).

Fixpoint keys_ascending (rs : list telemetry_record) : bool :=
  match rs with
  | r1 :: ((r2 :: _) as rest) => key_ltb (rec_key r1) (rec_key r2) && keys_ascending rest
  | _ => true
  end.

Definition option_Z_eqb (a b : option Z) : bool :=
  match a, b with
  | Some x, Some y => x =? y
  | None, None => true
  | _, _ => false
  end.

(** [sensor_id = $1 AND (conversion_profile_id IS DISTINCT FROM $2
                         OR conversion_status IN ('raw_only', 'conversion_failed'))] *)
Definition needs_work (sensor_id profile_id : Z) (r : telemetry_record) : bool :=
  (rec_sensor_id r =? sensor_id) &&
  (negb (option_Z_eqb (rec_conversion_profile_id r) (Some profile_id)) ||
   match rec_conversion_status r with
   | RawOnly | ConversionFailed => true
   | Converted => false
   end).

Definition count_needing (sensor_id profile_id : Z) : M Z :=
  gets (fun s => Z.of_nat (List.length (filter (needs_work sensor_id profile_id) (db_records s)))).

(** The page query: [... AND (timestamp, id) > ($3, $4)
    ORDER BY timestamp ASC, id ASC LIMIT $5]. *)
Definition page_of (sensor_id profile_id : Z) (cur : cursor) (rs : list telemetry_record)
  : list telemetry_record :=
  firstn BATCH_SIZE
    (filter (fun r => needs_work sensor_id profile_id r && key_ltb cur (rec_key r)) rs).

Definition fetch_page (sensor_id profile_id : Z) (cur : cursor) : M (list telemetry_record) :=
  gets (fun s => page_of sensor_id profile_id cur (db_records s)).

(** One parameter tuple of the [executemany] UPDATE. *)
Record row_update : Type := mkUpdate {
  upd_physical_value : option Q;
  upd_status : conversion_status;
  upd_profile_id : Z;
  upd_id : Z;
  upd_sensor_id : Z;
  upd_timestamp : Z
}.

Definition row_update_of (parse_float : string -> option Q) (kind : string) (payload : json)
    (sensor_id profile_id : Z) (row : telemetry_record) : pyres row_update :=
  result <-? apply_conversion parse_float kind payload (rec_raw_value row) ;;
  match result with
  | Some v => POk (mkUpdate (Some v) Converted profile_id (rec_id row) sensor_id (rec_timestamp row))
  | None => POk (mkUpdate None ConversionFailed profile_id (rec_id row) sensor_id (rec_timestamp row))
  end.

(** The [for row in rows] loop that builds [updates]. *)
Fixpoint compute_updates (parse_float : string -> option Q) (kind : string) (payload : json)
    (sensor_id profile_id : Z) (rows : list telemetry_record) : pyres (list row_update) :=
  match rows with
  | [] => POk []
  | row :: rest =>
      u <-? row_update_of parse_float kind payload sensor_id profile_id row ;;
      us <-? compute_updates parse_float kind payload sensor_id profile_id rest ;;
      POk (u :: us)
  end.

(** [SET physical_value = $1, conversion_status = $2, conversion_profile_id = $3] *)
Definition set_conversion (phys : option Q) (st : conversion_status) (pid : Z)
    (r : telemetry_record) : telemetry_record :=
  mkRecord (rec_id r) (rec_sensor_id r) (rec_timestamp r) (rec_signal r) (rec_raw_value r)
    phys st (Some pid) (rec_capture_session_id r) (rec_meta r).

(** [UPDATE ... WHERE id = $4 AND sensor_id = $5 AND timestamp = $6] *)
Definition apply_update (u : row_update) (r : telemetry_record) : telemetry_record :=
  if (rec_id r =? upd_id u) && (rec_sensor_id r =? upd_sensor_id u) && (rec_timestamp r =? upd_timestamp u)
  then set_conversion (upd_physical_value u) (upd_status u) (upd_profile_id u) r
  else r.

Definition apply_updates (us : list row_update) (rs : list telemetry_record) : list telemetry_record :=
  fold_left (fun acc u => map (apply_update u) acc) us rs.

Definition execute_updates (us : list row_update) : M unit :=
  modify (fun s => set_records s (apply_updates us (db_records s))).

(** *** The worker *)

Inductive report : Type :=
| NoTask
| ReportCompleted (tid processed : Z)
| ReportFailed (tid : Z) (msg : string).

Section Worker.
Context (parse_float : string -> option Q).

(** [while processed < total:] with the loop state [(processed, (last_ts,
    last_id))]. The [fuel] bounds the iterations; the worker gives
    [total + 1], and [page_loop_enough_fuel] shows it never runs out. *)
Fixpoint page_loop (fuel : nat) (kind : string) (payload : json) (tid sensor_id profile_id total : Z)
    (processed : Z) (cur : cursor) : M (Z * cursor) :=
  match fuel with
  | O => fun s => OutOfFuel s
  | S fuel' =>
      if processed <? total then
        rows <- fetch_page sensor_id profile_id cur ;;
        match rows with
        | [] => ret (processed, cur)
        | _ :: _ =>
            updates <- lift (compute_updates parse_float kind payload sensor_id profile_id rows) ;;
            let cur' := fold_left (fun _ row => rec_key row) rows cur in
            match updates with
            | [] => ret tt
            | _ :: _ => execute_updates updates
            end ;;;
            let processed' := processed + Z.of_nat (List.length rows) in
            update_progress tid processed' ;;;
            page_loop fuel' kind payload tid sensor_id profile_id total processed' cur'
        end
      else ret (processed, cur)
  end.

Definition find_profile (pid : Z) (ps : list conversion_profile) : option conversion_profile :=
  find (fun p => profile_id p =? pid) ps.

(** The body of the [try] block. *)
Definition backfill_body (task : backfill_task) : M report :=
  let tid := task_id task in
  let sensor_id := task_sensor_id task in
  let pid := task_conversion_profile_id task in
  profile_row <- gets (fun s => find_profile pid (db_profiles s)) ;;
  match profile_row with
  | None =>
      mark_failed tid "Conversion profile not found" ;;;
      ret (ReportFailed tid "profile not found")
  | Some prof =>
      total <- count_needing sensor_id pid ;;
      set_total tid total ;;;
      if total =? 0 then
        mark_completed tid 0 ;;; ret (ReportCompleted tid 0)
      else
        st <- page_loop (S (Z.to_nat total)) (profile_kind prof) (profile_payload prof)
                tid sensor_id pid total 0 cursor0 ;;
        mark_completed tid (fst st) ;;;
        ret (ReportCompleted tid (fst st))
  end.

(** [str(exc)[:500]] *)
Definition truncate_message (m : string) : string := substring 0 500 m.

Definition conversion_backfill : M report :=
  task <- claim_pending ;;
  match task with
  | None => ret NoTask
  | Some t =>
      try_except (backfill_body t)
        (fun e => mark_failed (task_id t) (truncate_message (exc_str e)) ;;;
                  ret (ReportFailed (task_id t) (exc_str e)))
  end.

End Worker.

End Backfill.

(** ** Reference semantics of one backfill run over the records table *)
Module BackfillSpec.
Import Conversion Backfill.

Section Run.
Context (parse_float : string -> option Q) (kind : string) (payload : json)
        (sensor_id profile_id : Z).

(** The value [apply_conversion] gives for the row's raw value ([None] also
    when it raises). *)
Definition conv_result (r : telemetry_record) : option Q :=
  match apply_conversion parse_float kind payload (rec_raw_value r) with
  | POk res => res
  | PRaise _ => None
  end.

(** The row as the worker rewrites it. *)
Definition recomputed (r : telemetry_record) : telemetry_record :=
  set_conversion (conv_result r)
    (match conv_result r with Some _ => Converted | None => ConversionFailed end)
    profile_id r.

Definition key_leb (k1 k2 : cursor) : bool := negb (key_ltb k2 k1).

(** The rows needing work with key in [(lo, hi]], rewritten. *)
Definition mark_range (lo hi : cursor) (rs : list telemetry_record) : list telemetry_record :=
  map (fun r => if needs_work sensor_id profile_id r && key_ltb lo (rec_key r)
                   && key_leb (rec_key r) hi
                then recomputed r else r) rs.

(** The rows needing work with key above [lo], rewritten. *)
Definition mark_all (lo : cursor) (rs : list telemetry_record) : list telemetry_record :=
  map (fun r => if needs_work sensor_id profile_id r && key_ltb lo (rec_key r)
                then recomputed r else r) rs.

(** A row needing work with key in [(lo, hi]]. *)
Definition in_window (lo hi : cursor) (r : telemetry_record) : bool :=
  needs_work sensor_id profile_id r && key_ltb lo (rec_key r) && key_leb (rec_key r) hi.

(** The parameter tuple the worker builds for a row. *)
Definition upd_of (row : telemetry_record) : row_update :=
  mkUpdate (conv_result row)
    (match conv_result row with Some _ => Converted | None => ConversionFailed end)
    profile_id (rec_id row) sensor_id (rec_timestamp row).

(** The state of the page loop after the pages up to cursor [c], for a run
    that started from the table [recs0] at cursor [c0] with
    [processed = p]. *)
Definition loop_inv (c0 : cursor) (recs0 : list telemetry_record) (p : Z) (c : cursor) (s : db) : Prop :=
  db_records s = mark_range c0 c recs0 /\ key_leb c0 c = true /\
  p = Z.of_nat (List.length (filter (in_window c0 c) recs0)) /\
  (forall r, In r recs0 -> in_window c0 c r = true ->
             exists res, apply_conversion parse_float kind payload (rec_raw_value r) = POk res).

(** What a worker run that found its profile does to the table [recs0]:
    either it rewrote every row needing work above [cursor0], all of which
    convert without raising; or it rewrote the rows up to some cursor [c]
    and the conversion raised on a row of the next page. *)
Definition run_effect (recs0 recs1 : list telemetry_record) : Prop :=
  (recs1 = mark_all cursor0 recs0 /\
   forall r, In r recs0 -> needs_work sensor_id profile_id r && key_ltb cursor0 (rec_key r) = true ->
             exists res, apply_conversion parse_float kind payload (rec_raw_value r) = POk res) \/
  (exists c q e, key_leb cursor0 c = true /\ recs1 = mark_range cursor0 c recs0 /\
     (forall r, In r recs0 -> in_window cursor0 c r = true ->
                exists res, apply_conversion parse_float kind payload (rec_raw_value r) = POk res) /\
     In q (page_of sensor_id profile_id c recs0) /\
     apply_conversion parse_float kind payload (rec_raw_value q) = PRaise e).

End Run.

(** [tasks_frame tid s s']: the task table keeps its rows and their ids,
    and only rows with id [tid] may change. *)
Definition tasks_frame (tid : Z) (s s' : db) : Prop :=
  Forall2 (fun u u' => task_id u' = task_id u /\ (task_id u <> tid -> u' = u))
    (db_tasks s) (db_tasks s').

End BackfillSpec.

(** ** Histories of the backfill task table *)
Module TaskQueue.
Import Backfill.

(** [BackfillTaskRepository.create]: [INSERT ... RETURNING *]. The id is
    generated by the database and the status is the column default, not
    given by the code: both are left to the caller here. *)
Definition create_task (t : backfill_task) : M unit :=
  modify (fun s => set_tasks s (db_tasks s ++ [t])).

(** The repository's writes to the task table. *)
Inductive task_op : Type :=
| OpCreate (t : backfill_task)
| OpClaim
| OpSetTotal (tid total : Z)
| OpProgress (tid processed : Z)
| OpCompleted (tid processed : Z)
| OpFailed (tid : Z) (msg : string).

Definition run_op (o : task_op) : M (option backfill_task) :=
  match o with
  | OpCreate t => create_task t ;;; ret None
  | OpClaim => claim_pending
  | OpSetTotal tid n => set_total tid n ;;; ret None
  | OpProgress tid p => update_progress tid p ;;; ret None
  | OpCompleted tid p => mark_completed tid p ;;; ret None
  | OpFailed tid m => mark_failed tid m ;;; ret None
  end.

(** The id a claim took, if any. *)
Definition claimed_of (o : task_op) (r : option backfill_task) : list Z :=
  match o, r with
  | OpClaim, Some t => [task_id t]
  | _, _ => []
  end.

(** A new row gets an id not yet in the table (the primary key). *)
Definition op_fresh (o : task_op) (s : db) : Prop :=
  match o with
  | OpCreate t => ~ In (task_id t) (map task_id (db_tasks s))
  | _ => True
  end.

(** [queue_trace s0 cl s]: from [s0] a sequence of repository calls reaches
    [s]; [cl] lists the ids claimed on the way, latest first. Between two
    calls the records, profiles and clock may change arbitrarily. *)
Inductive queue_trace (s0 : db) : list Z -> db -> Prop :=
| qt_nil : queue_trace s0 [] s0
| qt_op (cl : list Z) (s1 s2 : db) (o : task_op) (r : option backfill_task) :
    queue_trace s0 cl s1 -> op_fresh o s1 -> run_op o s1 = Ret r s2 ->
    queue_trace s0 (claimed_of o r ++ cl) s2
| qt_env (cl : list Z) (s1 : db) (rs : list telemetry_record) (ps : list conversion_profile) (now : Z) :
    queue_trace s0 cl s1 -> queue_trace s0 cl (mkDb (db_tasks s1) rs ps now).

(** The invariant behind "claimed at most once": task ids are distinct,
    claimed ids are distinct, and a claimed id names a row of the table
    that is no longer pending. *)
Definition queue_inv (cl : list Z) (s : db) : Prop :=
  NoDup (map task_id (db_tasks s)) /\ NoDup cl /\
  forall id, In id cl -> In id (map task_id (db_tasks s)) /\
    forall u, In u (db_tasks s) -> task_id u = id -> is_pending u = false.

End TaskQueue.

(** ** A worker run evaluated on a small table *)
Module BackfillTests.
Import Conversion Backfill.
Local Open Scope string_scope.

Definition no_str_float (s : string) : option Q := None.

Definition pending_task (id created pid : Z) : backfill_task :=
  mkTask id 7 1 pid Pending created None None None 0 None.

Definition raw_record (id sensor ts : Z) (raw : Q) : telemetry_record :=
  mkRecord id sensor ts "temperature" raw None RawOnly None None JNull.

(** Sensor 7 has two raw-only readings, sensor 8 one; the rows are listed in
    [(timestamp, id)] order. *)
Definition demo_records : list telemetry_record :=
  [raw_record 1 7 10 1; raw_record 3 8 15 5; raw_record 2 7 20 2].

(** Profile 42 is [physical = 10 * raw]; profile 43 is a lookup table whose
    second point has no ["physical"] field. *)
Definition demo_profiles : list conversion_profile :=
  [mkProfile 42 "linear" (JObj [("a", JInt 10); ("b", JInt 0)]);
   mkProfile 43 "lookup_table"
     (JObj [("table", JList [JObj [("raw", JInt 0); ("physical", JInt 0)];
                             JObj [("raw", JInt 10)]])])].

(** Two pending tasks for sensor 7 and profile 42. *)
Definition demo_db : db :=
  mkDb [pending_task 1 100 42; pending_task 2 200 42] demo_records demo_profiles 1000.

(** One pending task for sensor 7 and the raising profile 43. *)
Definition failing_db : db :=
  mkDb [pending_task 1 100 43] demo_records demo_profiles 1000.

Definition state_of {A : Type} (o : outcome A) : db :=
  match o with Ret _ s | Exn _ s | OutOfFuel s => s end.

Definition run (s : db) : db := state_of (conversion_backfill no_str_float s).
Definition run_report (s : db) : report :=
  match conversion_backfill no_str_float s with Ret r _ => r | _ => NoTask end.
Definition claimed (s : db) : db := state_of (claim_pending s).
Definition claimed_task (s : db) : backfill_task :=
  match claim_pending s with Ret (Some t) _ => t | _ => pending_task 0 0 0 end.

Example demo_first_run : run_report demo_db = ReportCompleted 1 2.
Proof. reflexivity. Qed.
Example demo_second_run : run_report (run demo_db) = ReportCompleted 2 0.
Proof. reflexivity. Qed.
Example demo_converted :
  map rec_physical_value (db_records (run demo_db)) = [Some (10 * 1 + 0)%Q; None; Some (10 * 2 + 0)%Q].
Proof. reflexivity. Qed.
Example failing_run : run_report failing_db = ReportFailed 1 "'physical'".
Proof. reflexivity. Qed.

End BackfillTests.

(** ** The public ingest endpoint ([api/routes/telemetry.py], [api/utils.py],
       [domain/dto.py] of the telemetry ingest service) *)
Module Ingest.
Import Backfill.
Local Open Scope string_scope.

(** The HTTP responses of the route. The text bodies of error responses are
    not modelled. An exception the route does not catch becomes a 500. *)
Inductive response : Type :=
| HttpError (status : Z)
| JsonResponse (status : Z) (body : json).

(** A Python [str], as its sequence of code points. *)
Definition pystr : Type := list Z.

(** The [str] of an ASCII literal. *)
Definition pystr_of (s : string) : pystr :=
  map (fun a => Z.of_nat (Ascii.nat_of_ascii a)) (list_ascii_of_string s).

(** A request: its [Authorization] header, and its body as decoded by
    [request.json()] ([None] when the body is not valid JSON). *)
Record request : Type := mkRequest {
  req_authorization : option pystr;
  req_body : option json
}.

(** [str.isspace] on one code point: the characters of Unicode category
    [Zs] or bidirectional class [WS], [B] or [S], as Python 3 lists them. *)
Definition is_py_space (c : Z) : bool :=
  ((Z.leb 9 c) && (Z.leb c 13)) || ((Z.leb 28 c) && (Z.leb c 32)) || (Z.eqb c 133) || (Z.eqb c 160) ||
  (Z.eqb c 5760) || ((Z.leb 8192 c) && (Z.leb c 8202)) || (Z.eqb c 8232) || (Z.eqb c 8233) ||
  (Z.eqb c 8239) || (Z.eqb c 8287) || (Z.eqb c 12288).

Fixpoint drop_spaces (l : pystr) : pystr :=
  match l with
  | c :: t => if is_py_space c then drop_spaces t else l
  | [] => []
  end.

(** [str.strip()] *)
Definition strip (s : pystr) : pystr := rev (drop_spaces (rev (drop_spaces s))).

(** [str.startswith] *)
Fixpoint startswith (h p : pystr) : bool :=
  match p, h with
  | [], _ => true
  | x :: p', y :: h' => Z.eqb x y && startswith h' p'
  | _ :: _, [] => false
  end.

Definition BEARER : pystr := pystr_of "Bearer ".

(** [_extract_sensor_token]: [None] is [raise web.HTTPUnauthorized]. *)
Definition extract_sensor_token (auth_header : option pystr) : option pystr :=
  match auth_header with
  | None => None
  | Some [] => None
  | Some h =>
      if negb (startswith h BEARER) then None
      else
        let token := strip (skipn (List.length BEARER) h) in
        match token with
        | [] => None
        | _ :: _ => Some token
        end
  end.

(** [read_json]: [None] is [raise web.HTTPBadRequest]. *)
Definition read_json (body : option json) : option (list (string * json)) :=
  match body with
  | Some (JObj kvs) => Some kvs
  | _ => None
  end.

(** *** [TelemetryIngestDTO.model_validate] *)

Record reading_dto : Type := mkReading {
  reading_timestamp : Z;
  reading_raw_value : Q;
  reading_physical_value : option Q;
  reading_meta : list (string * json)
}.

Record ingest_dto : Type := mkIngestDTO {
  dto_sensor_id : Z;
  dto_run_id : option Z;
  dto_capture_session_id : option Z;
  dto_meta : list (string * json);
  dto_readings : list reading_dto
}.

(** [conlist(TelemetryReadingDTO, min_length=1, max_length=10_000)] *)
Definition MIN_READINGS : nat := 1.
Definition MAX_READINGS : nat := 100 * 100.

Section Validation.
(** pydantic's coercions of a single value, left abstract: to [UUID], to
    [datetime] (in microseconds) and to [float]. *)
Context (parse_uuid : json -> option Z) (parse_datetime : json -> option Z)
        (coerce_float : json -> option Q).

(** [model_config = ConfigDict(extra="forbid")] *)
Definition keys_allowed (allowed : list string) (kvs : list (string * json)) : bool :=
  forallb (fun kv => existsb (String.eqb (fst kv)) allowed) kvs.

(** [meta: dict[str, Any] = Field(default_factory=dict)] *)
Definition validate_dict_field (v : option json) : option (list (string * json)) :=
  match v with
  | None => Some []
  | Some (JObj m) => Some m
  | Some _ => None
  end.

(** [X | None = None] *)
Definition validate_optional {A : Type} (parse : json -> option A) (v : option json) : option (option A) :=
  match v with
  | None | Some JNull => Some None
  | Some j => option_map Some (parse j)
  end.

Definition validate_reading (j : json) : option reading_dto :=
  match j with
  | JObj kvs =>
      if keys_allowed ["timestamp"; "raw_value"; "physical_value"; "meta"] kvs then
        match obj_get "timestamp" kvs, obj_get "raw_value" kvs with
        | Some tj, Some rj =>
            match parse_datetime tj, coerce_float rj,
                  validate_optional coerce_float (obj_get "physical_value" kvs),
                  validate_dict_field (obj_get "meta" kvs) with
            | Some ts, Some raw, Some phys, Some meta => Some (mkReading ts raw phys meta)
            | _, _, _, _ => None
            end
        | _, _ => None
        end
      else None
  | _ => None
  end.

Fixpoint validate_readings (l : list json) : option (list reading_dto) :=
  match l with
  | [] => Some []
  | j :: t =>
      match validate_reading j, validate_readings t with
      | Some r, Some rs => Some (r :: rs)
      | _, _ => None
      end
  end.

(** [None] is [raise ValidationError]. *)
Definition validate_ingest (body : list (string * json)) : option ingest_dto :=
  if keys_allowed ["sensor_id"; "run_id"; "capture_session_id"; "meta"; "readings"] body then
    match obj_get "sensor_id" body, obj_get "readings" body with
    | Some sj, Some (JList rs) =>
        if ((MIN_READINGS <=? List.length rs) && (List.length rs <=? MAX_READINGS))%nat then
          match parse_uuid sj, validate_optional parse_uuid (obj_get "run_id" body),
                validate_optional parse_uuid (obj_get "capture_session_id" body),
                validate_dict_field (obj_get "meta" body), validate_readings rs with
          | Some sid, Some run, Some cs, Some meta, Some readings =>
              Some (mkIngestDTO sid run cs meta readings)
          | _, _, _, _, _ => None
          end
        else None
    | _, _ => None
    end
  else None.

End Validation.

(** *** The route *)

(** What [TelemetryIngestService.ingest] returns or raises. *)
Inductive service_exc : Type :=
| UnauthorizedError
| ScopeMismatchError
| NotFoundError
| OtherException.

Inductive service_outcome : Type :=
| Accepted (n : Z)
| Raised (e : service_exc).

(** The telemetry table seen by the ingest path. *)
Definition store : Type := list telemetry_record.

Section Route.
Context (parse_uuid : json -> option Z) (parse_datetime : json -> option Z)
        (coerce_float : json -> option Q)
        (service_ingest : ingest_dto -> pystr -> store -> service_outcome * store).

Definition accepted_body (n : Z) : json :=
  JObj [("status", JStr "accepted"); ("accepted", JInt n)].

(** [ingest_telemetry] *)
Definition ingest_telemetry (req : request) (st : store) : response * store :=
  match extract_sensor_token (req_authorization req) with
  | None => (HttpError 401, st)
  | Some token =>
      match read_json (req_body req) with
      | None => (HttpError 400, st)
      | Some body =>
          match validate_ingest parse_uuid parse_datetime coerce_float body with
          | None => (HttpError 400, st)
          | Some dto =>
              match service_ingest dto token st with
              | (Accepted accepted, st') => (JsonResponse 202 (accepted_body accepted), st')
              | (Raised UnauthorizedError, st') => (HttpError 401, st')
              | (Raised ScopeMismatchError, st') => (HttpError 400, st')
              | (Raised NotFoundError, st') => (HttpError 404, st')
              | (Raised OtherException, st') => (HttpError 500, st')
              end
          end
      end
  end.

End Route.

(** *** The ingest service *)

Section Service.
(** The token check on [(sensor_id, token_hash)], the scope checks and the
    conversion of one reading into a row are left abstract. *)
Context (token_matches : Z -> pystr -> bool) (check_scope : ingest_dto -> option service_exc)
        (row_of : ingest_dto -> reading_dto -> telemetry_record).

(** Modelled from the spec: [TelemetryIngestService.ingest] authenticates
    the token, validates the scope, then inserts every reading of the batch
    in one statement and returns their number; a failure writes nothing. *)
Definition spec_service_ingest (dto : ingest_dto) (token : pystr) (st : store) : service_outcome * store :=
  if negb (token_matches (dto_sensor_id dto) token) then (Raised UnauthorizedError, st)
  else
    match check_scope dto with
    | Some e => (Raised e, st)
    | None => (Accepted (Z.of_nat (List.length (dto_readings dto))), (st ++ map (row_of dto) (dto_readings dto))%list)
    end.

End Service.

End Ingest.

(** ** The webhook delivery store, modelled from the spec *)
Module Webhooks.
Local Open Scope string_scope.

Inductive webhook_status : Type := DPending | DInProgress | DSucceeded | DFailed.

(** Modelled from the spec: a row of [webhook_deliveries]. *)
Record delivery : Type := mkDelivery {
  delivery_id : Z;
  delivery_subscription_id : Z;
  delivery_project_id : Z;
  delivery_event_type : string;
  delivery_target_url : string;
  delivery_secret : option string;
  delivery_request_body : json;
  delivery_status : webhook_status;
  delivery_attempt_count : Z;
  delivery_dedup_key : option string
}.

Definition has_dedup_key (k : string) (d : delivery) : bool :=
  match delivery_dedup_key d with Some k' => String.eqb k' k | None => false end.

(** The non-NULL dedup keys of the table, one per row. *)
Definition dedup_keys (ds : list delivery) : list string :=
  flat_map (fun d => match delivery_dedup_key d with Some k => [k] | None => [] end) ds.

(** Modelled from the spec: [WebhookDeliveryStore.enqueue] inserts a
    pending delivery, [ON CONFLICT (dedup_key)] returning the row already
    holding that key instead; [new_id] is the id the database assigns. *)
Definition enqueue (new_id subscription_id project_id : Z) (event_type target_url : string)
    (secret : option string) (request_body : json) (dedup_key : option string)
    (ds : list delivery) : delivery * list delivery :=
  let fresh := mkDelivery new_id subscription_id project_id event_type target_url secret
                 request_body DPending 0 dedup_key in
  match dedup_key with
  | Some k =>
      match find (has_dedup_key k) ds with
      | Some d => (d, ds)
      | None => (fresh, (ds ++ [fresh])%list)
      end
  | None => (fresh, (ds ++ [fresh])%list)
  end.

(** Modelled from the spec: the other writes to a delivery row (claim,
    attempt bookkeeping, retry) update its status, counters and times, never
    its dedup key. *)
Definition update_delivery (did : Z) (f : delivery -> delivery) (ds : list delivery) : list delivery :=
  map (fun d => if Z.eqb (delivery_id d) did then f d else d) ds.

Inductive delivery_trace (ds0 : list delivery) : list delivery -> Prop :=
| dt_nil : delivery_trace ds0 ds0
| dt_enqueue (ds : list delivery) new_id sub proj ev url secret body key :
    delivery_trace ds0 ds ->
    delivery_trace ds0 (snd (enqueue new_id sub proj ev url secret body key ds))
| dt_update (ds : list delivery) (did : Z) (f : delivery -> delivery) :
    delivery_trace ds0 ds ->
    (forall d, delivery_dedup_key (f d) = delivery_dedup_key d) ->
    delivery_trace ds0 (update_delivery did f ds).

End Webhooks.

(** ** Requests to the ingest endpoint evaluated on the model *)
Module IngestTests.
Import Backfill Ingest.
Local Open Scope string_scope.

(** Stand-ins for pydantic's coercions: integers as UUIDs and timestamps,
    numbers as floats. *)
Definition toy_uuid (j : json) : option Z := match j with JInt z => Some z | _ => None end.
Definition toy_datetime (j : json) : option Z := match j with JInt z => Some z | _ => None end.
Definition toy_float (j : json) : option Q :=
  match j with JInt z => Some (inject_Z z) | JFloat q => Some q | _ => None end.

(** A service that raises whatever it is given. *)
Definition failing_service (e : service_exc) (dto : ingest_dto) (token : pystr) (st : store)
  : service_outcome * store := (Raised e, st).

(** The spec's service where token ["abc"] belongs to sensor 7 and every
    scope is valid. *)
Definition token_of_sensor_7 (sid : Z) (token : pystr) : bool :=
  Z.eqb sid 7 && (if list_eq_dec Z.eq_dec token (pystr_of "abc") then true else false).
Definition no_scope_error (dto : ingest_dto) : option service_exc := None.
Definition row_of_reading (dto : ingest_dto) (r : reading_dto) : telemetry_record :=
  mkRecord 0 (dto_sensor_id dto) (reading_timestamp r) "" (reading_raw_value r)
    (reading_physical_value r) RawOnly None (dto_capture_session_id dto) JNull.

Definition empty_batch : json := JObj [("sensor_id", JInt 7); ("readings", JList [])].
Definition one_reading_batch : json :=
  JObj [("sensor_id", JInt 7); ("readings", JList [JObj [("timestamp", JInt 10); ("raw_value", JInt 3)]])].

Example token_stripped : extract_sensor_token (Some (pystr_of "Bearer  abc ")) = Some (pystr_of "abc").
Proof. reflexivity. Qed.
Example token_blank : extract_sensor_token (Some (pystr_of "Bearer   ")) = None.
Proof. reflexivity. Qed.
Example token_wrong_scheme : extract_sensor_token (Some (pystr_of "Basic abc")) = None.
Proof. reflexivity. Qed.
(** A no-break space (U+00A0) is white space to [str.strip]. *)
Example token_nbsp : extract_sensor_token (Some (BEARER ++ [160%Z])%list) = None.
Proof. reflexivity. Qed.
Example one_reading_accepted :
  fst (ingest_telemetry toy_uuid toy_datetime toy_float
         (spec_service_ingest token_of_sensor_7 no_scope_error row_of_reading)
         (mkRequest (Some (pystr_of "Bearer abc")) (Some one_reading_batch)) [])
  = JsonResponse 202 (accepted_body 1).
Proof. reflexivity. Qed.

End IngestTests.

(* ================================================================== *)
(** ** The active-profile cache of the ingest service ([services/profile_cache.py]) *)
Module ProfileCache.

(** [CachedProfile] *)
Record cached_profile : Type := mkCachedProfile {
  cached_profile_id : Z;
  cached_kind : string;
  cached_payload : json
}.

(** The columns the query reads: a row of [sensors] and a row of
    [conversion_profiles]. *)
Record sensor_row : Type := mkSensorRow {
  sensor_row_id : Z;
  sensor_active_profile_id : option Z
}.

Record profile_row : Type := mkProfileRow {
  cp_id : Z;
  cp_kind : string;
  cp_payload : json;   (** as [fetchrow] returns it: a [str] is [JStr] *)
  cp_status : string
}.

Record profile_db : Type := mkProfileDb {
  pdb_sensors : list sensor_row;
  pdb_profiles : list profile_row
}.

(** [self._cache]: sensor id to [(profile, expiry)], the expiry a reading
    of [time.monotonic()]. *)
Definition cache : Type := Z -> option (option cached_profile * Q).

(** [ProfileCache.__init__]: [self._cache = {}] *)
Definition empty_cache : cache := fun _ => None.

(** [self._cache[sensor_id] = entry] *)
Definition cache_set (c : cache) (sensor_id : Z) (entry : option cached_profile * Q) : cache :=
  fun k => if k =? sensor_id then Some entry else c k.

(** [ProfileCache.invalidate]: [self._cache.pop(sensor_id, None)] *)
Definition invalidate (sensor_id : Z) (c : cache) : cache :=
  fun k => if k =? sensor_id then None else c k.

Section Cache.
(** [json.loads] on a [str] payload, left abstract; it may raise. *)
Context (json_loads : string -> pyres json).

(** [SELECT cp.id, cp.kind, cp.payload FROM sensors s
     JOIN conversion_profiles cp ON cp.id = s.active_profile_id
     WHERE s.id = $1 AND cp.status = 'active'] with [fetchrow]; both ids are
    primary keys, so the join has at most one row. *)
Definition fetch_active_row (d : profile_db) (sensor_id : Z) : option profile_row :=
  match find (fun s => sensor_row_id s =? sensor_id) (pdb_sensors d) with
  | None => None
  | Some s =>
      match sensor_active_profile_id s with
      | None => None
      | Some pid => find (fun p => (cp_id p =? pid) && String.eqb (cp_status p) "active") (pdb_profiles d)
      end
  end.

(** [ProfileCache._load_from_db] *)
Definition load_from_db (d : profile_db) (sensor_id : Z) : pyres (option cached_profile) :=
  match fetch_active_row d sensor_id with
  | None => POk None
  | Some row =>
      payload <-? match cp_payload row with
                  | JStr s => json_loads s
                  | p => POk p
                  end ;;
      POk (Some (mkCachedProfile (cp_id row) (cp_kind row) payload))
  end.

(** [ProfileCache.get_active_profile] with [self._ttl = ttl], the database
    [d] behind [conn] and [now = time.monotonic()]. A call runs to its end
    before the next one starts. *)
Definition get_active_profile (ttl : Q) (d : profile_db) (now : Q) (sensor_id : Z) (c : cache)
  : pyres (option cached_profile) * cache :=
  let reload :=
    match load_from_db d sensor_id with
    | POk profile => (POk profile, cache_set c sensor_id (profile, (now + ttl)%Q))
    | PRaise e => (PRaise e, c)
    end in
  match c sensor_id with
  | Some (profile, expiry) => if Conversion.qlt now expiry then (POk profile, c) else reload
  | None => reload
  end.

(** The calls made on one [ProfileCache]: [dbt t] is the database at
    monotonic time [t], and the clock never goes back. *)
Inductive cache_trace (ttl : Q) (dbt : Q -> profile_db) : Q -> cache -> Prop :=
| ct_init (now : Q) : cache_trace ttl dbt now empty_cache
| ct_get (now now' : Q) (sensor_id : Z) (c : cache) :
    cache_trace ttl dbt now c -> (now <= now')%Q ->
    cache_trace ttl dbt now' (snd (get_active_profile ttl (dbt now') now' sensor_id c))
| ct_invalidate (now : Q) (sensor_id : Z) (c : cache) :
    cache_trace ttl dbt now c -> cache_trace ttl dbt now (invalidate sensor_id c).

End Cache.

End ProfileCache.

(** ** Inputs for the properties of the worker, the route and the cache *)
Module ExtraTests.
Import Conversion Backfill Ingest ProfileCache.
Local Open Scope string_scope.

(** The [physical = 10 * raw] profile 42 of [BackfillTests.demo_profiles]. *)
Definition linear_10 : conversion_profile :=
  mkProfile 42 "linear" (JObj [("a", JInt 10); ("b", JInt 0)]).

(** A pending task for sensor 7 whose profile 99 does not exist. *)
Definition missing_profile_db : db :=
  mkDb [BackfillTests.pending_task 1 100 99] BackfillTests.demo_records BackfillTests.demo_profiles 1000.

(** A pending task for sensor 7 and profile 42, with readings of sensor 8 only. *)
Definition idle_db : db :=
  mkDb [BackfillTests.pending_task 1 100 42] [BackfillTests.raw_record 3 8 15 5] BackfillTests.demo_profiles 1000.

(** A batch with a field the DTO does not declare. *)
Definition extra_key_fields : list (string * json) :=
  [("sensor_id", JInt 7);
   ("readings", JList [JObj [("timestamp", JInt 10); ("raw_value", JInt 3)]]);
   ("source", JStr "lab")].
Definition extra_key_request : request := mkRequest (Some (pystr_of "Bearer abc")) (Some (JObj extra_key_fields)).

(** Sensor 7 has the active profile 42, stored as a dict. *)
Definition demo_profile_db : profile_db :=
  mkProfileDb [mkSensorRow 7 (Some 42)]
              [mkProfileRow 42 "linear" (JObj [("a", JInt 10); ("b", JInt 0)]) "active"].
Definition demo_cached : cached_profile :=
  mkCachedProfile 42 "linear" (JObj [("a", JInt 10); ("b", JInt 0)]).
Definition failing_loads (s : string) : pyres json := PRaise (ValueError "Expecting value").

End ExtraTests.


(** * Proofs *)

(** ** The polynomial conversion *)
Module PolynomialProofs.
Import Conversion ConversionSpec.
Local Open Scope Q_scope.

Lemma py_float_num (parse_float : string -> option Q) (c : json) :
  isinstance_num c = true -> py_float parse_float c = POk (num_value c).
Proof. destruct c; simpl; congruence. Qed.

Lemma poly_loop_sum (parse_float : string -> option Q) (x : Q) :
  forall cs result k,
    forallb isinstance_num cs = true ->
    exists v, poly_loop parse_float cs x result (qpow x k) = POk (Some v) /\
              v == result + sum_from (map num_value cs) x k.
Proof.
  induction cs as [|c cs IH]; intros result k Hnum; simpl in *.
  - exists result. split; [reflexivity | ring].
  - apply andb_prop in Hnum as [Hc Hcs].
    rewrite Hc, (py_float_num parse_float c Hc). simpl.
    destruct (IH (result + num_value c * qpow x k) (S k) Hcs) as [v [Hv Heq]].
    exists v. split; [exact Hv |]. rewrite Heq. ring.
Qed.

Lemma poly_loop_non_numeric (parse_float : string -> option Q) (x : Q) :
  forall cs result power,
    existsb (fun c => negb (isinstance_num c)) cs = true ->
    poly_loop parse_float cs x result power = POk None.
Proof.
  induction cs as [|c cs IH]; intros result power H; simpl in *; [discriminate |].
  destruct (isinstance_num c) eqn:Hc; simpl in *.
  - rewrite (py_float_num parse_float c Hc). simpl. apply IH; exact H.
  - reflexivity.
Qed.

(** Claim C1: for a payload whose ['coefficients'] is a non-empty list of
    numbers (entries passing [isinstance(c, (int, float))]) [c0..cn],
    [apply_conversion("polynomial", payload, x)] returns
    [c0 + c1*x + ... + cn*x^n]; when ['coefficients'] is missing, not a
    list, empty, or has a non-numeric entry, it returns [None]. *)
Theorem polynomial_sum_of_powers (parse_float : string -> option Q)
    (kvs : list (string * json)) (x : Q) :
  (forall cs vs,
      obj_get "coefficients" kvs = Some (JList cs) -> cs <> [] ->
      numeric_values cs = Some vs ->
      exists v, apply_conversion parse_float "polynomial" (JObj kvs) x = POk (Some v) /\
                v == poly_sum vs x) /\
  (match obj_get "coefficients" kvs with
   | Some (JList cs) => cs = [] \/ existsb (fun c => negb (isinstance_num c)) cs = true
   | _ => True
   end ->
   apply_conversion parse_float "polynomial" (JObj kvs) x = POk None).
Proof.
  unfold apply_conversion; simpl. unfold apply_polynomial; simpl.
  split.
  - intros cs vs Hget Hne Hvals. rewrite Hget.
    unfold numeric_values in Hvals.
    destruct (forallb isinstance_num cs) eqn:Hall; [|discriminate].
    injection Hvals as <-.
    destruct cs as [|c cs']; [congruence|].
    destruct (poly_loop_sum parse_float x (c :: cs') 0 0 Hall) as [v [Hv Heq]].
    exists v. split; [exact Hv |]. rewrite Heq. unfold poly_sum. ring.
  - destruct (obj_get "coefficients" kvs) as [[| | | | |cs|]|]; intro H; try reflexivity.
    destruct H as [->|H]; [reflexivity|].
    destruct cs as [|c cs']; [reflexivity|].
    apply poly_loop_non_numeric; exact H.
Qed.

Lemma polynomial_sum_of_powers_witness :
  (exists v, apply_conversion ConversionTests.no_str_float "polynomial"
               (JObj [("coefficients"%string, JList [JInt 1; JInt 0; JInt 2])]) 3 = POk (Some v) /\
             v == poly_sum [1; 0; 2] 3) /\
  apply_conversion ConversionTests.no_str_float "polynomial"
    (JObj [("coefficients"%string, JList [])]) 3 = POk None.
Proof.
  split.
  - apply (proj1 (polynomial_sum_of_powers ConversionTests.no_str_float
                    [("coefficients"%string, JList [JInt 1; JInt 0; JInt 2])] 3)
             [JInt 1; JInt 0; JInt 2] [1; 0; 2]);
      [reflexivity | discriminate | reflexivity].
  - apply (proj2 (polynomial_sum_of_powers ConversionTests.no_str_float
                    [("coefficients"%string, JList [])] 3)).
    simpl. left. reflexivity.
Defined.

End PolynomialProofs.

(** ** The lookup-table conversion *)
Module LookupProofs.
Import Conversion ConversionSpec.
Local Open Scope Q_scope.

Section WithParse.
Context (parse_float : string -> option Q).

Lemma point_ok_inv (p : json) :
  point_ok parse_float p = true ->
  (exists r, point_raw parse_float p = POk r) /\ (exists y, point_physical parse_float p = POk y).
Proof.
  unfold point_ok.
  destruct (point_raw parse_float p) as [r|]; destruct (point_physical parse_float p) as [y|];
    try discriminate; intros _; eauto.
Qed.

Lemma decorate_ok (tbl : list json) :
  forallb (point_ok parse_float) tbl = true ->
  exists keyed, decorate parse_float tbl = POk keyed /\ map snd keyed = tbl.
Proof.
  induction tbl as [|p tbl IH]; simpl; intro H.
  - exists []. split; reflexivity.
  - apply andb_prop in H as [Hp Htl].
    destruct (point_ok_inv p Hp) as [[r Hr] _].
    destruct (IH Htl) as [keyed [Hk Hm]].
    rewrite Hr. simpl. rewrite Hk. simpl.
    exists ((r, p) :: keyed). split; [reflexivity | simpl; congruence].
Qed.

Lemma in_insert_by_key (kp y : Q * json) (l : list (Q * json)) :
  In y (insert_by_key kp l) -> y = kp \/ In y l.
Proof.
  induction l as [|z l IH]; simpl.
  - intros [H|[]]. left; congruence.
  - destruct (qlt (fst z) (fst kp)); simpl.
    + intros [H|H]; [right; left; exact H|].
      destruct (IH H) as [H'|H']; [left; exact H' | right; right; exact H'].
    + intros [H|[H|H]]; [left; congruence | right; left; exact H | right; right; exact H].
Qed.

Lemma in_sort_by_key (y : Q * json) (l : list (Q * json)) :
  In y (sort_by_key l) -> In y l.
Proof.
  induction l as [|kp l IH]; simpl; [tauto|].
  intro H. destruct (in_insert_by_key kp y _ H) as [H'|H']; [left; congruence | right; auto].
Qed.

Lemma length_insert_by_key (kp : Q * json) (l : list (Q * json)) :
  List.length (insert_by_key kp l) = S (List.length l).
Proof.
  induction l as [|z l IH]; simpl; [reflexivity|].
  destruct (qlt (fst z) (fst kp)); simpl; congruence.
Qed.

Lemma length_sort_by_key (l : list (Q * json)) :
  List.length (sort_by_key l) = List.length l.
Proof.
  induction l as [|kp l IH]; simpl; [reflexivity|].
  rewrite length_insert_by_key. congruence.
Qed.

Lemma last_nonempty_default {A : Type} (a : A) (l : list A) (d d' : A) :
  last (a :: l) d = last (a :: l) d'.
Proof.
  revert a. induction l as [|b l IH]; intro a; [reflexivity|].
  change (last (b :: l) d = last (b :: l) d'). apply IH.
Qed.

Lemma last_in_cons {A : Type} (a : A) (l : list A) (d : A) :
  In (last (a :: l) d) (a :: l).
Proof.
  revert a. induction l as [|b l IH]; intro a; [left; reflexivity|].
  right. change (In (last (b :: l) d) (b :: l)). apply IH.
Qed.

(** Between the raw values of its first and last point, the interpolation
    loop always finds a segment, whatever the order of the points. *)
Lemma interp_loop_total (x : Q) :
  forall rest p0 lo hi,
    (forall p, In p (p0 :: rest) -> point_ok parse_float p = true) ->
    rest <> [] ->
    point_raw parse_float p0 = POk lo -> Qle_bool lo x = true ->
    point_raw parse_float (last (p0 :: rest) p0) = POk hi -> Qle_bool x hi = true ->
    exists v, interp_loop parse_float (p0 :: rest) x = POk (Some v).
Proof.
  induction rest as [|p1 rest IH]; intros p0 lo hi Hok Hne Hlo Hlox Hhi Hxhi; [congruence|].
  destruct (point_ok_inv p0 (Hok p0 (or_introl eq_refl))) as [_ [y0 Hy0]].
  destruct (point_ok_inv p1 (Hok p1 (or_intror (or_introl eq_refl)))) as [[x1 Hx1] [y1 Hy1]].
  change (interp_loop parse_float (p0 :: p1 :: rest) x) with
    (x0 <-? point_raw parse_float p0 ;;
     y0 <-? point_physical parse_float p0 ;;
     x1 <-? point_raw parse_float p1 ;;
     y1 <-? point_physical parse_float p1 ;;
     if Qle_bool x0 x && Qle_bool x x1 then
       let t := if negb (Qeq_bool x1 x0) then (x - x0) / (x1 - x0) else 0 in
       POk (Some (y0 + t * (y1 - y0)))
     else interp_loop parse_float (p1 :: rest) x).
  rewrite Hlo, Hy0, Hx1, Hy1. simpl. rewrite Hlox. simpl.
  destruct (Qle_bool x x1) eqn:Hxx1; [eexists; reflexivity|].
  destruct rest as [|p2 rest'].
  - simpl in Hhi. congruence.
  - apply (IH p1 x1 hi).
    + intros p Hp. apply Hok. right. exact Hp.
    + discriminate.
    + exact Hx1.
    + apply Qle_bool_iff. apply Qlt_le_weak. apply Qnot_le_lt.
      intro Hle. apply Qle_bool_iff in Hle. congruence.
    + rewrite <- Hhi.
      change (last (p0 :: p1 :: p2 :: rest') p0) with (last (p1 :: p2 :: rest') p0).
      f_equal. apply last_nonempty_default.
    + exact Hxhi.
Qed.

(** Claim C9: when ['table'] holds at least two points whose ['raw'] and
    ['physical'] fields both pass [float()], the lookup-table conversion
    returns a value for every raw input: the [return None] after the
    interpolation loop is never reached. *)
Theorem lookup_table_total (kvs : list (string * json)) (tbl : list json) (x : Q) :
  obj_get "table" kvs = Some (JList tbl) ->
  (2 <= List.length tbl)%nat ->
  forallb (point_ok parse_float) tbl = true ->
  exists v, apply_conversion parse_float "lookup_table" (JObj kvs) x = POk (Some v).
Proof.
  intros Hget Hlen Hall.
  unfold apply_conversion; simpl. unfold apply_lookup_table; simpl. rewrite Hget.
  destruct (Nat.ltb_ge (List.length tbl) 2) as [_ Hltb]. rewrite (Hltb Hlen).
  destruct (decorate_ok tbl Hall) as [keyed [Hk Hm]]. rewrite Hk.
  assert (Hpts : forall p, In p (map snd (sort_by_key keyed)) -> point_ok parse_float p = true).
  { intros p Hp. apply in_map_iff in Hp as [kp [Hkp Hin]].
    apply in_sort_by_key in Hin.
    assert (Hp : In p tbl) by (rewrite <- Hm, <- Hkp; apply in_map; exact Hin).
    rewrite forallb_forall in Hall. apply Hall. exact Hp. }
  assert (Hl : List.length (map snd (sort_by_key keyed)) = List.length tbl).
  { rewrite length_map, length_sort_by_key, <- Hm, length_map. reflexivity. }
  destruct (map snd (sort_by_key keyed)) as [|first rest] eqn:Hsp;
    [simpl in Hl; lia|].
  destruct (point_ok_inv first (Hpts first (or_introl eq_refl))) as [[lo Hlo] [ylo Hylo]].
  rewrite Hlo. cbn [pybind].
  destruct (Qle_bool x lo) eqn:Hxlo.
  { rewrite Hylo. eexists; reflexivity. }
  assert (Hfin : In (last (first :: rest) first) (first :: rest)).
  { apply last_in_cons. }
  destruct (point_ok_inv _ (Hpts _ Hfin)) as [[hi Hhi] [yhi Hyhi]].
  rewrite Hhi. cbn [pybind].
  destruct (Qle_bool hi x) eqn:Hhix.
  { rewrite Hyhi. eexists; reflexivity. }
  apply (interp_loop_total x rest first lo hi Hpts).
  - intros ->. simpl in Hl. lia.
  - exact Hlo.
  - apply Qle_bool_iff. apply Qlt_le_weak. apply Qnot_le_lt.
    intro Hle. apply Qle_bool_iff in Hle. congruence.
  - exact Hhi.
  - apply Qle_bool_iff. apply Qlt_le_weak. apply Qnot_le_lt.
    intro Hle. apply Qle_bool_iff in Hle. congruence.
Qed.

End WithParse.

Lemma lookup_table_total_witness :
  exists v, apply_conversion ConversionTests.no_str_float "lookup_table"
              (JObj [("table"%string, ConversionTests.simple_table)]) 15 = POk (Some v).
Proof.
  apply (lookup_table_total ConversionTests.no_str_float
           [("table"%string, ConversionTests.simple_table)]
           [ConversionTests.pt 0 0; ConversionTests.pt 10 100; ConversionTests.pt 20 200] 15);
    [reflexivity | simpl; lia | reflexivity].
Defined.

(** Claim C2 (failing input): a table whose second point has no
    ['physical'] field is malformed, yet the conversion does not return
    [None]: the ['physical'] lookups run outside the [try] that guards the
    sort, so the [KeyError] escapes [apply_conversion]. *)
Theorem lookup_table_missing_physical_raises :
  apply_conversion ConversionTests.no_str_float "lookup_table"
    (JObj [("table"%string, JList [JObj [("raw"%string, JInt 0); ("physical"%string, JInt 0)];
                                   JObj [("raw"%string, JInt 10)]])]) 5
  = PRaise (KeyError "physical").
Proof. reflexivity. Qed.

End LookupProofs.

(** ** Which inputs a conversion raises on *)
Module ConversionShape.
Import Conversion ConversionSpec.
Local Open Scope Q_scope.

Section WithParse.
Context (parse_float : string -> option Q).

Lemma poly_loop_no_raise (x : Q) :
  forall cs result power e, poly_loop parse_float cs x result power <> PRaise e.
Proof.
  induction cs as [|c cs IH]; intros result power e; simpl; [discriminate|].
  destruct (isinstance_num c) eqn:Hc; [|discriminate].
  rewrite (PolynomialProofs.py_float_num parse_float c Hc). simpl. apply IH.
Qed.

Lemma decorate_raws (tbl : list json) (keyed : list (Q * json)) :
  decorate parse_float tbl = POk keyed ->
  map snd keyed = tbl /\ forall p, In p tbl -> exists r, point_raw parse_float p = POk r.
Proof.
  revert keyed. induction tbl as [|p tbl IH]; intros keyed H; simpl in H.
  - injection H as <-. split; [reflexivity | intros p []].
  - destruct (point_raw parse_float p) as [k|e] eqn:Hp; [|discriminate]. simpl in H.
    destruct (decorate parse_float tbl) as [ks|e] eqn:Hd; [|discriminate]. simpl in H.
    injection H as <-. destruct (IH ks eq_refl) as [Hm Hall]. split.
    + simpl. congruence.
    + intros p' [<-|Hp']; [exists k; exact Hp | apply Hall; exact Hp'].
Qed.

(** Between the raw values of the first and the last point, the
    interpolation loop does not fall through to [return None] once every
    ['raw'] passes [float()]; a ['physical'] field may still raise. *)
Lemma interp_loop_not_none (x : Q) :
  forall rest p0 lo hi,
    (forall p, In p (p0 :: rest) -> exists r, point_raw parse_float p = POk r) ->
    rest <> [] ->
    point_raw parse_float p0 = POk lo -> Qle_bool lo x = true ->
    point_raw parse_float (last (p0 :: rest) p0) = POk hi -> Qle_bool x hi = true ->
    interp_loop parse_float (p0 :: rest) x <> POk None.
Proof.
  induction rest as [|p1 rest IH]; intros p0 lo hi Hok Hne Hlo Hlox Hhi Hxhi; [congruence|].
  destruct (Hok p1 (or_intror (or_introl eq_refl))) as [x1 Hx1].
  change (interp_loop parse_float (p0 :: p1 :: rest) x) with
    (x0 <-? point_raw parse_float p0 ;;
     y0 <-? point_physical parse_float p0 ;;
     x1 <-? point_raw parse_float p1 ;;
     y1 <-? point_physical parse_float p1 ;;
     if Qle_bool x0 x && Qle_bool x x1 then
       let t := if negb (Qeq_bool x1 x0) then (x - x0) / (x1 - x0) else 0 in
       POk (Some (y0 + t * (y1 - y0)))
     else interp_loop parse_float (p1 :: rest) x).
  rewrite Hlo. cbn [pybind].
  destruct (point_physical parse_float p0) as [y0|e]; [|discriminate]. cbn [pybind].
  rewrite Hx1. cbn [pybind].
  destruct (point_physical parse_float p1) as [y1|e]; [|discriminate]. cbn [pybind].
  rewrite Hlox. simpl.
  destruct (Qle_bool x x1) eqn:Hxx1; [discriminate|].
  destruct rest as [|p2 rest'].
  - simpl in Hhi. congruence.
  - apply (IH p1 x1 hi).
    + intros p Hp. apply Hok. right. exact Hp.
    + discriminate.
    + exact Hx1.
    + apply Qle_bool_iff. apply Qlt_le_weak. apply Qnot_le_lt.
      intro Hle. apply Qle_bool_iff in Hle. congruence.
    + rewrite <- Hhi.
      change (last (p0 :: p1 :: p2 :: rest') p0) with (last (p1 :: p2 :: rest') p0).
      f_equal. apply LookupProofs.last_nonempty_default.
    + exact Hxhi.
Qed.

(** A conversion that raises on some input never answers [None]: raising
    depends on the payload only, and a payload that can raise has passed
    every check that leads to [None]. *)
Lemma conversion_raise_or_some (kind : string) (payload : json) :
  (forall x e, apply_conversion parse_float kind payload x <> PRaise e) \/
  (forall x, apply_conversion parse_float kind payload x <> POk None).
Proof.
  unfold apply_conversion.
  destruct (String.eqb kind "linear").
  { destruct payload as [| | | | | |kvs]; try (right; intros x; discriminate).
    left. intros x e. unfold apply_linear. simpl.
    destruct (obj_get "a" kvs) as [a|], (obj_get "b" kvs) as [b|]; try discriminate.
    destruct (isinstance_num a) eqn:Ha, (isinstance_num b) eqn:Hb; try discriminate; simpl.
    rewrite (PolynomialProofs.py_float_num parse_float a Ha). simpl.
    rewrite (PolynomialProofs.py_float_num parse_float b Hb). discriminate. }
  destruct (String.eqb kind "polynomial").
  { destruct payload as [| | | | | |kvs]; try (right; intros x; discriminate).
    left. intros x e. unfold apply_polynomial. simpl.
    destruct (obj_get "coefficients" kvs) as [[| | | | |[|c cs]|]|]; try discriminate.
    apply poly_loop_no_raise. }
  destruct (String.eqb kind "lookup_table"); [|left; intros x e; discriminate].
  destruct payload as [| | | | | |kvs]; try (right; intros x; discriminate).
  unfold apply_lookup_table. simpl.
  destruct (obj_get "table" kvs) as [[| | | | |tbl|]|]; try (left; intros x e; discriminate).
  destruct (Nat.ltb (List.length tbl) 2) eqn:Hlen; [left; intros x e; discriminate|].
  destruct (decorate parse_float tbl) as [keyed|e] eqn:Hd.
  2: { destruct e; [left; intros x e'; discriminate ..| right; intros x; discriminate
                   | right; intros x; discriminate]. }
  right. intros x.
  destruct (decorate_raws tbl keyed Hd) as [Hm Hraw].
  assert (Hpts : forall p, In p (map snd (sort_by_key keyed)) ->
                           exists r, point_raw parse_float p = POk r).
  { intros p Hp. apply in_map_iff in Hp as [kp [Hkp Hin]].
    apply LookupProofs.in_sort_by_key in Hin. apply Hraw.
    rewrite <- Hm, <- Hkp. apply in_map. exact Hin. }
  assert (Hl : List.length (map snd (sort_by_key keyed)) = List.length tbl).
  { rewrite length_map, LookupProofs.length_sort_by_key, <- Hm, length_map. reflexivity. }
  apply Nat.ltb_ge in Hlen.
  destruct (map snd (sort_by_key keyed)) as [|first rest] eqn:Hsp; [simpl in Hl; lia|].
  destruct (Hpts first (or_introl eq_refl)) as [lo Hlo].
  rewrite Hlo. cbn [pybind].
  destruct (Qle_bool x lo) eqn:Hxlo.
  { destruct (point_physical parse_float first); discriminate. }
  destruct (Hpts _ (LookupProofs.last_in_cons first rest first)) as [hi Hhi].
  rewrite Hhi. cbn [pybind].
  destruct (Qle_bool hi x) eqn:Hhix.
  { destruct (point_physical parse_float (last (first :: rest) first)); discriminate. }
  apply (interp_loop_not_none x rest first lo hi Hpts).
  - intros ->. simpl in Hl. lia.
  - exact Hlo.
  - apply Qle_bool_iff. apply Qlt_le_weak. apply Qnot_le_lt.
    intro Hle. apply Qle_bool_iff in Hle. congruence.
  - exact Hhi.
  - apply Qle_bool_iff. apply Qlt_le_weak. apply Qnot_le_lt.
    intro Hle. apply Qle_bool_iff in Hle. congruence.
Qed.

End WithParse.
End ConversionShape.

(** ** The backfill worker *)
Module BackfillProofs.
Import Conversion Backfill BackfillSpec TaskQueue.

Lemma last_in_cons_rec (a : telemetry_record) (l : list telemetry_record) (d : telemetry_record) :
  In (last (a :: l) d) (a :: l).
Proof. apply LookupProofs.last_in_cons. Qed.

(** *** The [(timestamp, id)] order *)

Ltac key_solve :=
  intros; unfold key_leb, key_ltb in *; simpl in *;
  repeat match goal with
         | H : context [?a <? ?b] |- _ => destruct (Z.ltb_spec a b)
         | |- context [?a <? ?b] => destruct (Z.ltb_spec a b)
         | H : context [?a =? ?b] |- _ => destruct (Z.eqb_spec a b)
         | |- context [?a =? ?b] => destruct (Z.eqb_spec a b)
         end; simpl in *; try lia; try congruence.

Lemma key_lt_irrefl (k : cursor) : key_ltb k k = false.
Proof. destruct k; key_solve. Qed.

Lemma key_lt_trans (k1 k2 k3 : cursor) :
  key_ltb k1 k2 = true -> key_ltb k2 k3 = true -> key_ltb k1 k3 = true.
Proof. destruct k1, k2, k3; key_solve. Qed.

Lemma key_lt_asym (k1 k2 : cursor) : key_ltb k1 k2 = true -> key_ltb k2 k1 = false.
Proof. destruct k1, k2; key_solve. Qed.

Lemma key_le_lt_trans (k1 k2 k3 : cursor) :
  key_leb k1 k2 = true -> key_ltb k2 k3 = true -> key_ltb k1 k3 = true.
Proof. destruct k1, k2, k3; key_solve. Qed.

Lemma key_lt_le_trans (k1 k2 k3 : cursor) :
  key_ltb k1 k2 = true -> key_leb k2 k3 = true -> key_ltb k1 k3 = true.
Proof. destruct k1, k2, k3; key_solve. Qed.

Lemma key_lt_le (k1 k2 : cursor) : key_ltb k1 k2 = true -> key_leb k1 k2 = true.
Proof. destruct k1, k2; key_solve. Qed.

Lemma key_le_refl (k : cursor) : key_leb k k = true.
Proof. destruct k; key_solve. Qed.

Lemma key_not_le (k1 k2 : cursor) : key_leb k1 k2 = false -> key_ltb k2 k1 = true.
Proof. destruct k1, k2; key_solve. Qed.

Lemma key_lt_not_le (k1 k2 : cursor) : key_ltb k1 k2 = true -> key_leb k2 k1 = false.
Proof. destruct k1, k2; key_solve. Qed.

Lemma key_eq_of_le (k1 k2 : cursor) :
  key_leb k1 k2 = true -> key_leb k2 k1 = true -> k1 = k2.
Proof. destruct k1 as [a b], k2 as [c d]; key_solve; f_equal; lia. Qed.

Lemma key_le_trans (k1 k2 k3 : cursor) :
  key_leb k1 k2 = true -> key_leb k2 k3 = true -> key_leb k1 k3 = true.
Proof. destruct k1, k2, k3; key_solve. Qed.

Lemma key_upto_le (c0 c c' k : cursor) :
  key_ltb c c' = true ->
  key_ltb c0 k && key_leb k c' && key_leb k c = key_ltb c0 k && key_leb k c.
Proof.
  intro H. destruct (key_leb k c) eqn:E; [|rewrite !andb_false_r; reflexivity].
  rewrite (key_le_trans _ _ _ E (key_lt_le _ _ H)), !andb_true_r. reflexivity.
Qed.

Lemma key_upto_gt (c0 c c' k : cursor) :
  key_leb c0 c = true ->
  key_ltb c0 k && key_leb k c' && negb (key_leb k c) = key_ltb c k && key_leb k c'.
Proof.
  intro H0. unfold key_leb at 2. rewrite negb_involutive.
  destruct (key_ltb c k) eqn:E; [|rewrite andb_false_r; reflexivity].
  rewrite (key_le_lt_trans _ _ _ H0 E). simpl. rewrite andb_true_r. reflexivity.
Qed.

Lemma key_page_window (c0 c c' k : cursor) :
  key_leb c0 c = true -> key_ltb c0 k && key_leb k c = false ->
  key_ltb c k && key_leb k c' = key_ltb c0 k && key_leb k c'.
Proof.
  intros H0 H. destruct (key_ltb c k) eqn:E.
  - rewrite (key_le_lt_trans _ _ _ H0 E). reflexivity.
  - assert (Hle : key_leb k c = true) by (unfold key_leb; rewrite E; reflexivity).
    rewrite Hle, andb_true_r in H. rewrite H. reflexivity.
Qed.

(** *** Tables in [(timestamp, id)] order *)

Lemma keys_ascending_cons (a : telemetry_record) (l : list telemetry_record) :
  keys_ascending (a :: l) = true ->
  (forall r, In r l -> key_ltb (rec_key a) (rec_key r) = true) /\ keys_ascending l = true.
Proof.
  revert a. induction l as [|b l IH]; intros a H.
  - split; [intros r []| reflexivity].
  - change (key_ltb (rec_key a) (rec_key b) && keys_ascending (b :: l) = true) in H.
    apply andb_prop in H as [Hab Hl]. split; [|exact Hl].
    destruct (IH b Hl) as [Hb _].
    intros r [<-|Hr]; [exact Hab|]. eapply key_lt_trans; [exact Hab | apply Hb; exact Hr].
Qed.

Lemma keys_ascending_intro (a : telemetry_record) (l : list telemetry_record) :
  (forall r, In r l -> key_ltb (rec_key a) (rec_key r) = true) -> keys_ascending l = true ->
  keys_ascending (a :: l) = true.
Proof.
  destruct l as [|b l]; intros Ha Hl; [reflexivity|].
  change (key_ltb (rec_key a) (rec_key b) && keys_ascending (b :: l) = true).
  rewrite Ha by (left; reflexivity). exact Hl.
Qed.

Lemma keys_ascending_filter (h : telemetry_record -> bool) (l : list telemetry_record) :
  keys_ascending l = true -> keys_ascending (filter h l) = true.
Proof.
  induction l as [|a l IH]; intro H; [reflexivity|].
  destruct (keys_ascending_cons a l H) as [Ha Hl]. simpl.
  destruct (h a); [|apply IH; exact Hl].
  apply keys_ascending_intro; [|apply IH; exact Hl].
  intros r Hr. apply filter_In in Hr as [Hr _]. apply Ha. exact Hr.
Qed.

Lemma keys_ascending_firstn (n : nat) (l : list telemetry_record) :
  keys_ascending l = true -> keys_ascending (firstn n l) = true.
Proof.
  revert l. induction n as [|n IH]; intros l H; [reflexivity|].
  destruct l as [|a l]; [reflexivity|].
  destruct (keys_ascending_cons a l H) as [Ha Hl]. simpl.
  apply keys_ascending_intro; [|apply IH; exact Hl].
  intros r Hr. apply Ha. rewrite <- (firstn_skipn n l). apply in_or_app. left. exact Hr.
Qed.

Lemma in_firstn {A : Type} (n : nat) (l : list A) (x : A) : In x (firstn n l) -> In x l.
Proof. intro H. rewrite <- (firstn_skipn n l). apply in_or_app. left. exact H. Qed.

Lemma keys_ascending_map (g : telemetry_record -> telemetry_record) (l : list telemetry_record) :
  (forall r, rec_key (g r) = rec_key r) -> keys_ascending (map g l) = keys_ascending l.
Proof.
  intro Hg. induction l as [|a l IH]; [reflexivity|].
  destruct l as [|b l]; [reflexivity|].
  change (key_ltb (rec_key (g a)) (rec_key (g b)) && keys_ascending (map g (b :: l)) =
          key_ltb (rec_key a) (rec_key b) && keys_ascending (b :: l)).
  rewrite IH, !Hg. reflexivity.
Qed.

(** In a table in key order, a key names one row. *)
Lemma keys_ascending_unique (l : list telemetry_record) (r q : telemetry_record) :
  keys_ascending l = true -> In r l -> In q l -> rec_key r = rec_key q -> r = q.
Proof.
  induction l as [|a l IH]; intros H Hr Hq Hk; [destruct Hr|].
  destruct (keys_ascending_cons a l H) as [Ha Hl].
  destruct Hr as [<-|Hr]; destruct Hq as [<-|Hq]; try reflexivity.
  - specialize (Ha q Hq). rewrite Hk, key_lt_irrefl in Ha. discriminate.
  - specialize (Ha r Hr). rewrite Hk, key_lt_irrefl in Ha. discriminate.
  - apply IH; assumption.
Qed.

Lemma keys_ascending_app (A B : list telemetry_record) (a b : telemetry_record) :
  keys_ascending (A ++ B) = true -> In a A -> In b B -> key_ltb (rec_key a) (rec_key b) = true.
Proof.
  induction A as [|x A IH]; intros H Ha Hb; [destruct Ha|].
  destruct (keys_ascending_cons x (A ++ B) H) as [Hx HAB].
  destruct Ha as [<-|Ha].
  - apply Hx. apply in_or_app. right. exact Hb.
  - apply IH; assumption.
Qed.

Lemma keys_ascending_last (A : list telemetry_record) (d a : telemetry_record) :
  keys_ascending A = true -> In a A -> key_leb (rec_key a) (rec_key (last A d)) = true.
Proof.
  induction A as [|x A IH]; intros H Ha; [destruct Ha|].
  destruct (keys_ascending_cons x A H) as [Hx HA].
  destruct A as [|y A'].
  - destruct Ha as [<-|[]]. apply key_le_refl.
  - change (last (x :: y :: A') d) with (last (y :: A') d).
    destruct Ha as [<-|Ha].
    + apply key_lt_le. apply Hx. apply last_in_cons_rec.
    + apply IH; assumption.
Qed.


Lemma filter_all_true {A : Type} (h : A -> bool) (l : list A) :
  (forall x, In x l -> h x = true) -> filter h l = l.
Proof.
  induction l as [|a l IH]; intro H; simpl; [reflexivity|].
  rewrite (H a (or_introl eq_refl)). f_equal. apply IH. intros x Hx. apply H. right. exact Hx.
Qed.

Lemma filter_all_false {A : Type} (h : A -> bool) (l : list A) :
  (forall x, In x l -> h x = false) -> filter h l = [].
Proof.
  induction l as [|a l IH]; intro H; simpl; [reflexivity|].
  rewrite (H a (or_introl eq_refl)). apply IH. intros x Hx. apply H. right. exact Hx.
Qed.

Lemma filter_map_eq {A : Type} (h h' : A -> bool) (g : A -> A) (l : list A) :
  (forall x, In x l -> h (g x) = h' x /\ (h' x = true -> g x = x)) ->
  filter h (map g l) = filter h' l.
Proof.
  induction l as [|a l IH]; intro H; simpl; [reflexivity|].
  destruct (H a (or_introl eq_refl)) as [E1 E2]. rewrite E1.
  rewrite IH by (intros x Hx; apply H; right; exact Hx).
  destruct (h' a) eqn:Ha; [rewrite (E2 eq_refl)|]; reflexivity.
Qed.

(** A non-empty prefix of a table in key order holds exactly the rows up to
    its last key. *)
Lemma firstn_as_filter (n : nat) (l : list telemetry_record) (d : telemetry_record) :
  keys_ascending l = true -> firstn n l <> [] ->
  firstn n l = filter (fun r => key_leb (rec_key r) (rec_key (last (firstn n l) d))) l.
Proof.
  intros Hs Hne.
  set (A := firstn n l). set (m := last A d).
  assert (HA : keys_ascending A = true) by (apply keys_ascending_firstn; exact Hs).
  assert (Hm : In m A)
    by (unfold m, A; destruct (firstn n l) as [|a A']; [congruence | apply last_in_cons_rec]).
  assert (Hl : l = A ++ skipn n l) by (symmetry; apply firstn_skipn).
  rewrite Hl at 1. rewrite filter_app.
  rewrite (filter_all_true _ A) by (intros x Hx; apply keys_ascending_last; assumption).
  rewrite (filter_all_false _ (skipn n l)); [symmetry; apply app_nil_r|].
  intros x Hx. apply key_lt_not_le.
  apply (keys_ascending_app A (skipn n l)); [rewrite <- Hl; exact Hs | exact Hm | exact Hx].
Qed.

Definition key_eqb (k1 k2 : cursor) : bool := (fst k1 =? fst k2) && (snd k1 =? snd k2).

Lemma key_eqb_true (k1 k2 : cursor) : key_eqb k1 k2 = true <-> k1 = k2.
Proof.
  destruct k1 as [a b], k2 as [c d]; unfold key_eqb; simpl.
  rewrite andb_true_iff, !Z.eqb_eq. split; [intros [-> ->]; reflexivity | intro H; injection H; auto].
Qed.

Section Updates.
Context (parse_float : string -> option Q) (kind : string) (payload : json)
        (sensor_id profile_id : Z).

Let conv := apply_conversion parse_float kind payload.
Let recomp := recomputed parse_float kind payload profile_id.
Let cres := conv_result parse_float kind payload.

Let upd_of := upd_of parse_float kind payload sensor_id profile_id.

Lemma compute_updates_ok (rows : list telemetry_record) (us : list row_update) :
  compute_updates parse_float kind payload sensor_id profile_id rows = POk us ->
  us = map upd_of rows /\ forall q, In q rows -> exists res, conv (rec_raw_value q) = POk res.
Proof.
  revert us. induction rows as [|q rows IH]; intros us H; simpl in H.
  - injection H as <-. split; [reflexivity | intros q []].
  - unfold row_update_of in H.
    destruct (apply_conversion parse_float kind payload (rec_raw_value q)) as [res|e] eqn:Hq;
      [|discriminate]. simpl in H.
    destruct (compute_updates parse_float kind payload sensor_id profile_id rows) as [us'|e] eqn:Hr;
      [|destruct res; discriminate].
    destruct (IH us' eq_refl) as [-> Hall].
    assert (Hc : conv_result parse_float kind payload q = res) by (unfold conv_result; rewrite Hq; reflexivity).
    split.
    + destruct res; injection H as <-; simpl; unfold upd_of, BackfillSpec.upd_of; rewrite Hc; reflexivity.
    + intros q' [<-|Hq']; [exists res; exact Hq | apply Hall; exact Hq'].
Qed.

Lemma compute_updates_raise (rows : list telemetry_record) (e : exc) :
  compute_updates parse_float kind payload sensor_id profile_id rows = PRaise e ->
  exists q e', In q rows /\ conv (rec_raw_value q) = PRaise e'.
Proof.
  revert e. induction rows as [|q rows IH]; intros e H; simpl in H; [discriminate|].
  unfold row_update_of in H.
  destruct (apply_conversion parse_float kind payload (rec_raw_value q)) as [res|e'] eqn:Hq.
  - simpl in H.
    destruct (compute_updates parse_float kind payload sensor_id profile_id rows) as [us'|e''] eqn:Hr.
    + destruct res; discriminate.
    + destruct (IH e'' eq_refl) as [q' [e3 [Hin Hc]]]. exists q', e3. split; [right; exact Hin | exact Hc].
  - exists q, e'. split; [left; reflexivity | exact Hq].
Qed.

Lemma compute_updates_cases (rows : list telemetry_record) :
  (exists us, compute_updates parse_float kind payload sensor_id profile_id rows = POk us) \/
  (exists e, compute_updates parse_float kind payload sensor_id profile_id rows = PRaise e).
Proof.
  destruct (compute_updates parse_float kind payload sensor_id profile_id rows); eauto.
Qed.

Lemma recomputed_key (r : telemetry_record) : rec_key (recomp r) = rec_key r.
Proof. reflexivity. Qed.

Lemma recomputed_idem (r : telemetry_record) : recomp (recomp r) = recomp r.
Proof. reflexivity. Qed.

(** The [executemany] UPDATE for a page rewrites exactly the page's rows. *)
Lemma apply_updates_page (rows rs : list telemetry_record) :
  keys_ascending rs = true -> keys_ascending rows = true ->
  (forall q, In q rows -> In q rs /\ rec_sensor_id q = sensor_id) ->
  apply_updates (map upd_of rows) rs =
  map (fun r => if existsb (fun q => key_eqb (rec_key q) (rec_key r)) rows then recomp r else r) rs.
Proof.
  revert rs. induction rows as [|q rows IH]; intros rs Hs Hrows Hin.
  - simpl. symmetry. apply map_id.
  - destruct (keys_ascending_cons q rows Hrows) as [Hq Hrows'].
    destruct (Hin q (or_introl eq_refl)) as [Hqrs Hqs].
    simpl. unfold apply_updates in IH |- *. simpl.
    set (rs1 := map (apply_update (upd_of q)) rs).
    assert (E1 : rs1 = map (fun r => if key_eqb (rec_key q) (rec_key r) then recomp r else r) rs).
    { unfold rs1. apply map_ext_in. intros r Hr. unfold apply_update, upd_of, BackfillSpec.upd_of. simpl.
      destruct (key_eqb (rec_key q) (rec_key r)) eqn:Hk.
      - apply key_eqb_true in Hk.
        pose proof (keys_ascending_unique rs q r Hs Hqrs Hr Hk) as <-.
        rewrite !Z.eqb_refl, Hqs, Z.eqb_refl. reflexivity.
      - destruct ((rec_id r =? rec_id q) && (rec_sensor_id r =? sensor_id) &&
                  (rec_timestamp r =? rec_timestamp q)) eqn:Hm; [|reflexivity].
        apply andb_prop in Hm as [Hm Hts]. apply andb_prop in Hm as [Hid _].
        apply Z.eqb_eq in Hid, Hts.
        assert (rec_key q = rec_key r) by (unfold rec_key; rewrite Hid, Hts; reflexivity).
        apply key_eqb_true in H. congruence. }
    rewrite IH.
    + rewrite E1, map_map. apply map_ext_in. intros r Hr.
      destruct (key_eqb (rec_key q) (rec_key r)) eqn:Hk; simpl.
      * apply key_eqb_true in Hk.
        assert (Hnone : existsb (fun q0 => key_eqb (rec_key q0) (rec_key (recomp r))) rows = false).
        { apply Bool.not_true_iff_false. intro Hex. apply existsb_exists in Hex as [q' [Hq' Hk']].
          apply key_eqb_true in Hk'. rewrite recomputed_key, <- Hk in Hk'.
          specialize (Hq q' Hq'). rewrite Hk', key_lt_irrefl in Hq. discriminate. }
        rewrite Hnone. reflexivity.
      * reflexivity.
    + rewrite E1. rewrite keys_ascending_map; [exact Hs|].
      intro r. destruct (key_eqb (rec_key q) (rec_key r)); reflexivity.
    + exact Hrows'.
    + intros q' Hq'. destruct (Hin q' (or_intror Hq')) as [Hq'rs Hq's]. split; [|exact Hq's].
      rewrite E1. replace q' with (if key_eqb (rec_key q) (rec_key q') then recomp q' else q') at 1.
      * apply (in_map (fun r => if key_eqb (rec_key q) (rec_key r) then recomp r else r)).
        exact Hq'rs.
      * destruct (key_eqb (rec_key q) (rec_key q')) eqn:Hk; [|reflexivity].
        apply key_eqb_true in Hk. specialize (Hq q' Hq'). rewrite Hk, key_lt_irrefl in Hq. discriminate.
Qed.

End Updates.

Lemma count_split {A : Type} (h a : A -> bool) (l : list A) :
  List.length (filter h l) =
  (List.length (filter (fun x => h x && a x) l) + List.length (filter (fun x => h x && negb (a x)) l))%nat.
Proof.
  induction l as [|x l IH]; simpl; [reflexivity|].
  destruct (h x), (a x); simpl; rewrite IH; lia.
Qed.

Lemma filter_nil_forall {A : Type} (h : A -> bool) (l : list A) :
  filter h l = [] -> forall x, In x l -> h x = false.
Proof.
  intros H x Hx. destruct (h x) eqn:Hh; [|reflexivity].
  assert (In x (filter h l)) by (apply filter_In; auto). rewrite H in H0. destruct H0.
Qed.

Lemma existsb_key_filter (h : telemetry_record -> bool) (l : list telemetry_record) (r : telemetry_record) :
  keys_ascending l = true -> In r l ->
  existsb (fun q => key_eqb (rec_key q) (rec_key r)) (filter h l) = h r.
Proof.
  intros Hs Hr. destruct (h r) eqn:Hh.
  - apply existsb_exists. exists r. split; [apply filter_In; auto | apply key_eqb_true; reflexivity].
  - apply Bool.not_true_iff_false. intro Hex. apply existsb_exists in Hex as [q [Hq Hk]].
    apply filter_In in Hq as [Hq Hhq]. apply key_eqb_true in Hk.
    rewrite (keys_ascending_unique l q r Hs Hq Hr Hk) in Hhq. congruence.
Qed.

Lemma last_cons_default {A : Type} (a : A) (l : list A) (d d' : A) :
  last (a :: l) d = last (a :: l) d'.
Proof.
  revert a. induction l as [|b l IH]; intro a; [reflexivity|].
  change (last (b :: l) d = last (b :: l) d'). apply IH.
Qed.

Lemma filter_filter_and {A : Type} (f g : A -> bool) (l : list A) :
  filter g (filter f l) = filter (fun x => f x && g x) l.
Proof.
  induction l as [|x l IH]; simpl; [reflexivity|].
  destruct (f x); simpl; [destruct (g x); simpl|]; rewrite IH; reflexivity.
Qed.

Lemma fold_cursor_last (rows : list telemetry_record) (q : telemetry_record) (c : cursor) :
  fold_left (fun _ row => rec_key row) (q :: rows) c = rec_key (last (q :: rows) q).
Proof.
  revert q c. induction rows as [|q' rows IH]; intros q c; [reflexivity|].
  change (fold_left (fun _ row => rec_key row) (q' :: rows) (rec_key q) =
          rec_key (last (q' :: rows) q)).
  rewrite IH. f_equal. apply last_cons_default.
Qed.

Section Loop.
Context (parse_float : string -> option Q) (kind : string) (payload : json)
        (tid sensor_id profile_id total : Z) (c0 : cursor) (recs0 : list telemetry_record).
Hypothesis Hsorted : keys_ascending recs0 = true.
Hypothesis Htotal : total = Z.of_nat (List.length (filter (needs_work sensor_id profile_id) recs0)).

Local Abbreviation sel := (needs_work sensor_id profile_id).
Local Abbreviation conv := (apply_conversion parse_float kind payload).
Local Abbreviation mark c := (mark_range parse_float kind payload sensor_id profile_id c0 c recs0).
Local Abbreviation inrange c := (in_window sensor_id profile_id c0 c).
Local Abbreviation loop_inv := (BackfillSpec.loop_inv parse_float kind payload sensor_id profile_id c0 recs0).

Lemma mark_sorted (c : cursor) : keys_ascending (mark c) = true.
Proof.
  unfold mark_range. rewrite keys_ascending_map; [exact Hsorted|].
  intro r. destruct (_ && _); reflexivity.
Qed.

Lemma page_of_mark (c : cursor) :
  page_of sensor_id profile_id c (mark c) = page_of sensor_id profile_id c recs0.
Proof.
  unfold page_of, mark_range. f_equal. apply filter_map_eq. intros r Hr.
  destruct (needs_work sensor_id profile_id r && key_ltb c0 (rec_key r) && key_leb (rec_key r) c) eqn:Hm.
  - apply andb_prop in Hm as [_ Hle]. rewrite (recomputed_key parse_float kind payload profile_id r).
    unfold key_leb in Hle. apply negb_true_iff in Hle. rewrite Hle, !andb_false_r.
    split; [reflexivity | discriminate].
  - split; reflexivity.
Qed.

Lemma page_as_filter (c : cursor) (q : telemetry_record) (rest : list telemetry_record) :
  page_of sensor_id profile_id c recs0 = q :: rest ->
  q :: rest = filter (fun r => sel r && key_ltb c (rec_key r) && key_leb (rec_key r) (rec_key (last (q :: rest) q))) recs0.
Proof.
  intro Hp. unfold page_of in Hp.
  set (l := filter (fun r => needs_work sensor_id profile_id r && key_ltb c (rec_key r)) recs0) in Hp.
  assert (Hl : keys_ascending l = true) by (apply keys_ascending_filter; exact Hsorted).
  pose proof (firstn_as_filter BATCH_SIZE l q Hl) as E. rewrite Hp in E.
  etransitivity; [apply E; discriminate|]. unfold l. rewrite filter_filter_and. reflexivity.
Qed.

Lemma page_in_recs0 (c : cursor) (q : telemetry_record) :
  In q (page_of sensor_id profile_id c recs0) ->
  In q recs0 /\ sel q = true /\ key_ltb c (rec_key q) = true.
Proof.
  unfold page_of. intro H. apply in_firstn in H. apply filter_In in H as [H1 H2].
  apply andb_prop in H2 as [H2 H3]. auto.
Qed.

Lemma count_sel :
  List.length (filter sel recs0) =
  (List.length (filter (fun r => sel r && key_ltb c0 (rec_key r)) recs0) +
   List.length (filter (fun r => sel r && negb (key_ltb c0 (rec_key r))) recs0))%nat.
Proof. apply count_split. Qed.

Lemma count_inrange (c : cursor) :
  List.length (filter (fun r => sel r && key_ltb c0 (rec_key r)) recs0) =
  (List.length (filter (inrange c) recs0) +
   List.length (filter (fun r => sel r && key_ltb c0 (rec_key r) && negb (key_leb (rec_key r) c)) recs0))%nat.
Proof. apply count_split. Qed.

Lemma count_step (c c' : cursor) :
  key_leb c0 c = true -> key_ltb c c' = true ->
  List.length (filter (inrange c') recs0) =
  (List.length (filter (inrange c) recs0) +
   List.length (filter (fun r => sel r && key_ltb c (rec_key r) && key_leb (rec_key r) c') recs0))%nat.
Proof.
  intros H0 H1. rewrite (count_split (inrange c') (fun r => key_leb (rec_key r) c)).
  f_equal; f_equal; apply filter_ext; intro r; unfold in_window; destruct (sel r); try reflexivity; simpl.
  - apply key_upto_le. exact H1.
  - apply key_upto_gt. exact H0.
Qed.

Lemma loop_step (c : cursor) (q : telemetry_record) (rest : list telemetry_record) :
  key_leb c0 c = true ->
  page_of sensor_id profile_id c recs0 = q :: rest ->
  key_ltb c (rec_key (last (q :: rest) q)) = true /\
  apply_updates (map (upd_of parse_float kind payload sensor_id profile_id) (q :: rest)) (mark c) =
    mark (rec_key (last (q :: rest) q)) /\
  List.length (filter (inrange (rec_key (last (q :: rest) q))) recs0) =
    (List.length (filter (inrange c) recs0) + List.length (q :: rest))%nat.
Proof.
  intros H0 Hpg.
  pose proof (page_as_filter c q rest Hpg) as Hf.
  assert (Hin : forall x, In x (q :: rest) -> In x recs0 /\ sel x = true /\ key_ltb c (rec_key x) = true).
  { intros x Hx. rewrite <- Hpg in Hx. apply page_in_recs0. exact Hx. }
  assert (Hcc' : key_ltb c (rec_key (last (q :: rest) q)) = true).
  { apply Hin. apply last_in_cons_rec. }
  set (c' := rec_key (last (q :: rest) q)) in *. clearbody c'.
  split; [exact Hcc'|]. split.
  - rewrite apply_updates_page.
    + unfold mark_range. rewrite map_map. apply map_ext_in. intros r Hr.
      assert (Hex : forall x, rec_key x = rec_key r ->
                existsb (fun q' => key_eqb (rec_key q') (rec_key x)) (q :: rest) =
                needs_work sensor_id profile_id r && (key_ltb c (rec_key r) && key_leb (rec_key r) c')).
      { intros x Hx. rewrite Hx, Hf, existsb_key_filter by assumption.
        rewrite andb_assoc. reflexivity. }
      destruct (needs_work sensor_id profile_id r && key_ltb c0 (rec_key r) && key_leb (rec_key r) c) eqn:Hc.
      * rewrite (Hex _ (recomputed_key parse_float kind payload profile_id r)).
        rewrite recomputed_idem.
        apply andb_prop in Hc as [Hc Hle]. apply andb_prop in Hc as [Hs Hlt0].
        rewrite Hs, Hlt0. simpl.
        rewrite (key_le_trans _ _ _ Hle (key_lt_le _ _ Hcc')).
        destruct (key_ltb c (rec_key r)); reflexivity.
      * rewrite (Hex _ eq_refl).
        destruct (needs_work sensor_id profile_id r); [|reflexivity]. simpl in *.
        rewrite (key_page_window c0 c c' (rec_key r) H0 Hc). reflexivity.
    + apply mark_sorted.
    + rewrite <- Hpg. unfold page_of. apply keys_ascending_firstn, keys_ascending_filter. exact Hsorted.
    + intros x Hx. rewrite <- Hpg, <- page_of_mark in Hx. unfold page_of in Hx.
      apply in_firstn, filter_In in Hx as [Hx Hw]. split; [exact Hx|].
      unfold needs_work in Hw. apply andb_prop in Hw as [Hw _]. apply andb_prop in Hw as [Hw _].
      apply Z.eqb_eq. exact Hw.
  - rewrite (count_step c c' H0 Hcc'). f_equal. rewrite Hf. reflexivity.
Qed.

Lemma mark_range_all (c : cursor) :
  (forall r, In r recs0 -> sel r && key_ltb c0 (rec_key r) && negb (key_leb (rec_key r) c) = false) ->
  mark c = mark_all parse_float kind payload sensor_id profile_id c0 recs0.
Proof.
  intro H. unfold mark_range, mark_all. apply map_ext_in. intros r Hr.
  specialize (H r Hr).
  destruct (needs_work sensor_id profile_id r && key_ltb c0 (rec_key r)); simpl in *; [|reflexivity].
  destruct (key_leb (rec_key r) c); [reflexivity | discriminate].
Qed.

Lemma exit_all_converted (c : cursor) :
  (forall r, In r recs0 -> sel r && key_ltb c0 (rec_key r) && negb (key_leb (rec_key r) c) = false) ->
  (forall r, In r recs0 -> inrange c r = true -> exists res, conv (rec_raw_value r) = POk res) ->
  forall r, In r recs0 -> sel r && key_ltb c0 (rec_key r) = true ->
  exists res, conv (rec_raw_value r) = POk res.
Proof.
  intros Hj Hok r Hr Hs. apply Hok; [exact Hr|]. specialize (Hj r Hr).
  unfold in_window. rewrite Hs in *. simpl in *.
  destruct (key_leb (rec_key r) c); [reflexivity | discriminate].
Qed.

Lemma count_reached (c : cursor) (p : Z) :
  p = Z.of_nat (List.length (filter (inrange c) recs0)) -> total <= p ->
  forall r, In r recs0 -> sel r && key_ltb c0 (rec_key r) && negb (key_leb (rec_key r) c) = false.
Proof.
  intros Hp Hle. pose proof count_sel as E1. pose proof (count_inrange c) as E2.
  apply filter_nil_forall. apply length_zero_iff_nil. lia.
Qed.

Lemma page_empty_reached (c : cursor) :
  page_of sensor_id profile_id c recs0 = [] ->
  forall r, In r recs0 -> sel r && key_ltb c0 (rec_key r) && negb (key_leb (rec_key r) c) = false.
Proof.
  intros H r Hr. unfold page_of in H.
  destruct (filter (fun r => needs_work sensor_id profile_id r && key_ltb c (rec_key r)) recs0) eqn:E;
    [|discriminate].
  pose proof (filter_nil_forall _ _ E r Hr) as Hf. simpl in Hf.
  unfold key_leb. rewrite negb_involutive.
  destruct (needs_work sensor_id profile_id r); [|reflexivity]. simpl in *. rewrite Hf, andb_false_r.
  reflexivity.
Qed.

(** The page loop, run from a state satisfying [loop_inv]: on a normal
    exit every row needing work above [c0] has been rewritten, and the exit
    happened because [processed] reached [total] or the page was empty; on
    an exception the rows up to some cursor [c] have been rewritten and a
    row of the page after [c] raised in [apply_conversion]. *)
Lemma page_loop_inv (fuel : nat) :
  forall p c s, loop_inv p c s ->
  match page_loop parse_float fuel kind payload tid sensor_id profile_id total p c s with
  | Ret (p', c') s' =>
      db_records s' = mark_all parse_float kind payload sensor_id profile_id c0 recs0 /\
      (forall r, In r recs0 -> sel r && key_ltb c0 (rec_key r) = true ->
                 exists res, conv (rec_raw_value r) = POk res) /\
      (total <= p' \/ page_of sensor_id profile_id c' (db_records s') = [])
  | Exn _ s' =>
      exists c, key_leb c0 c = true /\ db_records s' = mark c /\
        (forall r, In r recs0 -> inrange c r = true -> exists res, conv (rec_raw_value r) = POk res) /\
        exists q e, In q (page_of sensor_id profile_id c recs0) /\ conv (rec_raw_value q) = PRaise e
  | OutOfFuel _ => True
  end.
Proof.
  induction fuel as [|f IH]; intros p c s Hinv; [exact I|].
  destruct Hinv as (Hrec & H0 & Hp & Hok).
  cbn [page_loop].
  destruct (p <? total) eqn:Hlt.
  2: { apply Z.ltb_ge in Hlt. unfold ret.
       pose proof (count_reached c p Hp Hlt) as Hj.
       split; [|split].
       - rewrite Hrec. apply mark_range_all. exact Hj.
       - apply (exit_all_converted c Hj Hok).
       - left. exact Hlt. }
  cbv [bind fetch_page gets ret lift raise execute_updates modify update_progress update_task].
  rewrite Hrec, page_of_mark.
  destruct (page_of sensor_id profile_id c recs0) as [|q rest] eqn:Hpg.
  - pose proof (page_empty_reached c Hpg) as Hj.
    split; [|split].
    + rewrite Hrec. apply mark_range_all. exact Hj.
    + apply (exit_all_converted c Hj Hok).
    + right. rewrite Hrec, page_of_mark. exact Hpg.
  - destruct (compute_updates parse_float kind payload sensor_id profile_id (q :: rest)) as [us|e] eqn:Hcu.
    + destruct (compute_updates_ok parse_float kind payload sensor_id profile_id _ _ Hcu) as [Hus Hconv].
      subst us. rewrite fold_cursor_last.
      destruct (loop_step c q rest H0 Hpg) as (Hcc' & Hupd & Hcnt).
      apply IH. split; [|split; [|split]].
      * simpl. rewrite Hrec. exact Hupd.
      * apply (key_le_trans _ _ _ H0 (key_lt_le _ _ Hcc')).
      * rewrite Hcnt, Hp. lia.
      * intros r Hr Hin. unfold in_window in Hin.
        destruct (key_leb (rec_key r) c) eqn:Hle.
        -- apply Hok; [exact Hr|]. unfold in_window.
           apply andb_prop in Hin as [Hin _]. rewrite Hin, Hle. reflexivity.
        -- apply Hconv. rewrite (page_as_filter c q rest Hpg). apply filter_In. split; [exact Hr|].
           apply andb_prop in Hin as [Hin Hle']. apply andb_prop in Hin as [Hs _].
           rewrite Hs, Hle'. unfold key_leb in Hle. apply negb_false_iff in Hle. rewrite Hle.
           reflexivity.
    + destruct (compute_updates_raise parse_float kind payload sensor_id profile_id _ _ Hcu) as (q' & e' & Hq' & He').
      exists c. split; [exact H0|]. split; [exact Hrec|]. split; [exact Hok|].
      exists q', e'. rewrite Hpg. split; assumption.
Qed.

End Loop.


(** *** Whole runs *)

Lemma key_outside_window (c0 c k : cursor) :
  key_leb c0 c = true -> key_ltb c0 k && key_leb k c = false -> key_ltb c k = key_ltb c0 k.
Proof.
  intros H0 H. destruct (key_ltb c k) eqn:E.
  - rewrite (key_le_lt_trans _ _ _ H0 E). reflexivity.
  - assert (Hle : key_leb k c = true) by (unfold key_leb; rewrite E; reflexivity).
    rewrite Hle, andb_true_r in H. rewrite H. reflexivity.
Qed.

Lemma mark_range_empty (parse_float : string -> option Q) (kind : string) (payload : json)
    (sensor_id profile_id : Z) (c : cursor) (rs : list telemetry_record) :
  mark_range parse_float kind payload sensor_id profile_id c c rs = rs.
Proof.
  unfold mark_range. rewrite <- (map_id rs) at 2. apply map_ext. intro r.
  destruct (key_ltb c (rec_key r)) eqn:E; [|rewrite andb_false_r; reflexivity].
  rewrite (key_lt_not_le _ _ E), andb_false_r. reflexivity.
Qed.

Lemma mark_all_none (parse_float : string -> option Q) (kind : string) (payload : json)
    (sensor_id profile_id : Z) (c : cursor) (rs : list telemetry_record) :
  filter (needs_work sensor_id profile_id) rs = [] ->
  mark_all parse_float kind payload sensor_id profile_id c rs = rs.
Proof.
  intro H. unfold mark_all. rewrite <- (map_id rs) at 2. apply map_ext_in. intros r Hr.
  rewrite (filter_nil_forall _ _ H r Hr). reflexivity.
Qed.

Lemma mark_all_idem (parse_float : string -> option Q) (kind : string) (payload : json)
    (sensor_id profile_id : Z) (c : cursor) (rs : list telemetry_record) :
  mark_all parse_float kind payload sensor_id profile_id c
    (mark_all parse_float kind payload sensor_id profile_id c rs) =
  mark_all parse_float kind payload sensor_id profile_id c rs.
Proof.
  unfold mark_all. rewrite map_map. apply map_ext. intro r.
  destruct (needs_work sensor_id profile_id r && key_ltb c (rec_key r)) eqn:E.
  - rewrite (recomputed_key parse_float kind payload profile_id r).
    destruct (needs_work sensor_id profile_id (recomputed parse_float kind payload profile_id r)
              && key_ltb c (rec_key r)); [apply recomputed_idem | reflexivity].
  - rewrite E. reflexivity.
Qed.

Lemma mark_all_sorted (parse_float : string -> option Q) (kind : string) (payload : json)
    (sensor_id profile_id : Z) (c : cursor) (rs : list telemetry_record) :
  keys_ascending rs = true -> keys_ascending (mark_all parse_float kind payload sensor_id profile_id c rs) = true.
Proof.
  intro H. unfold mark_all. rewrite keys_ascending_map; [exact H|].
  intro r. destruct (_ && _); reflexivity.
Qed.

Lemma mark_range_sorted (parse_float : string -> option Q) (kind : string) (payload : json)
    (sensor_id profile_id : Z) (lo hi : cursor) (rs : list telemetry_record) :
  keys_ascending rs = true ->
  keys_ascending (mark_range parse_float kind payload sensor_id profile_id lo hi rs) = true.
Proof.
  intro H. unfold mark_range. rewrite keys_ascending_map; [exact H|].
  intro r. destruct (_ && _); reflexivity.
Qed.

(** A row rewritten with a value no longer needs work. *)
Lemma recomputed_done (parse_float : string -> option Q) (kind : string) (payload : json)
    (sensor_id profile_id : Z) (r : telemetry_record) (v : Q) :
  apply_conversion parse_float kind payload (rec_raw_value r) = POk (Some v) ->
  needs_work sensor_id profile_id (recomputed parse_float kind payload profile_id r) = false.
Proof.
  intro H. unfold recomputed, conv_result, needs_work. rewrite H. simpl.
  rewrite Z.eqb_refl. simpl. apply andb_false_r.
Qed.

(** The task operations touch only [db_tasks]. *)
Lemma update_task_ret (tid : Z) (f : backfill_task -> backfill_task) (s : db) :
  update_task tid f s =
  Ret tt (set_tasks s (map (fun u => if task_id u =? tid then f u else u) (db_tasks s))).
Proof. reflexivity. Qed.

Lemma claim_pending_ret (s : db) :
  exists ot s1, claim_pending s = Ret ot s1 /\ db_records s1 = db_records s /\
                db_profiles s1 = db_profiles s /\ db_now s1 = db_now s.
Proof.
  unfold claim_pending. destruct (earliest_pending (db_tasks s)) as [t|].
  - rewrite update_task_ret. eexists _, _. split; [reflexivity|]. auto.
  - eexists _, _. split; [reflexivity|]. auto.
Qed.

Lemma claim_pending_frame (s s1 : db) (ot : option backfill_task) :
  claim_pending s = Ret ot s1 ->
  db_records s1 = db_records s /\ db_profiles s1 = db_profiles s /\ db_now s1 = db_now s.
Proof.
  intro H. destruct (claim_pending_ret s) as (ot' & s1' & E & Hf). rewrite E in H.
  injection H as _ <-. exact Hf.
Qed.

Section Run.
Context (parse_float : string -> option Q).

Lemma page_loop_enough_fuel (kind : string) (payload : json) (tid sensor_id profile_id total : Z) :
  forall fuel p c s s', (Z.to_nat (total - p) < fuel)%nat ->
  page_loop parse_float fuel kind payload tid sensor_id profile_id total p c s <> OutOfFuel s'.
Proof.
  induction fuel as [|f IH]; intros p c s s' Hf; [lia|].
  cbn [page_loop]. destruct (p <? total) eqn:Hlt; [|discriminate].
  apply Z.ltb_lt in Hlt.
  cbv [bind fetch_page gets ret lift raise execute_updates modify update_progress update_task].
  destruct (page_of sensor_id profile_id c (db_records s)) as [|q rest]; [discriminate|].
  destruct (compute_updates parse_float kind payload sensor_id profile_id (q :: rest)) as [us|e];
    [|discriminate].
  destruct us; apply IH; simpl List.length; lia.
Qed.

Lemma page_loop_profiles (kind : string) (payload : json) (tid sensor_id profile_id total : Z) :
  forall fuel p c s o,
  page_loop parse_float fuel kind payload tid sensor_id profile_id total p c s = o ->
  db_profiles (match o with Ret _ s' | Exn _ s' | OutOfFuel s' => s' end) = db_profiles s.
Proof.
  induction fuel as [|f IH]; intros p c s o <-; [reflexivity|].
  cbn [page_loop]. destruct (p <? total); [|reflexivity].
  cbv [bind fetch_page gets ret lift raise execute_updates modify update_progress update_task].
  destruct (page_of sensor_id profile_id c (db_records s)) as [|q rest]; [reflexivity|].
  destruct (compute_updates parse_float kind payload sensor_id profile_id (q :: rest)) as [us|e];
    [|reflexivity].
  destruct us; rewrite (IH _ _ _ _ eq_refl); reflexivity.
Qed.

(** The loop leaves normally only when [processed] has reached [total]
    or the page fetched at the final cursor is empty. *)
Lemma page_loop_exit (kind : string) (payload : json) (tid sensor_id profile_id total : Z) :
  forall fuel p c s p' c' s',
  page_loop parse_float fuel kind payload tid sensor_id profile_id total p c s = Ret (p', c') s' ->
  total <= p' \/ page_of sensor_id profile_id c' (db_records s') = [].
Proof.
  induction fuel as [|f IH]; intros p c s p' c' s' H; [discriminate|].
  cbn [page_loop] in H. destruct (p <? total) eqn:Hlt.
  2: { injection H as <- <- <-. left. apply Z.ltb_ge. exact Hlt. }
  cbv [bind fetch_page gets ret lift raise execute_updates modify update_progress update_task] in H.
  destruct (page_of sensor_id profile_id c (db_records s)) as [|q rest] eqn:Hpg.
  { injection H as <- <- <-. right. exact Hpg. }
  destruct (compute_updates parse_float kind payload sensor_id profile_id (q :: rest)) as [us|e];
    [|discriminate].
  destruct us; eapply IH; exact H.
Qed.

Lemma compute_updates_raises (kind : string) (payload : json) (sensor_id profile_id : Z) :
  forall rows q e, In q rows -> apply_conversion parse_float kind payload (rec_raw_value q) = PRaise e ->
  exists e', compute_updates parse_float kind payload sensor_id profile_id rows = PRaise e'.
Proof.
  induction rows as [|r rows IH]; intros q e Hq He; [destruct Hq|].
  simpl. unfold row_update_of.
  destruct (apply_conversion parse_float kind payload (rec_raw_value r)) as [res|e0] eqn:Hr.
  - destruct Hq as [<-|Hq]; [congruence|].
    destruct (IH q e Hq He) as [e' He']. simpl.
    exists e'. destruct res; simpl; rewrite He'; reflexivity.
  - exists e0. reflexivity.
Qed.

(** A loop whose first page holds a row the conversion raises on fails
    at once, before writing anything. *)
Lemma page_loop_first_page_raises (kind : string) (payload : json) (tid sensor_id profile_id total : Z)
    (fuel : nat) (p : Z) (c : cursor) (s : db) (q : telemetry_record) (e : exc) :
  p < total ->
  In q (page_of sensor_id profile_id c (db_records s)) ->
  apply_conversion parse_float kind payload (rec_raw_value q) = PRaise e ->
  exists e', page_loop parse_float (S fuel) kind payload tid sensor_id profile_id total p c s = Exn e' s.
Proof.
  intros Hlt Hq He. cbn [page_loop]. apply Z.ltb_lt in Hlt. rewrite Hlt.
  cbv [bind fetch_page gets ret lift raise].
  destruct (compute_updates_raises kind payload sensor_id profile_id _ q e Hq He) as [e' He'].
  destruct (page_of sensor_id profile_id c (db_records s)) as [|q0 rest]; [destruct Hq|].
  rewrite He'. exists e'. reflexivity.
Qed.

Lemma backfill_body_effect (t : backfill_task) (s : db) (prof : conversion_profile) :
  keys_ascending (db_records s) = true ->
  find_profile (task_conversion_profile_id t) (db_profiles s) = Some prof ->
  match backfill_body parse_float t s with
  | Ret _ s' | Exn _ s' =>
      db_profiles s' = db_profiles s /\
      run_effect parse_float (profile_kind prof) (profile_payload prof)
        (task_sensor_id t) (task_conversion_profile_id t) (db_records s) (db_records s')
  | OutOfFuel _ => False
  end.
Proof.
  intros Hs Hp.
  unfold backfill_body.
  cbv [bind gets ret count_needing set_total mark_completed update_task modify].
  rewrite Hp.
  set (S0 := task_sensor_id t) in *. set (P := task_conversion_profile_id t) in *.
  set (kind := profile_kind prof). set (payload := profile_payload prof).
  set (total := Z.of_nat (List.length (filter (needs_work S0 P) (db_records s)))).
  destruct (total =? 0) eqn:Hz.
  { split; [reflexivity|]. left. simpl. split.
    - symmetry. apply mark_all_none. apply length_zero_iff_nil. apply Z.eqb_eq in Hz. lia.
    - intros r Hr Hw. apply andb_prop in Hw as [Hw _].
      assert (Hin : In r (filter (needs_work S0 P) (db_records s))) by (apply filter_In; auto).
      apply Z.eqb_eq in Hz. unfold total in Hz. destruct (filter (needs_work S0 P) (db_records s));
        [destruct Hin | simpl in Hz; lia]. }
  set (s1 := set_tasks s (map (fun u => if task_id u =? task_id t then with_total total u else u) (db_tasks s))).
  assert (Hinv : loop_inv parse_float kind payload S0 P cursor0 (db_records s) 0 cursor0 s1).
  { split; [|split; [|split]].
    - symmetry. apply mark_range_empty.
    - apply key_le_refl.
    - rewrite (filter_all_false (in_window S0 P cursor0 cursor0)); [reflexivity|].
      intros r _. unfold in_window. destruct (key_ltb cursor0 (rec_key r)) eqn:E;
        [rewrite (key_lt_not_le _ _ E)|]; rewrite ?andb_false_r; reflexivity.
    - intros r _ Hw. unfold in_window in Hw.
      destruct (key_ltb cursor0 (rec_key r)) eqn:E; [rewrite (key_lt_not_le _ _ E) in Hw|];
        rewrite ?andb_false_r in Hw; discriminate. }
  pose proof (page_loop_inv parse_float kind payload (task_id t) S0 P total cursor0 (db_records s) Hs
                eq_refl (S (Z.to_nat total)) 0 cursor0 s1 Hinv) as HL.
  pose proof (page_loop_profiles kind payload (task_id t) S0 P total (S (Z.to_nat total)) 0 cursor0 s1 _ eq_refl) as HP.
  pose proof (page_loop_enough_fuel kind payload (task_id t) S0 P total (S (Z.to_nat total)) 0 cursor0 s1) as HF.
  destruct (page_loop parse_float (S (Z.to_nat total)) kind payload (task_id t) S0 P total 0 cursor0 s1)
    as [[p' c'] s'|e s'|s'].
  - split; [exact HP|]. left. simpl. destruct HL as (HL1 & HL2 & _). split; [exact HL1 | exact HL2].
  - split; [exact HP|]. right. destruct HL as (c & Hc & HL1 & HL2 & q & e' & Hq & He).
    exists c, q, e'. auto.
  - apply (HF s'). lia. reflexivity.
Qed.

End Run.

Section Worker.
Context (parse_float : string -> option Q).

Lemma backfill_body_not_out_of_fuel (t : backfill_task) (s s' : db) :
  backfill_body parse_float t s <> OutOfFuel s'.
Proof.
  unfold backfill_body.
  cbv [bind gets ret count_needing set_total mark_completed mark_failed update_task modify].
  destruct (find_profile (task_conversion_profile_id t) (db_profiles s)) as [prof|]; [|discriminate].
  set (total := Z.of_nat (List.length (filter (needs_work (task_sensor_id t) (task_conversion_profile_id t))
                                             (db_records s)))).
  destruct (total =? 0); [discriminate|].
  set (s1 := set_tasks s _).
  pose proof (page_loop_enough_fuel parse_float (profile_kind prof) (profile_payload prof) (task_id t)
               (task_sensor_id t) (task_conversion_profile_id t) total (S (Z.to_nat total)) 0 cursor0 s1) as HF.
  destruct (page_loop parse_float (S (Z.to_nat total)) (profile_kind prof) (profile_payload prof) (task_id t)
               (task_sensor_id t) (task_conversion_profile_id t) total 0 cursor0 s1) as [[p' c'] s2|e s2|s2];
    [discriminate | discriminate | intros _; apply (HF s2); [lia | reflexivity]].
Qed.

(** The handler of the [except Exception] clause. *)
Lemma conversion_backfill_claimed (s s1 : db) (t : backfill_task) :
  claim_pending s = Ret (Some t) s1 ->
  conversion_backfill parse_float s =
  try_except (backfill_body parse_float t)
    (fun e => mark_failed (task_id t) (truncate_message (exc_str e)) ;;;
              ret (ReportFailed (task_id t) (exc_str e))) s1.
Proof. intro H. unfold conversion_backfill, bind. rewrite H. reflexivity. Qed.

Lemma conversion_backfill_returns (s : db) :
  exists rep s', conversion_backfill parse_float s = Ret rep s'.
Proof.
  destruct (claim_pending_ret s) as (ot & s1 & Hc & _).
  destruct ot as [t|].
  - rewrite (conversion_backfill_claimed s s1 t Hc). unfold try_except.
    pose proof (backfill_body_not_out_of_fuel t s1) as HF.
    destruct (backfill_body parse_float t s1) as [a s2|e s2|s2].
    + eexists _, _. reflexivity.
    + eexists _, _. reflexivity.
    + exfalso. apply (HF s2). reflexivity.
  - unfold conversion_backfill, bind. rewrite Hc. eexists _, _. reflexivity.
Qed.

Lemma conversion_backfill_effect (s s1 s' : db) (t : backfill_task) (rep : report) :
  keys_ascending (db_records s) = true ->
  claim_pending s = Ret (Some t) s1 ->
  conversion_backfill parse_float s = Ret rep s' ->
  db_profiles s' = db_profiles s /\
  match find_profile (task_conversion_profile_id t) (db_profiles s) with
  | None => db_records s' = db_records s
  | Some prof =>
      run_effect parse_float (profile_kind prof) (profile_payload prof)
        (task_sensor_id t) (task_conversion_profile_id t) (db_records s) (db_records s')
  end.
Proof.
  intros Hs Hc H. destruct (claim_pending_frame s s1 _ Hc) as (Hr1 & Hp1 & _).
  rewrite (conversion_backfill_claimed s s1 t Hc) in H. unfold try_except in H.
  destruct (find_profile (task_conversion_profile_id t) (db_profiles s)) as [prof|] eqn:Hf.
  - rewrite <- Hr1 in Hs |- *. rewrite <- Hp1 in Hf |- *.
    pose proof (backfill_body_effect parse_float t s1 prof Hs Hf) as HB.
    destruct (backfill_body parse_float t s1) as [a s2|e s2|s2].
    + injection H as _ <-. exact HB.
    + cbv [bind ret mark_failed gets update_task modify] in H. injection H as _ <-. exact HB.
    + destruct HB.
  - unfold backfill_body in H. rewrite <- Hp1 in Hf.
    cbv [bind gets ret mark_failed update_task modify] in H. rewrite Hf in H.
    injection H as _ <-. simpl. split; congruence.
Qed.

Lemma Forall2_map_in {A : Type} (P : A -> A -> Prop) (f : A -> A) (l : list A) :
  (forall x, In x l -> P x (f x)) -> Forall2 P l (map f l).
Proof.
  induction l as [|x l IH]; intro H; constructor.
  - apply H. left. reflexivity.
  - apply IH. intros y Hy. apply H. right. exact Hy.
Qed.

Lemma Forall2_refl_in {A : Type} (P : A -> A -> Prop) (l : list A) :
  (forall x, In x l -> P x x) -> Forall2 P l l.
Proof. intro H. rewrite <- (map_id l) at 2. apply Forall2_map_in. exact H. Qed.

(** Row by row, a run either keeps a row or rewrites it from a conversion
    that returned. *)
Lemma run_effect_rows (kind : string) (payload : json) (sensor_id profile_id : Z)
    (recs0 recs1 : list telemetry_record) :
  run_effect parse_float kind payload sensor_id profile_id recs0 recs1 ->
  Forall2 (fun r r' => r' = r \/
             (needs_work sensor_id profile_id r = true /\
              r' = recomputed parse_float kind payload profile_id r /\
              exists res, apply_conversion parse_float kind payload (rec_raw_value r) = POk res))
    recs0 recs1.
Proof.
  intros [[-> Hok] | (c & q & e & _ & -> & Hok & _ & _)]; apply Forall2_map_in; intros r Hr.
  - destruct (needs_work sensor_id profile_id r && key_ltb cursor0 (rec_key r)) eqn:Hw; [|left; reflexivity].
    right. split; [apply andb_prop in Hw as [Hw _]; exact Hw|]. split; [reflexivity|]. apply Hok; assumption.
  - destruct (needs_work sensor_id profile_id r && key_ltb cursor0 (rec_key r) && key_leb (rec_key r) c) eqn:Hw;
      [|left; reflexivity].
    right. split; [apply andb_prop in Hw as [Hw _]; apply andb_prop in Hw as [Hw _]; exact Hw|].
    split; [reflexivity|]. apply Hok; assumption.
Qed.

(** After a run that stopped on a raising row, the rows it rewrote no
    longer need work, so the next run starts at the failing page. *)
Lemma page_after_failure (kind : string) (payload : json) (sensor_id profile_id : Z)
    (c : cursor) (recs0 : list telemetry_record) (q0 : telemetry_record) (e0 : exc) :
  key_leb cursor0 c = true ->
  (forall r, In r recs0 -> in_window sensor_id profile_id cursor0 c r = true ->
             exists res, apply_conversion parse_float kind payload (rec_raw_value r) = POk res) ->
  apply_conversion parse_float kind payload (rec_raw_value q0) = PRaise e0 ->
  page_of sensor_id profile_id cursor0 (mark_range parse_float kind payload sensor_id profile_id cursor0 c recs0) =
  page_of sensor_id profile_id c recs0.
Proof.
  intros H0 Hok He0.
  destruct (ConversionShape.conversion_raise_or_some parse_float kind payload) as [Hn|Hsome];
    [exfalso; exact (Hn _ _ He0)|].
  unfold page_of, mark_range. f_equal. apply filter_map_eq. intros r Hr.
  destruct (needs_work sensor_id profile_id r && key_ltb cursor0 (rec_key r) && key_leb (rec_key r) c) eqn:Hw.
  - destruct (Hok r Hr Hw) as [[v|] Hres]; [|exfalso; exact (Hsome _ Hres)].
    rewrite (recomputed_done parse_float kind payload sensor_id profile_id r v Hres).
    apply andb_prop in Hw as [_ Hle]. unfold key_leb in Hle. apply negb_true_iff in Hle.
    rewrite Hle, andb_false_r. split; [reflexivity | discriminate].
  - split; [|reflexivity].
    destruct (needs_work sensor_id profile_id r); [|reflexivity]. simpl in *.
    symmetry. apply key_outside_window; assumption.
Qed.

Lemma backfill_body_first_page_raises (t : backfill_task) (s : db) (prof : conversion_profile)
    (q : telemetry_record) (e : exc) :
  find_profile (task_conversion_profile_id t) (db_profiles s) = Some prof ->
  In q (page_of (task_sensor_id t) (task_conversion_profile_id t) cursor0 (db_records s)) ->
  apply_conversion parse_float (profile_kind prof) (profile_payload prof) (rec_raw_value q) = PRaise e ->
  exists e' s', backfill_body parse_float t s = Exn e' s' /\ db_records s' = db_records s /\
                db_profiles s' = db_profiles s.
Proof.
  intros Hp Hq He.
  pose proof (page_in_recs0 _ _ _ _ _ Hq) as (Hq1 & Hq2 & _).
  unfold backfill_body.
  cbv [bind gets ret count_needing set_total mark_completed update_task modify].
  rewrite Hp.
  set (total := Z.of_nat (List.length (filter (needs_work (task_sensor_id t) (task_conversion_profile_id t))
                                             (db_records s)))).
  assert (Hpos : 0 < total).
  { assert (Hin : In q (filter (needs_work (task_sensor_id t) (task_conversion_profile_id t)) (db_records s)))
      by (apply filter_In; auto).
    unfold total. destruct (filter _ (db_records s)); [destruct Hin | simpl; lia]. }
  destruct (total =? 0) eqn:Hz; [apply Z.eqb_eq in Hz; lia|].
  set (s1 := set_tasks s _).
  destruct (page_loop_first_page_raises parse_float (profile_kind prof) (profile_payload prof) (task_id t)
              (task_sensor_id t) (task_conversion_profile_id t) total (Z.to_nat total) 0 cursor0 s1 q e
              Hpos Hq He) as [e' He'].
  rewrite He'. exists e', s1. auto.
Qed.

End Worker.


(** Claim C3: two worker runs for the same sensor and the same conversion
    profile, with no other change to the table in between: the second run
    rewrites no telemetry record. The table is kept in the page query's
    [(timestamp, id)] order, one row per key. *)
Theorem backfill_idempotent (parse_float : string -> option Q)
    (s0 s0c s1 s1c s2 : db) (t1 t2 : backfill_task) (rep1 rep2 : report) :
  keys_ascending (db_records s0) = true ->
  claim_pending s0 = Ret (Some t1) s0c ->
  conversion_backfill parse_float s0 = Ret rep1 s1 ->
  claim_pending s1 = Ret (Some t2) s1c ->
  task_sensor_id t2 = task_sensor_id t1 ->
  task_conversion_profile_id t2 = task_conversion_profile_id t1 ->
  conversion_backfill parse_float s1 = Ret rep2 s2 ->
  db_records s2 = db_records s1.
Proof.
  intros Hs Hc1 Hr1 Hc2 HS HP Hr2.
  destruct (conversion_backfill_effect parse_float s0 s0c s1 t1 rep1 Hs Hc1 Hr1) as [Hprof1 E1].
  destruct (find_profile (task_conversion_profile_id t1) (db_profiles s0)) as [prof|] eqn:Hf.
  2: { assert (Hs1 : keys_ascending (db_records s1) = true) by (rewrite E1; exact Hs).
       destruct (conversion_backfill_effect parse_float s1 s1c s2 t2 rep2 Hs1 Hc2 Hr2) as [_ E2].
       rewrite HP, Hprof1, Hf in E2. exact E2. }
  destruct E1 as [[HR1 Hok1] | (c & q0 & e0 & Hc & HR1 & Hok1 & Hq0 & He0)].
  - (* the first run went through: a second one finds only rows it rewrote *)
    assert (Hs1 : keys_ascending (db_records s1) = true) by (rewrite HR1; apply mark_all_sorted; exact Hs).
    destruct (conversion_backfill_effect parse_float s1 s1c s2 t2 rep2 Hs1 Hc2 Hr2) as [_ E2].
    rewrite HP, Hprof1, Hf, HS in E2.
    destruct E2 as [[HR2 _] | (c2 & q & e & Hc2' & _ & _ & Hq & He)].
    + rewrite HR2, HR1. apply mark_all_idem.
    + exfalso. destruct (page_in_recs0 _ _ _ _ _ Hq) as (Hq1 & Hq2 & Hq3).
      rewrite HR1 in Hq1. unfold mark_all in Hq1. apply in_map_iff in Hq1 as [r [Hrq Hr]].
      revert Hrq.
      destruct (needs_work (task_sensor_id t1) (task_conversion_profile_id t1) r && key_ltb cursor0 (rec_key r))
        eqn:Hw; intro Hrq.
      * destruct (Hok1 r Hr Hw) as [res Hres]. subst q. simpl in He. congruence.
      * subst q. rewrite Hq2 in Hw. simpl in Hw.
        rewrite (key_le_lt_trans _ _ _ Hc2' Hq3) in Hw. discriminate.
  - (* the first run stopped on a raising row: the second one stops there at once *)
    destruct (claim_pending_frame s1 s1c _ Hc2) as (Hr1c & Hp1c & _).
    assert (Hpage : In q0 (page_of (task_sensor_id t2) (task_conversion_profile_id t2) cursor0 (db_records s1c))).
    { rewrite Hr1c, HR1, HS, HP.
      rewrite (page_after_failure parse_float _ _ _ _ c (db_records s0) q0 e0 Hc Hok1 He0). exact Hq0. }
    assert (Hf2 : find_profile (task_conversion_profile_id t2) (db_profiles s1c) = Some prof)
      by (rewrite Hp1c, Hprof1, HP; exact Hf).
    destruct (backfill_body_first_page_raises parse_float t2 s1c prof q0 e0 Hf2 Hpage He0)
      as (e' & s' & Hb & Hrs' & _).
    rewrite (conversion_backfill_claimed parse_float s1 s1c t2 Hc2) in Hr2. unfold try_except in Hr2.
    rewrite Hb in Hr2. cbv [bind ret mark_failed gets update_task modify] in Hr2.
    injection Hr2 as _ <-. simpl. rewrite Hrs'. exact Hr1c.
Qed.

(** Claim C10: a worker run changes a telemetry record only by rewriting
    [physical_value], [conversion_status] and [conversion_profile_id]: a
    rewritten record is one of the task's sensor needing work, keeps its
    other fields, takes the task's profile id, and holds what the conversion
    returned for its raw value, [None] with [conversion_failed]. *)
Theorem backfill_rewrites_only_conversion_fields (parse_float : string -> option Q)
    (s s_c s' : db) (t : backfill_task) (rep : report) :
  keys_ascending (db_records s) = true ->
  claim_pending s = Ret (Some t) s_c ->
  conversion_backfill parse_float s = Ret rep s' ->
  Forall2 (fun r r' =>
    r' = r \/
    (needs_work (task_sensor_id t) (task_conversion_profile_id t) r = true /\
     rec_id r' = rec_id r /\ rec_sensor_id r' = rec_sensor_id r /\
     rec_timestamp r' = rec_timestamp r /\ rec_signal r' = rec_signal r /\
     rec_raw_value r' = rec_raw_value r /\
     rec_capture_session_id r' = rec_capture_session_id r /\ rec_meta r' = rec_meta r /\
     rec_conversion_profile_id r' = Some (task_conversion_profile_id t) /\
     exists prof, find_profile (task_conversion_profile_id t) (db_profiles s) = Some prof /\
       apply_conversion parse_float (profile_kind prof) (profile_payload prof) (rec_raw_value r)
         = POk (rec_physical_value r') /\
       rec_conversion_status r' =
         match rec_physical_value r' with Some _ => Converted | None => ConversionFailed end))
    (db_records s) (db_records s').
Proof.
  intros Hs Hc H.
  destruct (conversion_backfill_effect parse_float s s_c s' t rep Hs Hc H) as [_ E].
  destruct (find_profile (task_conversion_profile_id t) (db_profiles s)) as [prof|] eqn:Hf.
  - eapply Forall2_impl; [|exact (run_effect_rows parse_float _ _ _ _ _ _ E)].
    intros r r' [Heq | (Hw & -> & res & Hres)]; [left; exact Heq|].
    right. split; [exact Hw|]. do 8 (split; [reflexivity|]). exists prof.
    split; [reflexivity|]. unfold recomputed, conv_result. rewrite Hres. simpl.
    split; [reflexivity|]. destruct res; reflexivity.
  - rewrite E. apply Forall2_refl_in. intros x _. left. reflexivity.
Qed.

Lemma backfill_idempotent_witness :
  db_records (BackfillTests.run (BackfillTests.run BackfillTests.demo_db))
  = db_records (BackfillTests.run BackfillTests.demo_db).
Proof.
  apply (backfill_idempotent BackfillTests.no_str_float BackfillTests.demo_db
           (BackfillTests.claimed BackfillTests.demo_db)
           (BackfillTests.run BackfillTests.demo_db)
           (BackfillTests.claimed (BackfillTests.run BackfillTests.demo_db))
           (BackfillTests.run (BackfillTests.run BackfillTests.demo_db))
           (BackfillTests.claimed_task BackfillTests.demo_db)
           (BackfillTests.claimed_task (BackfillTests.run BackfillTests.demo_db))
           (BackfillTests.run_report BackfillTests.demo_db)
           (BackfillTests.run_report (BackfillTests.run BackfillTests.demo_db)));
    vm_compute; reflexivity.
Defined.

Lemma backfill_rewrites_only_conversion_fields_witness :
  Forall2 (fun r r' =>
    r' = r \/
    (needs_work 7 42 r = true /\
     rec_id r' = rec_id r /\ rec_sensor_id r' = rec_sensor_id r /\
     rec_timestamp r' = rec_timestamp r /\ rec_signal r' = rec_signal r /\
     rec_raw_value r' = rec_raw_value r /\
     rec_capture_session_id r' = rec_capture_session_id r /\ rec_meta r' = rec_meta r /\
     rec_conversion_profile_id r' = Some 42 /\
     exists prof, find_profile 42 (db_profiles BackfillTests.demo_db) = Some prof /\
       apply_conversion BackfillTests.no_str_float (profile_kind prof) (profile_payload prof) (rec_raw_value r)
         = POk (rec_physical_value r') /\
       rec_conversion_status r' =
         match rec_physical_value r' with Some _ => Converted | None => ConversionFailed end))
    (db_records BackfillTests.demo_db) (db_records (BackfillTests.run BackfillTests.demo_db)).
Proof.
  apply (backfill_rewrites_only_conversion_fields BackfillTests.no_str_float BackfillTests.demo_db
           (BackfillTests.claimed BackfillTests.demo_db)
           (BackfillTests.run BackfillTests.demo_db)
           (BackfillTests.claimed_task BackfillTests.demo_db)
           (BackfillTests.run_report BackfillTests.demo_db));
    vm_compute; reflexivity.
Defined.

(** *** The task table across a worker run *)

Lemma tasks_frame_refl (tid : Z) (s s' : db) :
  db_tasks s' = db_tasks s -> tasks_frame tid s s'.
Proof.
  intro E. unfold tasks_frame. rewrite E. clear E.
  induction (db_tasks s); constructor; auto.
Qed.

Lemma tasks_frame_trans (tid : Z) (s1 s2 s3 : db) :
  tasks_frame tid s1 s2 -> tasks_frame tid s2 s3 -> tasks_frame tid s1 s3.
Proof.
  unfold tasks_frame. generalize (db_tasks s1) (db_tasks s2) (db_tasks s3). clear.
  intros l1 l2 l3 H12. revert l3.
  induction H12 as [|a b l1 l2 [Hab Hab'] _ IH]; intros l3 H23; inversion H23; subst; constructor.
  - destruct H1 as [H1 H1']. split; [congruence|].
    intro Ha. rewrite H1' by congruence. apply Hab'. exact Ha.
  - apply IH. assumption.
Qed.

Lemma tasks_frame_update (tid : Z) (f : backfill_task -> backfill_task) (s : db) :
  (forall u, task_id (f u) = task_id u) ->
  tasks_frame tid s (set_tasks s (map (fun u => if task_id u =? tid then f u else u) (db_tasks s))).
Proof.
  intro Hf. unfold tasks_frame. simpl. induction (db_tasks s) as [|u l IH]; constructor; [|exact IH].
  destruct (Z.eqb_spec (task_id u) tid); split; auto; congruence.
Qed.

Lemma tasks_frame_in (tid : Z) (s s' : db) (u : backfill_task) :
  tasks_frame tid s s' -> In u (db_tasks s) -> task_id u <> tid -> In u (db_tasks s').
Proof.
  unfold tasks_frame. generalize (db_tasks s) (db_tasks s'). intros l l' H.
  induction H as [|a b l l' [_ Hab] _ IH]; [intros []|].
  intros [<- | Hin] Hne; [left; apply Hab; exact Hne | right; apply IH; assumption].
Qed.

Lemma tasks_frame_id (tid : Z) (s s' : db) (u : backfill_task) :
  tasks_frame tid s s' -> In u (db_tasks s) -> exists u', In u' (db_tasks s') /\ task_id u' = task_id u.
Proof.
  unfold tasks_frame. generalize (db_tasks s) (db_tasks s'). intros l l' H.
  induction H as [|a b l l' [Hab _] _ IH]; [intros []|].
  intros [<- | Hin]; [exists b; split; [left; reflexivity | exact Hab]|].
  destruct (IH Hin) as (u' & H1 & H2). exists u'. split; [right; exact H1 | exact H2].
Qed.

Lemma earliest_pending_spec (ts : list backfill_task) (t : backfill_task) :
  earliest_pending ts = Some t -> In t ts /\ is_pending t = true.
Proof.
  induction ts as [|a l IH]; simpl; [discriminate|].
  destruct (earliest_pending l) as [u|].
  - destruct (is_pending a && (task_created_at a <=? task_created_at u)) eqn:E; intro H;
      injection H as <-.
    + apply andb_true_iff in E as [E _]. auto.
    + destruct (IH eq_refl). auto.
  - destruct (is_pending a) eqn:E; intro H; [injection H as <-; auto | discriminate].
Qed.

Lemma claim_pending_tasks (s s1 : db) (t : backfill_task) :
  claim_pending s = Ret (Some t) s1 ->
  (exists t0, earliest_pending (db_tasks s) = Some t0 /\ task_id t = task_id t0) /\
  In t (db_tasks s1) /\ tasks_frame (task_id t) s s1.
Proof.
  unfold claim_pending. destruct (earliest_pending (db_tasks s)) as [t0|] eqn:E; [|discriminate].
  rewrite update_task_ret. intro H. injection H as Hf <-.
  destruct (find_some _ _ Hf) as [Hin Hid]. apply Z.eqb_eq in Hid.
  split; [exists t0; split; [reflexivity | exact Hid]|]. split; [exact Hin|].
  rewrite Hid. apply tasks_frame_update. reflexivity.
Qed.

Lemma claim_pending_none (s s1 : db) :
  claim_pending s = Ret None s1 -> s1 = s.
Proof.
  unfold claim_pending. destruct (earliest_pending (db_tasks s)) as [t0|] eqn:E.
  - rewrite update_task_ret. intro H. injection H as Hf _. exfalso.
    destruct (earliest_pending_spec _ _ E) as [Hin _].
    assert (Hm : In (start_task (db_now s) t0)
                   (map (fun u => if task_id u =? task_id t0 then start_task (db_now s) u else u)
                        (db_tasks s))).
    { apply in_map_iff. exists t0. rewrite Z.eqb_refl. auto. }
    pose proof (find_none _ _ Hf _ Hm) as Hc. simpl in Hc. rewrite Z.eqb_refl in Hc. discriminate.
  - intro H. injection H as <-. reflexivity.
Qed.

Section Tasks.
Context (parse_float : string -> option Q).

Lemma page_loop_tasks (kind : string) (payload : json) (tid sensor_id profile_id total : Z) :
  forall fuel p c s o,
  page_loop parse_float fuel kind payload tid sensor_id profile_id total p c s = o ->
  tasks_frame tid s (match o with Ret _ s' | Exn _ s' | OutOfFuel s' => s' end).
Proof.
  induction fuel as [|f IH]; intros p c s o <-; [apply tasks_frame_refl; reflexivity|].
  cbn [page_loop]. destruct (p <? total); [|apply tasks_frame_refl; reflexivity].
  cbv [bind fetch_page gets ret lift raise execute_updates modify update_progress update_task].
  destruct (page_of sensor_id profile_id c (db_records s)) as [|q rest];
    [apply tasks_frame_refl; reflexivity|].
  destruct (compute_updates parse_float kind payload sensor_id profile_id (q :: rest)) as [us|e];
    [|apply tasks_frame_refl; reflexivity].
  destruct us;
    (eapply tasks_frame_trans; [|exact (IH _ _ _ _ eq_refl)]);
    (eapply tasks_frame_trans; [|apply tasks_frame_update; reflexivity]);
    apply tasks_frame_refl; reflexivity.
Qed.

Lemma backfill_body_tasks (t : backfill_task) (s : db) :
  tasks_frame (task_id t) s
    (match backfill_body parse_float t s with Ret _ s' | Exn _ s' | OutOfFuel s' => s' end).
Proof.
  unfold backfill_body.
  cbv [bind gets ret count_needing set_total mark_completed mark_failed update_task modify].
  destruct (find_profile (task_conversion_profile_id t) (db_profiles s)) as [prof|];
    [|apply tasks_frame_update; reflexivity].
  set (total := Z.of_nat (List.length (filter (needs_work (task_sensor_id t) (task_conversion_profile_id t))
                                             (db_records s)))).
  destruct (total =? 0).
  - eapply tasks_frame_trans; [apply tasks_frame_update with (f := with_total total); reflexivity|].
    apply tasks_frame_update; reflexivity.
  - eapply tasks_frame_trans; [apply tasks_frame_update with (f := with_total total); reflexivity|].
    match goal with |- context [page_loop parse_float ?fu ?k ?pl ?ti ?S ?P ?T ?p ?c ?s1] =>
      pose proof (page_loop_tasks k pl ti S P T fu p c s1 _ eq_refl) as HL;
      destruct (page_loop parse_float fu k pl ti S P T p c s1) as [[p' c'] s2|e s2|s2] end;
      [|exact HL|exact HL].
    eapply tasks_frame_trans; [exact HL|]. apply tasks_frame_update; reflexivity.
Qed.

Lemma conversion_backfill_tasks (s s' : db) (rep : report) :
  conversion_backfill parse_float s = Ret rep s' ->
  s' = s \/ exists t, earliest_pending (db_tasks s) = Some t /\ tasks_frame (task_id t) s s'.
Proof.
  intro H. destruct (claim_pending_ret s) as (ot & s1 & Hc & _). destruct ot as [t|].
  - right. destruct (claim_pending_tasks s s1 t Hc) as ((t0 & E & Hid) & _ & Hf).
    exists t0. split; [exact E|]. rewrite <- Hid.
    eapply tasks_frame_trans; [exact Hf|].
    rewrite (conversion_backfill_claimed parse_float s s1 t Hc) in H. unfold try_except in H.
    pose proof (backfill_body_tasks t s1) as HB.
    destruct (backfill_body parse_float t s1) as [a s2|e s2|s2].
    + injection H as _ <-. exact HB.
    + cbv [bind ret mark_failed gets update_task modify] in H. injection H as _ <-.
      eapply tasks_frame_trans; [exact HB|]. apply tasks_frame_update; reflexivity.
    + discriminate.
  - left. unfold conversion_backfill, bind in H. rewrite Hc in H. injection H as _ <-.
    exact (claim_pending_none s s1 Hc).
Qed.

End Tasks.

Lemma substring_length_le (n : nat) (m : string) : (String.length (substring 0 n m) <= n)%nat.
Proof.
  revert n. induction m as [|a m IH]; intro n; destruct n; simpl; try lia.
  specialize (IH n). lia.
Qed.

Lemma truncate_message_length (m : string) : (String.length (truncate_message m) <= 500)%nat.
Proof. apply substring_length_le. Qed.

Lemma NoDup_map_inj {A B : Type} (f : A -> B) (l : list A) (x y : A) :
  NoDup (map f l) -> In x l -> In y l -> f x = f y -> x = y.
Proof.
  induction l as [|a l IH]; simpl; [intros _ []|].
  intros Hn Hx Hy Hxy. inversion Hn as [|? ? Hnot Hn']; subst.
  destruct Hx as [<- | Hx], Hy as [<- | Hy]; auto.
  - exfalso. apply Hnot. rewrite Hxy. apply in_map. exact Hy.
  - exfalso. apply Hnot. rewrite <- Hxy. apply in_map. exact Hx.
Qed.


(** *** Completion of a task *)

(** [same_total u u']: the row keeps its id and its stored [total_records]. *)
Lemma Forall2_total_trans (l1 l2 l3 : list backfill_task) :
  Forall2 (fun u u' => task_id u' = task_id u /\ task_total_records u' = task_total_records u) l1 l2 ->
  Forall2 (fun u u' => task_id u' = task_id u /\ task_total_records u' = task_total_records u) l2 l3 ->
  Forall2 (fun u u' => task_id u' = task_id u /\ task_total_records u' = task_total_records u) l1 l3.
Proof.
  intro H12. revert l3.
  induction H12 as [|a b l1 l2 [Hab Hab'] _ IH]; intros l3 H23; inversion H23; subst; constructor.
  - destruct H1 as [H1 H1']. split; congruence.
  - apply IH. assumption.
Qed.

Lemma Forall2_total_refl (l : list backfill_task) :
  Forall2 (fun u u' => task_id u' = task_id u /\ task_total_records u' = task_total_records u) l l.
Proof. induction l; constructor; auto. Qed.

Lemma Forall2_total_update (tid : Z) (f : backfill_task -> backfill_task) (l : list backfill_task) :
  (forall u, task_id (f u) = task_id u /\ task_total_records (f u) = task_total_records u) ->
  Forall2 (fun u u' => task_id u' = task_id u /\ task_total_records u' = task_total_records u)
    l (map (fun u => if task_id u =? tid then f u else u) l).
Proof.
  intro Hf. induction l as [|u l IH]; constructor; [|exact IH].
  destruct (task_id u =? tid); [apply Hf | split; reflexivity].
Qed.

Lemma Forall2_in_r {A : Type} (R : A -> A -> Prop) (l l' : list A) (y : A) :
  Forall2 R l l' -> In y l' -> exists x, In x l /\ R x y.
Proof.
  intro H. induction H as [|a b l l' Hab _ IH]; [intros []|].
  intros [<- | Hin]; [exists a; split; [left; reflexivity | exact Hab]|].
  destruct (IH Hin) as (x & H1 & H2). exists x. split; [right; exact H1 | exact H2].
Qed.

Section Completion.
Context (parse_float : string -> option Q).

Lemma page_loop_totals (kind : string) (payload : json) (tid sensor_id profile_id total : Z) :
  forall fuel p c s o,
  page_loop parse_float fuel kind payload tid sensor_id profile_id total p c s = o ->
  Forall2 (fun u u' => task_id u' = task_id u /\ task_total_records u' = task_total_records u)
    (db_tasks s) (db_tasks (match o with Ret _ s' | Exn _ s' | OutOfFuel s' => s' end)).
Proof.
  induction fuel as [|f IH]; intros p c s o <-; [apply Forall2_total_refl|].
  cbn [page_loop]. destruct (p <? total); [|apply Forall2_total_refl].
  cbv [bind fetch_page gets ret lift raise execute_updates modify update_progress update_task].
  destruct (page_of sensor_id profile_id c (db_records s)) as [|q rest]; [apply Forall2_total_refl|].
  destruct (compute_updates parse_float kind payload sensor_id profile_id (q :: rest)) as [us|e];
    [|apply Forall2_total_refl].
  destruct us;
    (eapply Forall2_total_trans; [|exact (IH _ _ _ _ eq_refl)]);
    simpl; apply Forall2_total_update; intro u; split; reflexivity.
Qed.

(** A [ReportCompleted] comes from [mark_completed]: the row is
    ['completed'], holds the processed count, and keeps the total stored by
    [set_total]; the count reached that total or the last page was empty. *)
Lemma backfill_body_completed (t : backfill_task) (s s' : db) (tid n : Z) :
  backfill_body parse_float t s = Ret (ReportCompleted tid n) s' ->
  let total := Z.of_nat (List.length (filter (needs_work (task_sensor_id t) (task_conversion_profile_id t))
                                             (db_records s))) in
  tid = task_id t /\
  (total <= n \/ exists c', page_of (task_sensor_id t) (task_conversion_profile_id t) c' (db_records s') = []) /\
  forall u, In u (db_tasks s') -> task_id u = tid ->
    task_status u = Completed /\ task_processed_records u = n /\ task_total_records u = Some total.
Proof.
  unfold backfill_body.
  cbv [bind gets ret count_needing set_total mark_completed mark_failed update_task modify].
  destruct (find_profile (task_conversion_profile_id t) (db_profiles s)) as [prof|]; [|discriminate].
  intro H.
  set (total := Z.of_nat (List.length (filter (needs_work (task_sensor_id t) (task_conversion_profile_id t))
                                             (db_records s)))) in *.
  destruct (Z.eqb_spec total 0) as [H0|H0].
  - injection H as <- <- <-. split; [reflexivity|]. split; [left; lia|].
    intros u Hu Hid. simpl in Hu. rewrite map_map in Hu. apply in_map_iff in Hu as (u0 & <- & _).
    destruct (Z.eqb_spec (task_id u0) (task_id t)) as [E|E]; simpl in Hid |- *.
    + rewrite E, Z.eqb_refl. simpl. auto.
    + apply Z.eqb_neq in E. rewrite E in Hid |- *. apply Z.eqb_neq in E. contradiction.
  - match type of H with context [page_loop parse_float ?fu ?k ?pl ?ti ?S ?P ?T ?p ?c ?s1] =>
      pose proof (page_loop_totals k pl ti S P T fu p c s1 _ eq_refl) as HT;
      pose proof (page_loop_exit parse_float k pl ti S P T fu p c s1) as HX;
      destruct (page_loop parse_float fu k pl ti S P T p c s1) as [[p' c'] s2|e s2|s2] end;
      [|discriminate|discriminate].
    injection H as <- <- <-. split; [reflexivity|]. split.
    + destruct (HX _ _ _ eq_refl) as [Hx|Hx]; [left; exact Hx | right; exists c'; exact Hx].
    + intros u Hu Hid. simpl in Hu. apply in_map_iff in Hu as (u0 & <- & Hu0).
      destruct (Z.eqb_spec (task_id u0) (task_id t)) as [E|E]; [|contradiction].
      destruct (Forall2_in_r _ _ _ _ HT Hu0) as (u1 & Hu1 & Hid1 & Htot1).
      simpl in Hu1. apply in_map_iff in Hu1 as (u2 & <- & _).
      destruct (task_id u2 =? task_id t) eqn:E2.
      * simpl. split; [reflexivity|]. split; [reflexivity|]. rewrite Htot1. reflexivity.
      * exfalso. simpl in Hid1. apply Z.eqb_neq in E2. congruence.
Qed.

(** The run behind a [ReportCompleted] with a non-zero total: [set_total],
    then the page loop from [processed = 0] and [cursor0], which stops at a
    count [n] and a cursor [c] with [n >= total] or an empty page at [c];
    [mark_completed] then leaves the records as the loop left them. *)
Lemma backfill_body_completed_loop (t : backfill_task) (s s' : db) (tid n : Z) :
  backfill_body parse_float t s = Ret (ReportCompleted tid n) s' ->
  let sid := task_sensor_id t in
  let pid := task_conversion_profile_id t in
  let total := Z.of_nat (List.length (filter (needs_work sid pid) (db_records s))) in
  (total = 0 /\ n = 0 /\ db_records s' = db_records s) \/
  (total <> 0 /\ exists prof s2 c s3,
     find_profile pid (db_profiles s) = Some prof /\
     set_total (task_id t) total s = Ret tt s2 /\
     page_loop parse_float (Datatypes.S (Z.to_nat total)) (profile_kind prof) (profile_payload prof)
       (task_id t) sid pid total 0 cursor0 s2 = Ret (n, c) s3 /\
     db_records s' = db_records s3 /\
     (total <= n \/ page_of sid pid c (db_records s') = [])).
Proof.
  unfold backfill_body.
  cbv [bind gets ret count_needing mark_completed mark_failed update_task modify].
  destruct (find_profile (task_conversion_profile_id t) (db_profiles s)) as [prof|] eqn:Hf; [|discriminate].
  intro H. cbv zeta.
  set (total := Z.of_nat (List.length (filter (needs_work (task_sensor_id t) (task_conversion_profile_id t))
                                             (db_records s)))) in *.
  destruct (set_total (task_id t) total s) as [[] s2|e s2|s2] eqn:Hs; [|discriminate|discriminate].
  assert (Hr2 : db_records s2 = db_records s)
    by (unfold set_total, update_task, modify in Hs; injection Hs as <-; reflexivity).
  destruct (Z.eqb_spec total 0) as [H0|H0].
  - left. injection H as <- <- <-. split; [exact H0|]. split; [reflexivity|]. exact Hr2.
  - right. split; [exact H0|].
    match type of H with context [page_loop parse_float ?fu ?k ?pl ?ti ?S ?P ?T ?p ?c s2] =>
      destruct (page_loop parse_float fu k pl ti S P T p c s2) as [[p' c'] s3|e s3|s3] eqn:Hl end;
      [|discriminate|discriminate].
    injection H as <- <- <-. exists prof, s2, c', s3.
    split; [reflexivity|]. split; [reflexivity|]. split; [exact Hl|]. split; [reflexivity|].
    exact (page_loop_exit parse_float _ _ _ _ _ _ _ _ _ _ _ _ _ Hl).
Qed.

Lemma conversion_backfill_completed (s s' : db) (tid n : Z) :
  conversion_backfill parse_float s = Ret (ReportCompleted tid n) s' ->
  exists t s_c, claim_pending s = Ret (Some t) s_c /\
    backfill_body parse_float t s_c = Ret (ReportCompleted tid n) s'.
Proof.
  intro H. destruct (claim_pending_ret s) as (ot & s1 & Hc & _). destruct ot as [t|].
  - exists t, s1. split; [exact Hc|].
    rewrite (conversion_backfill_claimed parse_float s s1 t Hc) in H. unfold try_except in H.
    destruct (backfill_body parse_float t s1) as [a s2|e s2|s2]; [exact H| |discriminate].
    cbv [bind ret mark_failed gets update_task modify] in H. discriminate.
  - unfold conversion_backfill, bind in H. rewrite Hc in H. discriminate.
Qed.

End Completion.


(** *** Claiming a task *)

Lemma earliest_pending_none (ts : list backfill_task) :
  earliest_pending ts = None -> forall u, In u ts -> is_pending u = false.
Proof.
  induction ts as [|a l IH]; simpl; [intros _ _ []|].
  destruct (earliest_pending l) as [v|]; [destruct (_ && _); discriminate|].
  destruct (is_pending a) eqn:Ea; [discriminate|].
  intros _ u [<- | Hu]; [exact Ea | exact (IH eq_refl u Hu)].
Qed.

Lemma earliest_pending_min (ts : list backfill_task) (t : backfill_task) :
  earliest_pending ts = Some t ->
  forall u, In u ts -> is_pending u = true -> task_created_at t <= task_created_at u.
Proof.
  revert t. induction ts as [|a l IH]; intro t; simpl; [discriminate|].
  destruct (earliest_pending l) as [v|] eqn:El.
  - specialize (IH v eq_refl).
    destruct (is_pending a && (task_created_at a <=? task_created_at v)) eqn:E; intro H; injection H as <-.
    + apply andb_true_iff in E as [_ E]. apply Z.leb_le in E.
      intros u [<- | Hu] Hp; [lia|]. specialize (IH u Hu Hp). lia.
    + intros u [<- | Hu] Hp; [|exact (IH u Hu Hp)].
      rewrite Hp in E. simpl in E. apply Z.leb_gt in E. lia.
  - destruct (is_pending a); [|discriminate]. intro H; injection H as <-.
    intros u [<- | Hu] Hp; [lia|]. rewrite (earliest_pending_none l El u Hu) in Hp. discriminate.
Qed.

Lemma map_update_ids (tid : Z) (f : backfill_task -> backfill_task) (l : list backfill_task) :
  (forall u, task_id (f u) = task_id u) ->
  map task_id (map (fun u => if task_id u =? tid then f u else u) l) = map task_id l.
Proof.
  intro Hf. rewrite map_map. apply map_ext. intro u. destruct (task_id u =? tid); auto.
Qed.

Lemma find_updated (tid : Z) (f : backfill_task -> backfill_task) (l : list backfill_task) (t0 : backfill_task) :
  (forall u, task_id (f u) = task_id u) ->
  NoDup (map task_id l) -> In t0 l -> task_id t0 = tid ->
  find (fun u => task_id u =? tid) (map (fun u => if task_id u =? tid then f u else u) l) = Some (f t0).
Proof.
  intros Hf. induction l as [|a l IH]; simpl; [intros _ []|].
  intros Hnd Hin Hid. inversion Hnd as [|? ? Hnot Hnd']; subst.
  destruct (Z.eqb_spec (task_id a) (task_id t0)) as [E|E].
  - rewrite Hf, E, Z.eqb_refl. f_equal.
    destruct Hin as [-> | Hin]; [reflexivity|].
    exfalso. apply Hnot. rewrite E. apply in_map. exact Hin.
  - destruct Hin as [-> | Hin]; [contradiction|].
    apply Z.eqb_neq in E. rewrite E. exact (IH Hnd' Hin eq_refl).
Qed.

Lemma claim_pending_some (s : db) (t0 : backfill_task) :
  NoDup (map task_id (db_tasks s)) -> earliest_pending (db_tasks s) = Some t0 ->
  claim_pending s = Ret (Some (start_task (db_now s) t0))
    (set_tasks s (map (fun u => if task_id u =? task_id t0 then start_task (db_now s) u else u) (db_tasks s))).
Proof.
  intros Hnd E. unfold claim_pending. rewrite E, update_task_ret. f_equal. simpl.
  apply find_updated; auto. apply earliest_pending_spec, E.
Qed.

(** *** The claim-once invariant of a history *)

Lemma queue_inv_update (cl : list Z) (s : db) (tid : Z) (f : backfill_task -> backfill_task) :
  (forall u, task_id (f u) = task_id u) ->
  (forall u, is_pending u = false -> is_pending (f u) = false) ->
  queue_inv cl s ->
  queue_inv cl (set_tasks s (map (fun u => if task_id u =? tid then f u else u) (db_tasks s))).
Proof.
  intros Hid Hp (Hnd & Hcl & Hc). unfold queue_inv. simpl. rewrite (map_update_ids tid f _ Hid).
  split; [exact Hnd|]. split; [exact Hcl|]. intros id Hin. destruct (Hc id Hin) as [Hm Hu].
  split; [exact Hm|]. intros u Hu' Hidu. apply in_map_iff in Hu' as (u0 & <- & Hu0).
  destruct (task_id u0 =? tid).
  - apply Hp. apply (Hu u0 Hu0). rewrite <- Hid. exact Hidu.
  - exact (Hu u0 Hu0 Hidu).
Qed.

Lemma queue_inv_step (cl : list Z) (s1 s2 : db) (o : task_op) (r : option backfill_task) :
  queue_inv cl s1 -> op_fresh o s1 -> run_op o s1 = Ret r s2 -> queue_inv (claimed_of o r ++ cl) s2.
Proof.
  intros Hinv Hfr H. destruct o as [t| |tid n|tid p|tid p|tid m]; simpl in Hfr, H |- *.
  - (* create *)
    injection H as <- <-. destruct Hinv as (Hnd & Hcl & Hc). unfold queue_inv. simpl.
    rewrite map_app. simpl. split; [|split; [exact Hcl|]].
    + apply NoDup_app; [exact Hnd | constructor; [intros []|constructor] |].
      intros x Hx [<- | []]. contradiction.
    + intros id Hin. destruct (Hc id Hin) as [Hm Hu]. split; [apply in_or_app; left; exact Hm|].
      intros u Hu' Hidu. apply in_app_or in Hu' as [Hu' | [<- | []]]; [exact (Hu u Hu' Hidu)|].
      exfalso. apply Hfr. rewrite Hidu. exact Hm.
  - (* claim *)
    destruct (earliest_pending (db_tasks s1)) as [t0|] eqn:E.
    + destruct Hinv as (Hnd & Hcl & Hc).
      rewrite (claim_pending_some s1 t0 Hnd E) in H. injection H as <- <-. simpl.
      destruct (earliest_pending_spec _ _ E) as [Ht0 Hp0].
      assert (Hnot : ~ In (task_id t0) cl).
      { intro Hin. destruct (Hc _ Hin) as [_ Hu]. rewrite (Hu t0 Ht0 eq_refl) in Hp0. discriminate. }
      pose proof (queue_inv_update cl s1 (task_id t0) (start_task (db_now s1)) (fun _ => eq_refl)
                    (fun _ _ => eq_refl) (conj Hnd (conj Hcl Hc))) as (Hnd' & Hcl' & Hc').
      split; [exact Hnd'|]. split; [constructor; assumption|].
      intros id [<- | Hin]; [|exact (Hc' id Hin)].
      split.
      * simpl. rewrite (map_update_ids (task_id t0) (start_task (db_now s1)) _ (fun _ => eq_refl)).
        apply in_map. exact Ht0.
      * intros u Hu Hidu. simpl in Hu. apply in_map_iff in Hu as (u0 & <- & _).
        destruct (Z.eqb_spec (task_id u0) (task_id t0)) as [_|Hne]; [reflexivity|contradiction].
    + unfold claim_pending in H. rewrite E in H. injection H as <- <-. exact Hinv.
  - injection H as <- <-. apply queue_inv_update; auto.
  - injection H as <- <-. apply queue_inv_update; auto.
  - injection H as <- <-. apply queue_inv_update; auto.
  - injection H as <- <-. apply queue_inv_update; auto.
Qed.

Lemma queue_trace_inv (s0 : db) (cl : list Z) (s : db) :
  NoDup (map task_id (db_tasks s0)) -> queue_trace s0 cl s -> queue_inv cl s.
Proof.
  intros Hnd H. induction H as [|cl s1 s2 o r _ IH Hfr Hop|cl s1 rs ps now _ IH].
  - split; [exact Hnd|]. split; [constructor|]. intros _ [].
  - exact (queue_inv_step cl s1 s2 o r IH Hfr Hop).
  - exact IH.
Qed.


(** Claim C5: the worker does not let an exception out. [conversion_backfill]
    always returns normally. When processing the claimed task raises [e],
    it returns [ReportFailed], and the task's row is ['failed'] with
    error message [str(e)[:500]], at most 500 characters long. A task that
    is already ['failed'] when the worker runs stays as it is: the worker
    claims only pending tasks and writes only the claimed one. Task ids are
    the table's primary key. *)
Theorem backfill_failure_recorded (parse_float : string -> option Q) :
  (forall s, exists rep s', conversion_backfill parse_float s = Ret rep s') /\
  (forall s s_c s_b t e,
     claim_pending s = Ret (Some t) s_c ->
     backfill_body parse_float t s_c = Exn e s_b ->
     exists s', conversion_backfill parse_float s = Ret (ReportFailed (task_id t) (exc_str e)) s' /\
       (exists u, In u (db_tasks s') /\ task_id u = task_id t) /\
       forall u, In u (db_tasks s') -> task_id u = task_id t ->
         task_status u = Failed /\
         task_error_message u = Some (truncate_message (exc_str e)) /\
         (String.length (truncate_message (exc_str e)) <= 500)%nat) /\
  (forall s rep s' u,
     NoDup (map task_id (db_tasks s)) -> In u (db_tasks s) -> task_status u = Failed ->
     conversion_backfill parse_float s = Ret rep s' -> In u (db_tasks s')).
Proof.
  split; [exact (conversion_backfill_returns parse_float)|]. split.
  - intros s s_c s_b t e Hc Hb.
    destruct (claim_pending_tasks s s_c t Hc) as (_ & Hin & _).
    rewrite (conversion_backfill_claimed parse_float s s_c t Hc). unfold try_except.
    pose proof (backfill_body_tasks parse_float t s_c) as HB. rewrite Hb in HB |- *.
    cbv [bind ret mark_failed gets update_task modify].
    eexists. split; [reflexivity|]. cbn [db_tasks set_tasks]. split.
    + destruct (tasks_frame_id _ _ _ _ HB Hin) as (u & Hu & Hid).
      exists (failed_task (db_now s_b) (truncate_message (exc_str e)) u).
      split; [|exact Hid]. apply in_map_iff. exists u. rewrite Hid, Z.eqb_refl. auto.
    + intros u Hu Hid. apply in_map_iff in Hu as (u0 & <- & _).
      destruct (Z.eqb_spec (task_id u0) (task_id t)) as [_|Hne]; [|contradiction].
      split; [reflexivity|]. split; [reflexivity|]. apply truncate_message_length.
  - intros s rep s' u Hnd Hu Hst H.
    destruct (conversion_backfill_tasks parse_float s s' rep H) as [-> | (t & E & Hf)]; [exact Hu|].
    apply (tasks_frame_in _ _ _ _ Hf Hu). intro Hid.
    destruct (earliest_pending_spec _ _ E) as [Ht Hp].
    rewrite (NoDup_map_inj task_id _ u t Hnd Hu Ht Hid) in Hst.
    unfold is_pending in Hp. rewrite Hst in Hp. discriminate.
Qed.

Lemma backfill_failure_recorded_witness :
  exists s',
    conversion_backfill BackfillTests.no_str_float BackfillTests.failing_db
      = Ret (ReportFailed 1 (exc_str (KeyError "physical"))) s' /\
    (exists u, In u (db_tasks s') /\ task_id u = 1) /\
    forall u, In u (db_tasks s') -> task_id u = 1 ->
      task_status u = Failed /\
      task_error_message u = Some (truncate_message (exc_str (KeyError "physical"))) /\
      (String.length (truncate_message (exc_str (KeyError "physical"))) <= 500)%nat.
Proof.
  exact (proj1 (proj2 (backfill_failure_recorded BackfillTests.no_str_float))
           BackfillTests.failing_db (BackfillTests.claimed BackfillTests.failing_db)
           (BackfillTests.state_of
              (backfill_body BackfillTests.no_str_float
                 (BackfillTests.claimed_task BackfillTests.failing_db)
                 (BackfillTests.claimed BackfillTests.failing_db)))
           (BackfillTests.claimed_task BackfillTests.failing_db) (KeyError "physical")
           eq_refl eq_refl).
Defined.


(** Claim C6: the page loop of the worker. A page holds at most
    [BATCH_SIZE = 1000] rows of the table, needing work and with keys
    strictly above the cursor, in [(timestamp, id)] order when the table is;
    after a non-empty page the cursor is strictly larger; a run never
    exhausts the loop's iteration bound; the loop stops exactly when
    [processed >= total] or the fetched page is empty; and a run reporting
    completion [n] for task [tid] claimed that task and either found a total
    of 0 and reports 0, or stored the total with [set_total] and ran the
    page loop from [processed = 0] and [cursor0] to its exit at count [n]
    and cursor [c], where [n >= total] or the page fetched at [c] from the
    final records is empty; the task row is then ['completed'] with
    [processed_records = n] and the total stored by [set_total]. *)
Theorem backfill_page_loop_terminates (parse_float : string -> option Q) :
  (forall S P c rs,
     (List.length (page_of S P c rs) <= BATCH_SIZE)%nat /\
     (keys_ascending rs = true -> keys_ascending (page_of S P c rs) = true) /\
     forall q, In q (page_of S P c rs) ->
       In q rs /\ needs_work S P q = true /\ key_ltb c (rec_key q) = true) /\
  (forall S P c rs q rest, page_of S P c rs = q :: rest ->
     key_ltb c (fold_left (fun _ row => rec_key row) (q :: rest) c) = true) /\
  (forall s s', conversion_backfill parse_float s <> OutOfFuel s') /\
  (forall fuel kind payload tid S P total p c s,
     (total <= p \/ page_of S P c (db_records s) = []) ->
     page_loop parse_float (Datatypes.S fuel) kind payload tid S P total p c s = Ret (p, c) s) /\
  (forall s s' tid n,
     conversion_backfill parse_float s = Ret (ReportCompleted tid n) s' ->
     exists t s1, claim_pending s = Ret (Some t) s1 /\ task_id t = tid /\
       let sid := task_sensor_id t in
       let pid := task_conversion_profile_id t in
       let total := Z.of_nat (List.length (filter (needs_work sid pid) (db_records s))) in
       ((total = 0 /\ n = 0) \/
        (total <> 0 /\ exists prof s2 c s3,
           find_profile pid (db_profiles s) = Some prof /\
           set_total tid total s1 = Ret tt s2 /\
           page_loop parse_float (Datatypes.S (Z.to_nat total)) (profile_kind prof) (profile_payload prof)
             tid sid pid total 0 cursor0 s2 = Ret (n, c) s3 /\
           db_records s' = db_records s3 /\
           (total <= n \/ page_of sid pid c (db_records s') = []))) /\
       (exists u, In u (db_tasks s') /\ task_id u = tid) /\
       forall u, In u (db_tasks s') -> task_id u = tid ->
         task_status u = Completed /\ task_processed_records u = n /\ task_total_records u = Some total).
Proof.
  split; [|split; [|split; [|split]]].
  - intros S P c rs. split; [|split].
    + unfold page_of. rewrite length_firstn. apply Nat.le_min_l.
    + intro Hs. unfold page_of. apply keys_ascending_firstn, keys_ascending_filter, Hs.
    + intros q Hq. exact (page_in_recs0 S P rs c q Hq).
  - intros S P c rs q rest Hp. rewrite fold_cursor_last.
    assert (Hin : In (last (q :: rest) q) (page_of S P c rs)) by (rewrite Hp; apply last_in_cons_rec).
    exact (proj2 (proj2 (page_in_recs0 S P rs c _ Hin))).
  - intros s s' H. destruct (conversion_backfill_returns parse_float s) as (rep & s2 & E).
    rewrite E in H. discriminate.
  - intros fuel kind payload tid S P total p c s Hx. cbn [page_loop].
    destruct (Z.ltb_spec p total) as [Hlt|]; [|reflexivity].
    destruct Hx as [Hx|Hx]; [lia|].
    cbv [bind fetch_page gets ret]. rewrite Hx. reflexivity.
  - intros s s' tid n H.
    destruct (conversion_backfill_completed parse_float s s' tid n H) as (t & s_c & Hc & Hb).
    destruct (claim_pending_tasks s s_c t Hc) as (_ & Hin & _).
    destruct (claim_pending_frame s s_c _ Hc) as (Hr & _).
    pose proof (backfill_body_tasks parse_float t s_c) as HF. rewrite Hb in HF.
    destruct (backfill_body_completed parse_float t s_c s' tid n Hb) as (Hid & _ & Hu).
    pose proof (backfill_body_completed_loop parse_float t s_c s' tid n Hb) as HL.
    destruct (claim_pending_frame s s_c _ Hc) as (_ & Hp & _).
    cbv zeta in HL, Hu |- *. rewrite Hr in HL, Hu. rewrite Hp in HL. subst tid.
    exists t, s_c. split; [exact Hc|]. split; [reflexivity|]. split; [|split; [|exact Hu]].
    + destruct HL as [(H0 & Hn & _)|(H0 & prof & s2 & c & s3 & Hf & Hs & Hl & Hr3 & Hx)];
        [left; split; assumption | right; split; [exact H0|]; exists prof, s2, c, s3; auto].
    + destruct (tasks_frame_id _ _ _ _ HF Hin) as (u & H1 & H2). exists u. split; [exact H1|congruence].
Qed.

Lemma backfill_page_loop_terminates_witness :
  exists t s1, claim_pending BackfillTests.demo_db = Ret (Some t) s1 /\ task_id t = 1 /\
    let sid := task_sensor_id t in
    let pid := task_conversion_profile_id t in
    let total := Z.of_nat (List.length (filter (needs_work sid pid) (db_records BackfillTests.demo_db))) in
    ((total = 0 /\ 2 = 0) \/
     (total <> 0 /\ exists prof s2 c s3,
        find_profile pid (db_profiles BackfillTests.demo_db) = Some prof /\
        set_total 1 total s1 = Ret tt s2 /\
        page_loop BackfillTests.no_str_float (Datatypes.S (Z.to_nat total)) (profile_kind prof)
          (profile_payload prof) 1 sid pid total 0 cursor0 s2 = Ret (2, c) s3 /\
        db_records (BackfillTests.run BackfillTests.demo_db) = db_records s3 /\
        (total <= 2 \/ page_of sid pid c (db_records (BackfillTests.run BackfillTests.demo_db)) = []))) /\
    (exists u, In u (db_tasks (BackfillTests.run BackfillTests.demo_db)) /\ task_id u = 1) /\
    forall u, In u (db_tasks (BackfillTests.run BackfillTests.demo_db)) -> task_id u = 1 ->
      task_status u = Completed /\ task_processed_records u = 2 /\ task_total_records u = Some total.
Proof.
  exact (proj2 (proj2 (proj2 (proj2 (backfill_page_loop_terminates BackfillTests.no_str_float))))
           BackfillTests.demo_db (BackfillTests.run BackfillTests.demo_db) 1 2 eq_refl).
Defined.


(** Claim C4: [claim_pending] on a table with distinct task ids either finds
    no pending task, returns nothing and changes nothing, or takes the
    pending task with the earliest [created_at], sets it ['running'] with
    [started_at = now()], changes no other row, and returns the updated row.
    Over any history of repository calls (new rows get fresh ids) no task
    id is claimed twice. *)
Theorem claim_pending_once :
  (forall s, NoDup (map task_id (db_tasks s)) ->
     (claim_pending s = Ret None s /\ forall u, In u (db_tasks s) -> task_status u <> Pending) \/
     (exists t0, In t0 (db_tasks s) /\ task_status t0 = Pending /\
        (forall u, In u (db_tasks s) -> task_status u = Pending -> task_created_at t0 <= task_created_at u) /\
        claim_pending s = Ret (Some (start_task (db_now s) t0))
          (set_tasks s (map (fun u => if task_id u =? task_id t0 then start_task (db_now s) u else u)
                            (db_tasks s))) /\
        task_status (start_task (db_now s) t0) = Running /\
        task_started_at (start_task (db_now s) t0) = Some (db_now s) /\
        forall u, In u (db_tasks s) -> u <> t0 -> task_id u <> task_id t0)) /\
  (forall s0 cl s, NoDup (map task_id (db_tasks s0)) -> queue_trace s0 cl s -> NoDup cl).
Proof.
  split.
  - intros s Hnd. destruct (earliest_pending (db_tasks s)) as [t0|] eqn:E.
    + right. destruct (earliest_pending_spec _ _ E) as [Hin Hp]. exists t0.
      split; [exact Hin|]. split; [unfold is_pending in Hp; destruct (task_status t0); congruence|].
      split.
      { intros u Hu Hpu. apply (earliest_pending_min _ _ E u Hu). unfold is_pending. rewrite Hpu. reflexivity. }
      split; [exact (claim_pending_some s t0 Hnd E)|]. split; [reflexivity|]. split; [reflexivity|].
      intros u Hu Hne Hid. exact (Hne (NoDup_map_inj task_id _ u t0 Hnd Hu Hin Hid)).
    + left. split; [unfold claim_pending; rewrite E; reflexivity|].
      intros u Hu Hp. pose proof (earliest_pending_none _ E u Hu) as Hf.
      unfold is_pending in Hf. rewrite Hp in Hf. discriminate.
  - intros s0 cl s Hnd H. exact (proj1 (proj2 (queue_trace_inv s0 cl s Hnd H))).
Qed.

Lemma claim_pending_once_witness :
  NoDup (claimed_of OpClaim (Some (BackfillTests.claimed_task (BackfillTests.claimed BackfillTests.demo_db)))
         ++ claimed_of OpClaim (Some (BackfillTests.claimed_task BackfillTests.demo_db)) ++ []).
Proof.
  apply (proj2 claim_pending_once BackfillTests.demo_db _
           (BackfillTests.claimed (BackfillTests.claimed BackfillTests.demo_db))).
  - vm_compute. repeat constructor; vm_compute; lia.
  - apply (qt_op _ _ (BackfillTests.claimed BackfillTests.demo_db)); [|exact I|reflexivity].
    apply (qt_op _ _ BackfillTests.demo_db); [apply qt_nil|exact I|reflexivity].
Defined.

End BackfillProofs.

(** ** The ingest endpoint *)
Module IngestProofs.
Import Backfill Ingest.
Local Open Scope string_scope.

Lemma validate_readings_length (coerce_float : json -> option Q) (parse_datetime : json -> option Z)
    (l : list json) (rs : list reading_dto) :
  validate_readings parse_datetime coerce_float l = Some rs -> List.length rs = List.length l.
Proof.
  revert rs. induction l as [|j t IH]; intros rs; simpl; [intro H; injection H as <-; reflexivity|].
  destruct (validate_reading parse_datetime coerce_float j), (validate_readings parse_datetime coerce_float t) as [rs'|];
    try discriminate.
  intro H. injection H as <-. simpl. rewrite (IH rs' eq_refl). reflexivity.
Qed.

Section Endpoint.
Context (parse_uuid : json -> option Z) (parse_datetime : json -> option Z)
        (coerce_float : json -> option Q).

Lemma validate_ingest_length (body : list (string * json)) (dto : ingest_dto) :
  validate_ingest parse_uuid parse_datetime coerce_float body = Some dto ->
  (MIN_READINGS <= List.length (dto_readings dto) <= MAX_READINGS)%nat.
Proof.
  unfold validate_ingest.
  destruct (keys_allowed _ body); [|discriminate].
  destruct (obj_get "sensor_id" body) as [sj|]; [|discriminate].
  destruct (obj_get "readings" body) as [[]|]; try discriminate.
  destruct ((MIN_READINGS <=? List.length l) && (List.length l <=? MAX_READINGS))%nat eqn:E; [|discriminate].
  apply andb_true_iff in E as [E1 E2]. apply Nat.leb_le in E1, E2.
  destruct (parse_uuid sj), (validate_optional parse_uuid (obj_get "run_id" body)),
    (validate_optional parse_uuid (obj_get "capture_session_id" body)),
    (validate_dict_field (obj_get "meta" body)),
    (validate_readings parse_datetime coerce_float l) as [rs|] eqn:Hr; try discriminate.
  intro H. injection H as <-. simpl. rewrite (validate_readings_length _ _ _ _ Hr). lia.
Qed.

Lemma validate_ingest_out_of_range (body : list (string * json)) (rs : list json) :
  obj_get "readings" body = Some (JList rs) ->
  (List.length rs < MIN_READINGS \/ MAX_READINGS < List.length rs)%nat ->
  validate_ingest parse_uuid parse_datetime coerce_float body = None.
Proof.
  intros Hr Hlen. unfold validate_ingest.
  destruct (keys_allowed _ body); [|reflexivity].
  destruct (obj_get "sensor_id" body); [|reflexivity]. rewrite Hr.
  replace ((MIN_READINGS <=? List.length rs) && (List.length rs <=? MAX_READINGS))%nat with false;
    [reflexivity|].
  symmetry. apply andb_false_iff. destruct Hlen as [H|H]; [left|right]; apply Nat.leb_gt; exact H.
Qed.

End Endpoint.

End IngestProofs.

(** ** The webhook delivery store *)
Module WebhookProofs.
Import Webhooks.

Lemma dedup_keys_app (a b : list delivery) : dedup_keys (a ++ b) = dedup_keys a ++ dedup_keys b.
Proof. unfold dedup_keys. apply flat_map_app. Qed.

Lemma in_dedup_keys (k : string) (ds : list delivery) :
  In k (dedup_keys ds) <-> exists d, In d ds /\ delivery_dedup_key d = Some k.
Proof.
  unfold dedup_keys. rewrite in_flat_map. split.
  - intros (d & Hd & Hk). exists d. split; [exact Hd|].
    destruct (delivery_dedup_key d) as [k'|]; [destruct Hk as [<- | []]; reflexivity | destruct Hk].
  - intros (d & Hd & Hk). exists d. split; [exact Hd|]. rewrite Hk. left. reflexivity.
Qed.

Lemma has_dedup_key_spec (k : string) (d : delivery) :
  has_dedup_key k d = true <-> delivery_dedup_key d = Some k.
Proof.
  unfold has_dedup_key. destruct (delivery_dedup_key d) as [k'|]; [|split; discriminate].
  rewrite String.eqb_eq. split; [intros ->; reflexivity | intro H; injection H as ->; reflexivity].
Qed.

Lemma dedup_keys_update (did : Z) (f : delivery -> delivery) (ds : list delivery) :
  (forall d, delivery_dedup_key (f d) = delivery_dedup_key d) ->
  dedup_keys (update_delivery did f ds) = dedup_keys ds.
Proof.
  intro Hf. unfold dedup_keys, update_delivery. induction ds as [|d ds IH]; [reflexivity|].
  simpl. rewrite IH. destruct (Z.eqb (delivery_id d) did); [rewrite Hf|]; reflexivity.
Qed.

Lemma NoDup_dedup_unique (ds : list delivery) (k : string) (d d' : delivery) :
  NoDup (dedup_keys ds) -> In d ds -> In d' ds ->
  delivery_dedup_key d = Some k -> delivery_dedup_key d' = Some k -> d = d'.
Proof.
  unfold dedup_keys. induction ds as [|a ds IH]; [intros _ []|].
  simpl. intros Hnd Hd Hd' Hk Hk'.
  destruct Hd as [<- | Hd], Hd' as [<- | Hd']; auto.
  - rewrite Hk in Hnd. inversion Hnd as [|? ? Hnot _]. exfalso. apply Hnot.
    apply in_dedup_keys. exists d'. auto.
  - rewrite Hk' in Hnd. inversion Hnd as [|? ? Hnot _]. exfalso. apply Hnot.
    apply in_dedup_keys. exists d. auto.
  - apply IH; auto. destruct (delivery_dedup_key a); [inversion Hnd; assumption | exact Hnd].
Qed.

Lemma enqueue_keeps_unique (new_id sub proj : Z) (ev url : string) (secret : option string)
    (body : json) (key : option string) (ds : list delivery) :
  NoDup (dedup_keys ds) -> NoDup (dedup_keys (snd (enqueue new_id sub proj ev url secret body key ds))).
Proof.
  intro Hnd. unfold enqueue. destruct key as [k|].
  - destruct (find (has_dedup_key k) ds) as [d|] eqn:Hf; [exact Hnd|].
    simpl. rewrite dedup_keys_app. simpl. apply NoDup_app; [exact Hnd | repeat constructor; intros [] |].
    intros x Hx [<- | []]. apply in_dedup_keys in Hx as (d & Hd & Hk).
    pose proof (find_none _ _ Hf d Hd) as Hn. apply has_dedup_key_spec in Hk. congruence.
  - simpl. rewrite dedup_keys_app. simpl. rewrite app_nil_r. exact Hnd.
Qed.

End WebhookProofs.

(** ** Theorems on the ingest endpoint and the webhook store *)
Module IngestClaims.
Import Backfill Ingest IngestProofs.
Local Open Scope string_scope.

(** Counterexample to claim C7 as stated: a request without an
    [Authorization] header whose batch holds 0 readings. The batch fails
    validation, yet the response is 401, not 400: the token is checked
    before the body is read. *)
Lemma ingest_unauthenticated_empty_batch :
  ingest_telemetry IngestTests.toy_uuid IngestTests.toy_datetime IngestTests.toy_float
    (IngestTests.failing_service OtherException) (mkRequest None (Some IngestTests.empty_batch)) []
  = (HttpError 401, []) /\
  validate_ingest IngestTests.toy_uuid IngestTests.toy_datetime IngestTests.toy_float
    [("sensor_id", JInt 7); ("readings", JList [])] = None.
Proof. split; reflexivity. Qed.

(** Claim C7, amended: the endpoint first requires a bearer token, as
    [_extract_sensor_token] reads it from the header's code points with
    [str.strip]'s Unicode white space (401 otherwise, before the body is
    read). For a request carrying one, a
    body that is not a JSON object or fails the DTO schema, in particular a
    batch of fewer than 1 or more than 10000 readings, gets 400 and writes
    nothing. A valid DTO has 1 to 10000 readings, and the service's
    [UnauthorizedError], [ScopeMismatchError] and [NotFoundError] become
    401, 400 and 404. With the ingest service of the spec, a request either
    gets 202 with [{status: "accepted", accepted: N}] where [N] rows, one per
    reading, were appended, or gets an error status and writes nothing. *)
Theorem ingest_responses (parse_uuid parse_datetime : json -> option Z) (coerce_float : json -> option Q) :
  (forall svc req st, extract_sensor_token (req_authorization req) = None ->
     ingest_telemetry parse_uuid parse_datetime coerce_float svc req st = (HttpError 401, st)) /\
  (forall svc req st token, extract_sensor_token (req_authorization req) = Some token ->
     (forall kvs, req_body req = Some (JObj kvs) ->
        validate_ingest parse_uuid parse_datetime coerce_float kvs = None) ->
     ingest_telemetry parse_uuid parse_datetime coerce_float svc req st = (HttpError 400, st)) /\
  (forall svc req st token kvs rs, extract_sensor_token (req_authorization req) = Some token ->
     req_body req = Some (JObj kvs) -> obj_get "readings" kvs = Some (JList rs) ->
     (List.length rs < MIN_READINGS \/ MAX_READINGS < List.length rs)%nat ->
     ingest_telemetry parse_uuid parse_datetime coerce_float svc req st = (HttpError 400, st)) /\
  (forall svc req st token kvs dto st', extract_sensor_token (req_authorization req) = Some token ->
     req_body req = Some (JObj kvs) -> validate_ingest parse_uuid parse_datetime coerce_float kvs = Some dto ->
     (MIN_READINGS <= List.length (dto_readings dto) <= MAX_READINGS)%nat /\
     (svc dto token st = (Raised UnauthorizedError, st') ->
        ingest_telemetry parse_uuid parse_datetime coerce_float svc req st = (HttpError 401, st')) /\
     (svc dto token st = (Raised ScopeMismatchError, st') ->
        ingest_telemetry parse_uuid parse_datetime coerce_float svc req st = (HttpError 400, st')) /\
     (svc dto token st = (Raised NotFoundError, st') ->
        ingest_telemetry parse_uuid parse_datetime coerce_float svc req st = (HttpError 404, st')) /\
     (forall n, svc dto token st = (Accepted n, st') ->
        ingest_telemetry parse_uuid parse_datetime coerce_float svc req st
        = (JsonResponse 202 (accepted_body n), st'))) /\
  (forall token_matches check_scope row_of req st,
     let r := ingest_telemetry parse_uuid parse_datetime coerce_float
                (spec_service_ingest token_matches check_scope row_of) req st in
     (exists dto, fst r = JsonResponse 202 (accepted_body (Z.of_nat (List.length (dto_readings dto)))) /\
        snd r = (st ++ map (row_of dto) (dto_readings dto))%list /\
        (MIN_READINGS <= List.length (dto_readings dto) <= MAX_READINGS)%nat) \/
     (exists code, fst r = HttpError code /\ snd r = st)).
Proof.
  split; [|split; [|split; [|split]]].
  - intros svc req st H. unfold ingest_telemetry. rewrite H. reflexivity.
  - intros svc req st token Ht Hv. unfold ingest_telemetry. rewrite Ht.
    unfold read_json. destruct (req_body req) as [[]|] eqn:Hb; try reflexivity.
    rewrite (Hv kvs eq_refl). reflexivity.
  - intros svc req st token kvs rs Ht Hb Hr Hlen. unfold ingest_telemetry. rewrite Ht, Hb. simpl.
    rewrite (validate_ingest_out_of_range parse_uuid parse_datetime coerce_float kvs rs Hr Hlen). reflexivity.
  - intros svc req st token kvs dto st' Ht Hb Hv.
    split; [exact (validate_ingest_length parse_uuid parse_datetime coerce_float kvs dto Hv)|].
    unfold ingest_telemetry. rewrite Ht, Hb. simpl. rewrite Hv.
    split; [intro E; rewrite E; reflexivity|]. split; [intro E; rewrite E; reflexivity|].
    split; [intro E; rewrite E; reflexivity|]. intros n E. rewrite E. reflexivity.
  - intros tm cs row_of req st. unfold ingest_telemetry.
    destruct (extract_sensor_token (req_authorization req)) as [token|];
      [|right; exists 401; split; reflexivity].
    destruct (read_json (req_body req)) as [kvs|]; [|right; exists 400; split; reflexivity].
    destruct (validate_ingest parse_uuid parse_datetime coerce_float kvs) as [dto|] eqn:Hv;
      [|right; exists 400; split; reflexivity].
    unfold spec_service_ingest. destruct (tm (dto_sensor_id dto) token); simpl;
      [|right; exists 401; split; reflexivity].
    destruct (cs dto) as [[]|].
    + right. exists 401. split; reflexivity.
    + right. exists 400. split; reflexivity.
    + right. exists 404. split; reflexivity.
    + right. exists 500. split; reflexivity.
    + left. exists dto. split; [reflexivity|]. split; [reflexivity|].
      exact (validate_ingest_length parse_uuid parse_datetime coerce_float kvs dto Hv).
Qed.

Lemma ingest_responses_witness :
  (MIN_READINGS <= 1 <= MAX_READINGS)%nat /\
  ingest_telemetry IngestTests.toy_uuid IngestTests.toy_datetime IngestTests.toy_float
    (IngestTests.failing_service NotFoundError)
    (mkRequest (Some (pystr_of "Bearer abc")) (Some IngestTests.one_reading_batch)) [] = (HttpError 404, []).
Proof.
  destruct (proj1 (proj2 (proj2 (proj2 (ingest_responses IngestTests.toy_uuid IngestTests.toy_datetime
              IngestTests.toy_float))))
              (IngestTests.failing_service NotFoundError)
              (mkRequest (Some (pystr_of "Bearer abc")) (Some IngestTests.one_reading_batch)) [] (pystr_of "abc")
              [("sensor_id", JInt 7);
               ("readings", JList [JObj [("timestamp", JInt 10); ("raw_value", JInt 3)]])]
              (mkIngestDTO 7 None None [] [mkReading 10 (inject_Z 3) None []]) []
              eq_refl eq_refl eq_refl) as (Hlen & _ & _ & Hnf & _).
  split; [exact Hlen | apply Hnf; reflexivity].
Defined.

End IngestClaims.

Module WebhookClaims.
Import Webhooks WebhookProofs.
Local Open Scope string_scope.

(** Claim C8: enqueueing a delivery whose dedup key is already held by a
    row of the table returns such a pre-existing row and leaves the table
    unchanged; and along any history of enqueues and updates that keep
    dedup keys, starting from a table with at most one row per key, there is
    never more than one row per dedup key. *)
Theorem enqueue_dedup_returns_existing :
  (forall new_id sub proj ev url secret body k ds,
     (exists d, In d ds /\ delivery_dedup_key d = Some k) ->
     exists d, In d ds /\ delivery_dedup_key d = Some k /\
       enqueue new_id sub proj ev url secret body (Some k) ds = (d, ds)) /\
  (forall ds0 ds, NoDup (dedup_keys ds0) -> delivery_trace ds0 ds ->
     NoDup (dedup_keys ds) /\
     forall k d d', In d ds -> In d' ds ->
       delivery_dedup_key d = Some k -> delivery_dedup_key d' = Some k -> d = d').
Proof.
  split.
  - intros new_id sub proj ev url secret body k ds (d0 & Hd0 & Hk0). unfold enqueue.
    destruct (find (has_dedup_key k) ds) as [d|] eqn:Hf.
    + destruct (find_some _ _ Hf) as [Hd Hk]. apply has_dedup_key_spec in Hk.
      exists d. auto.
    + exfalso. pose proof (find_none _ _ Hf d0 Hd0) as Hn.
      apply has_dedup_key_spec in Hk0. congruence.
  - intros ds0 ds Hnd H.
    assert (Hu : NoDup (dedup_keys ds)).
    { induction H as [|ds new_id sub proj ev url secret body key _ IH|ds did f _ IH Hf].
      - exact Hnd.
      - apply enqueue_keeps_unique. exact IH.
      - rewrite (dedup_keys_update did f ds Hf). exact IH. }
    split; [exact Hu|]. intros k d d'. apply NoDup_dedup_unique. exact Hu.
Qed.

Lemma enqueue_dedup_returns_existing_witness :
  let ds1 := snd (enqueue 1 10 20 "run.started" "http://example.com/hook" (Some "s") JNull
                    (Some "10:run.started:deadbeef") []) in
  exists d, In d ds1 /\ delivery_dedup_key d = Some "10:run.started:deadbeef" /\
    enqueue 2 10 20 "run.started" "http://example.com/hook" (Some "s") JNull
      (Some "10:run.started:deadbeef") ds1 = (d, ds1).
Proof.
  intro ds1. apply (proj1 enqueue_dedup_returns_existing).
  exists (mkDelivery 1 10 20 "run.started" "http://example.com/hook" (Some "s") JNull DPending 0
            (Some "10:run.started:deadbeef")).
  split; [left; reflexivity | reflexivity].
Defined.

End WebhookClaims.

(** ** Further properties of the conversion engine *)

Module ConversionExtras.
Import Conversion ConversionSpec.
Local Open Scope Q_scope.

Section Extras.
Context (parse_float : string -> option Q).

Lemma py_float_num_value (v : json) :
  isinstance_num v = true -> py_float parse_float v = POk (num_value v).
Proof. destruct v; simpl; try discriminate; reflexivity. Qed.

(** X1: on a dict payload, kind [linear] returns [a * x + b] when the fields [a] and [b] are both present and numbers (int, float or bool), and [None] otherwise; it never raises. *)
Theorem linear_conversion_dict (kvs : list (string * json)) (x : Q) :
  apply_conversion parse_float "linear" (JObj kvs) x =
  match obj_get "a" kvs, obj_get "b" kvs with
  | Some a, Some b =>
      if isinstance_num a && isinstance_num b then POk (Some (num_value a * x + num_value b))
      else POk None
  | _, _ => POk None
  end.
Proof.
  unfold apply_conversion, apply_linear. simpl.
  destruct (obj_get "a" kvs) as [a|], (obj_get "b" kvs) as [b|]; try reflexivity.
  destruct (isinstance_num a) eqn:Ha, (isinstance_num b) eqn:Hb; try reflexivity.
  simpl. rewrite (py_float_num_value a Ha), (py_float_num_value b Hb). reflexivity.
Qed.

(** X2: on a payload that is not a dict, the kinds [linear], [polynomial] and [lookup_table] raise [AttributeError] (the payload has no [.get]), and any other kind returns [None]. *)
Theorem conversion_non_dict_payload (kind : string) (payload : json) (x : Q) :
  (forall kvs, payload <> JObj kvs) ->
  (In kind ["linear"; "polynomial"; "lookup_table"]%string ->
     exists msg, apply_conversion parse_float kind payload x = PRaise (AttributeError msg)) /\
  (~ In kind ["linear"; "polynomial"; "lookup_table"]%string ->
     apply_conversion parse_float kind payload x = POk None).
Proof.
  intro Hp.
  assert (Hd : exists msg, dict_get payload "a" = PRaise (AttributeError msg) /\
             dict_get payload "coefficients" = PRaise (AttributeError msg) /\
             dict_get payload "table" = PRaise (AttributeError msg)).
  { destruct payload as [| | | | | |kvs];
      try (exfalso; exact (Hp kvs eq_refl)); (eexists; split; [|split]; reflexivity). }
  destruct Hd as (msg & Ha & Hc & Ht).
  split.
  - intros [<-|[<-|[<-|[]]]]; exists msg; unfold apply_conversion; simpl.
    + unfold apply_linear. rewrite Ha. reflexivity.
    + unfold apply_polynomial. rewrite Hc. reflexivity.
    + unfold apply_lookup_table. rewrite Ht. reflexivity.
  - intro Hk. unfold apply_conversion.
    destruct (String.eqb_spec kind "linear") as [E|_]; [subst; exfalso; apply Hk; left; reflexivity|].
    destruct (String.eqb_spec kind "polynomial") as [E|_]; [subst; exfalso; apply Hk; right; left; reflexivity|].
    destruct (String.eqb_spec kind "lookup_table") as [E|_];
      [subst; exfalso; apply Hk; right; right; left; reflexivity|].
    reflexivity.
Qed.

(** The interpolated value lies between the two physical values of its segment. *)
Lemma interp_between (x0 x1 y0 y1 x : Q) :
  x0 <= x -> x <= x1 ->
  let t := if negb (Qeq_bool x1 x0) then (x - x0) / (x1 - x0) else 0 in
  (y0 <= y1 -> y0 <= y0 + t * (y1 - y0) <= y1) /\
  (y1 <= y0 -> y1 <= y0 + t * (y1 - y0) <= y0).
Proof.
  intros H0 H1 t.
  assert (Ht : 0 <= t <= 1).
  { unfold t. destruct (Qeq_bool x1 x0) eqn:E; simpl.
    - lra.
    - assert (Hne : ~ x1 == x0) by (intro C; apply Qeq_bool_iff in C; congruence).
      assert (Hpos : 0 < x1 - x0).
      { destruct (Qle_lt_or_eq _ _ (Qle_trans _ _ _ H0 H1)) as [L|L]; [lra|].
        exfalso; apply Hne; symmetry; exact L. }
      split.
      + apply Qle_shift_div_l; [exact Hpos|]. lra.
      + apply Qle_shift_div_r; [exact Hpos|]. lra. }
  clearbody t. destruct Ht as [Ht0 Ht1].
  split; intro Hy.
  - assert (A : 0 <= t * (y1 - y0)) by (apply Qmult_le_0_compat; lra).
    assert (B : t * (y1 - y0) <= 1 * (y1 - y0)) by (apply Qmult_le_compat_r; lra).
    lra.
  - assert (A : 0 <= t * (y0 - y1)) by (apply Qmult_le_0_compat; lra).
    assert (B : t * (y0 - y1) <= 1 * (y0 - y1)) by (apply Qmult_le_compat_r; lra).
    setoid_replace (y0 + t * (y1 - y0)) with (y0 - t * (y0 - y1)) by ring. lra.
Qed.

Definition between_physicals (pts : list json) (y : Q) : Prop :=
  exists p q yp yq, In p pts /\ In q pts /\
    point_physical parse_float p = POk yp /\ point_physical parse_float q = POk yq /\
    yp <= y <= yq.

Lemma interp_loop_cons2 (p0 p1 : json) (rest : list json) (x : Q) :
  interp_loop parse_float (p0 :: p1 :: rest) x =
  (x0 <-? point_raw parse_float p0 ;;
   y0 <-? point_physical parse_float p0 ;;
   x1 <-? point_raw parse_float p1 ;;
   y1 <-? point_physical parse_float p1 ;;
   if Qle_bool x0 x && Qle_bool x x1 then
     let t := if negb (Qeq_bool x1 x0) then (x - x0) / (x1 - x0) else 0 in
     POk (Some (y0 + t * (y1 - y0)))
   else interp_loop parse_float (p1 :: rest) x).
Proof. reflexivity. Qed.

Lemma interp_loop_between (x : Q) :
  forall pts y, interp_loop parse_float pts x = POk (Some y) -> between_physicals pts y.
Proof.
  induction pts as [|p0 pts IH]; intros y H; [discriminate|].
  destruct pts as [|p1 rest]; [discriminate|].
  rewrite interp_loop_cons2 in H.
  destruct (point_raw parse_float p0) as [x0|e] eqn:Hx0; [|discriminate]. cbn [pybind] in H.
  destruct (point_physical parse_float p0) as [y0|e] eqn:Hy0; [|discriminate]. cbn [pybind] in H.
  destruct (point_raw parse_float p1) as [x1|e] eqn:Hx1; [|discriminate]. cbn [pybind] in H.
  destruct (point_physical parse_float p1) as [y1|e] eqn:Hy1; [|discriminate]. cbn [pybind] in H.
  destruct (Qle_bool x0 x && Qle_bool x x1) eqn:Hb.
  - injection H as <-. apply andb_prop in Hb as [B0 B1].
    apply Qle_bool_iff in B0, B1.
    destruct (interp_between x0 x1 y0 y1 x B0 B1) as [Up Down].
    destruct (Qlt_le_dec y1 y0) as [L|L].
    + exists p1, p0, y1, y0. split; [right; left; reflexivity|]. split; [left; reflexivity|].
      split; [exact Hy1|]. split; [exact Hy0|]. apply Down. apply Qlt_le_weak. exact L.
    + exists p0, p1, y0, y1. split; [left; reflexivity|]. split; [right; left; reflexivity|].
      split; [exact Hy0|]. split; [exact Hy1|]. apply Up. exact L.
  - destruct (IH y H) as (p & q & yp & yq & Hp & Hq & Ep & Eq & B).
    exists p, q, yp, yq. split; [right; exact Hp|]. split; [right; exact Hq|]. auto.
Qed.

Lemma between_physicals_incl (l l' : list json) (y : Q) :
  (forall p, In p l -> In p l') -> between_physicals l y -> between_physicals l' y.
Proof.
  intros Hi (p & q & yp & yq & Hp & Hq & R). exists p, q, yp, yq. auto.
Qed.

(** X3: whenever a lookup-table conversion returns a value [y], the payload's [table] is a list holding two points whose physical values [yp] and [yq] satisfy [yp <= y <= yq]. *)
Theorem lookup_table_within_physical_range (payload : json) (x y : Q) :
  apply_conversion parse_float "lookup_table" payload x = POk (Some y) ->
  exists tbl, dict_get payload "table" = POk (Some (JList tbl)) /\
    exists p q yp yq, In p tbl /\ In q tbl /\
      point_physical parse_float p = POk yp /\ point_physical parse_float q = POk yq /\
      yp <= y <= yq.
Proof.
  unfold apply_conversion. simpl. unfold apply_lookup_table.
  destruct (dict_get payload "table") as [[[| | | | |tbl|]|]|e] eqn:Ht; try discriminate.
  intro H. cbn [pybind] in H. exists tbl. split; [reflexivity|]. change (between_physicals tbl y).
  destruct (Nat.ltb (List.length tbl) 2); [discriminate|].
  destruct (decorate parse_float tbl) as [keyed|e] eqn:Hd.
  2: { destruct e; discriminate. }
  destruct (ConversionShape.decorate_raws parse_float tbl keyed Hd) as [Hmap _].
  assert (Hin : forall p, In p (map snd (sort_by_key keyed)) -> In p tbl).
  { intros p Hp. apply in_map_iff in Hp as (kp & <- & Hkp). rewrite <- Hmap.
    apply in_map. apply LookupProofs.in_sort_by_key. exact Hkp. }
  apply (between_physicals_incl _ _ y Hin).
  destruct (map snd (sort_by_key keyed)) as [|first rest] eqn:Hs; [discriminate|].
  cbn [pybind] in H.
  destruct (point_raw parse_float first) as [lo|e]; [|discriminate]. cbn [pybind] in H.
  destruct (Qle_bool x lo).
  { destruct (point_physical parse_float first) as [y0|e] eqn:Hy; [|discriminate]. cbn [pybind] in H.
    injection H as <-. exists first, first, y0, y0. split; [left; reflexivity|].
    split; [left; reflexivity|]. split; [exact Hy|]. split; [exact Hy|]. split; apply Qle_refl. }
  destruct (point_raw parse_float (last (first :: rest) first)) as [hi|e]; [|discriminate]. cbn [pybind] in H.
  destruct (Qle_bool hi x).
  { destruct (point_physical parse_float (last (first :: rest) first)) as [y0|e] eqn:Hy; [|discriminate].
    cbn [pybind] in H. injection H as <-. pose proof (LookupProofs.last_in_cons first rest first) as Hl.
    exists (last (first :: rest) first), (last (first :: rest) first), y0, y0.
    split; [exact Hl|]. split; [exact Hl|]. split; [exact Hy|]. split; [exact Hy|]. split; apply Qle_refl. }
  apply (interp_loop_between x _ _ H).
Qed.


(** *** Tables that reproduce their points *)

Definition key_le (a b : Q * json) : Prop := fst a <= fst b.

Lemma in_insert_by_key_r (kp y : Q * json) (l : list (Q * json)) :
  y = kp \/ In y l -> In y (insert_by_key kp l).
Proof.
  induction l as [|z l IH]; simpl.
  - intros [H|[]]. left; congruence.
  - destruct (qlt (fst z) (fst kp)); simpl.
    + intros [H|[H|H]]; [right; apply IH; left; exact H | left; exact H | right; apply IH; right; exact H].
    + intros [H|[H|H]]; [left; congruence | right; left; exact H | right; right; exact H].
Qed.

Lemma in_sort_by_key_r (y : Q * json) (l : list (Q * json)) :
  In y l -> In y (sort_by_key l).
Proof.
  induction l as [|kp l IH]; simpl; [tauto|].
  intros [H|H]; apply in_insert_by_key_r; [left; congruence | right; auto].
Qed.

Lemma qlt_spec (a b : Q) : qlt a b = true <-> a < b.
Proof.
  unfold qlt. rewrite negb_true_iff. split; intro H.
  - apply Qnot_le_lt. intro C. apply Qle_bool_iff in C. congruence.
  - destruct (Qle_bool b a) eqn:E; [|reflexivity]. apply Qle_bool_iff in E. exfalso. lra.
Qed.

Lemma qlt_false_spec (a b : Q) : qlt a b = false -> b <= a.
Proof. unfold qlt. rewrite negb_false_iff. apply Qle_bool_iff. Qed.

Lemma insert_by_key_sorted (kp : Q * json) (l : list (Q * json)) :
  Sorted key_le l -> Sorted key_le (insert_by_key kp l).
Proof.
  induction l as [|z l IH]; simpl; intro H; [repeat constructor|].
  destruct (qlt (fst z) (fst kp)) eqn:E.
  - apply qlt_spec in E. inversion H as [|? ? Hl Hhd]; subst.
    constructor; [apply IH; exact Hl|].
    destruct l as [|w l]; simpl.
    + constructor. unfold key_le. lra.
    + destruct (qlt (fst w) (fst kp)); constructor; unfold key_le; [|lra].
      inversion Hhd; assumption.
  - apply qlt_false_spec in E. constructor; [exact H|]. constructor. exact E.
Qed.

Lemma sort_by_key_sorted (l : list (Q * json)) : StronglySorted key_le (sort_by_key l).
Proof.
  apply Sorted_StronglySorted; [intros a b c; unfold key_le; lra|].
  induction l as [|kp l IH]; simpl; [constructor|]. apply insert_by_key_sorted. exact IH.
Qed.

Lemma decorate_keys (tbl : list json) (keyed : list (Q * json)) :
  decorate parse_float tbl = POk keyed ->
  forall kq, In kq keyed -> point_raw parse_float (snd kq) = POk (fst kq).
Proof.
  revert keyed. induction tbl as [|p tbl IH]; intros keyed H; simpl in H.
  - injection H as <-. intros kq [].
  - destruct (point_raw parse_float p) as [k|e] eqn:Hp; [|discriminate]. simpl in H.
    destruct (decorate parse_float tbl) as [ks|e]; [|discriminate]. simpl in H.
    injection H as <-. intros kq [<-|Hin]; [exact Hp | exact (IH ks eq_refl kq Hin)].
Qed.

Lemma last_max (a0 : Q * json) (l : list (Q * json)) :
  StronglySorted key_le (a0 :: l) ->
  forall x, In x (a0 :: l) -> fst x <= fst (last (a0 :: l) a0).
Proof.
  revert a0. induction l as [|a1 l IH]; intros a0 Hs x Hx.
  - destruct Hx as [<-|[]]. apply Qle_refl.
  - change (last (a0 :: a1 :: l) a0) with (last (a1 :: l) a0).
    rewrite (LookupProofs.last_nonempty_default a1 l a0 a1).
    inversion Hs as [|? ? Hs1 Hall]; subst.
    destruct Hx as [<-|Hx].
    + apply Qle_trans with (fst a1).
      * rewrite Forall_forall in Hall. apply (Hall a1). left; reflexivity.
      * apply IH; [exact Hs1 | left; reflexivity].
    + apply IH; [exact Hs1 | exact Hx].
Qed.

Lemma last_map_snd (a0 : Q * json) (l : list (Q * json)) :
  last (map snd (a0 :: l)) (snd a0) = snd (last (a0 :: l) a0).
Proof.
  revert a0. induction l as [|a1 l IH]; intro a0; [reflexivity|].
  change (last (snd a1 :: map snd l) (snd a0) = snd (last (a1 :: l) a0)).
  rewrite (LookupProofs.last_nonempty_default (snd a1) (map snd l) (snd a0) (snd a1)).
  rewrite (LookupProofs.last_nonempty_default a1 l a0 a1). apply IH.
Qed.

(** The hypotheses on a sorted, decorated table. *)
Definition keyed_ok (kl : list (Q * json)) : Prop :=
  (forall kq, In kq kl -> point_raw parse_float (snd kq) = POk (fst kq) /\
                          exists y, point_physical parse_float (snd kq) = POk y) /\
  (forall a b, In a kl -> In b kl -> fst a == fst b -> snd a = snd b).

Lemma keyed_ok_tail (a : Q * json) (kl : list (Q * json)) : keyed_ok (a :: kl) -> keyed_ok kl.
Proof.
  intros [H1 H2]. split; [intros kq Hk; apply H1; right; exact Hk|].
  intros x y Hx Hy. apply H2; right; assumption.
Qed.

Lemma ss_head_min (a : Q * json) (l : list (Q * json)) (x : Q * json) :
  StronglySorted key_le (a :: l) -> In x (a :: l) -> fst a <= fst x.
Proof.
  intros Hs [<-|Hx]; [apply Qle_refl|].
  inversion Hs as [|? ? _ Hall]. rewrite Forall_forall in Hall. apply (Hall x Hx).
Qed.

Lemma interp_loop_point (xp yp : Q) (p : json) :
  forall rest a0 a1,
  StronglySorted key_le (a0 :: a1 :: rest) -> keyed_ok (a0 :: a1 :: rest) ->
  In (xp, p) (a0 :: a1 :: rest) -> fst a0 <= xp -> point_physical parse_float p = POk yp ->
  exists y, interp_loop parse_float (map snd (a0 :: a1 :: rest)) xp = POk (Some y) /\ y == yp.
Proof.
  induction rest as [|a2 rest IH]; intros a0 a1 Hs Hok Hin H0 Hyp.
  all: pose proof Hok as [Hpts Hinj].
  all: destruct (Hpts a0 (or_introl eq_refl)) as [Hx0 [y0 Hy0]].
  all: destruct (Hpts a1 (or_intror (or_introl eq_refl))) as [Hx1 [y1 Hy1]].
  all: assert (Hs1 : StronglySorted key_le (a1 :: _)) by (inversion Hs; eassumption).
  all: change (map snd (a0 :: a1 :: ?r)) with (snd a0 :: snd a1 :: map snd r).
  all: rewrite interp_loop_cons2, Hx0, Hy0, Hx1, Hy1; cbn [pybind].
  all: destruct (Qle_bool (fst a0) xp && Qle_bool xp (fst a1)) eqn:Hb.
  1,3: apply andb_prop in Hb as [B0 B1]; apply Qle_bool_iff in B0, B1;
       cbv zeta; eexists; split; [reflexivity|];
       destruct (Qeq_dec xp (fst a0)) as [E0|N0];
       [ assert (Hp : p = snd a0) by
           (apply (Hinj (xp, p) a0 Hin (or_introl eq_refl)); exact E0);
         rewrite Hp, Hy0 in Hyp; injection Hyp as <-;
         destruct (Qeq_bool (fst a1) (fst a0)); simpl;
         [ring | setoid_replace (xp - fst a0) with 0 by lra; unfold Qdiv; ring]
       | assert (Hne : (xp, p) <> a0) by (intro C; apply N0; rewrite <- C; reflexivity);
         assert (Hin1 : In (xp, p) (a1 :: _)) by (destruct Hin as [C|Hin]; [exfalso; apply Hne; symmetry; exact C | exact Hin]);
         pose proof (ss_head_min a1 _ (xp, p) Hs1 Hin1) as Hge; simpl in Hge;
         assert (E1 : xp == fst a1) by lra;
         assert (Hp : p = snd a1) by
           (apply (Hinj (xp, p) a1 Hin (or_intror (or_introl eq_refl))); exact E1);
         rewrite Hp, Hy1 in Hyp; injection Hyp as <-;
         assert (Hq : Qeq_bool (fst a1) (fst a0) = false) by
           (apply not_true_iff_false; intro C; apply Qeq_bool_iff in C; apply N0; lra);
         rewrite Hq; simpl; setoid_replace xp with (fst a1) by exact E1;
         field; intro C; apply N0; lra ].
  all: assert (Hlt : fst a1 < xp) by
         (apply Qnot_le_lt; intro C; apply Qle_bool_iff in C;
          assert (C0 : Qle_bool (fst a0) xp = true) by (apply Qle_bool_iff; exact H0);
          rewrite C0, C in Hb; discriminate).
  all: assert (Hnot : forall b, In b [a0; a1] -> (xp, p) <> b) by
         (intros b Hbin C; pose proof (ss_head_min a0 _ _ Hs (or_intror (or_introl eq_refl))) as H01;
          destruct Hbin as [<-|[<-|[]]]; subst; simpl in *; lra).
  - exfalso. destruct Hin as [C|[C|[]]]; [apply (Hnot a0) | apply (Hnot a1)]; simpl; auto.
  - assert (Hin' : In (xp, p) (a1 :: a2 :: rest)).
    { destruct Hin as [C|Hin]; [exfalso; apply (Hnot a0); [left|]; auto | exact Hin]. }
    exact (IH a1 a2 Hs1 (keyed_ok_tail a0 _ Hok) Hin' (Qlt_le_weak _ _ Hlt) Hyp).
Qed.

(** X4: on a table of at least two well-formed points whose raw values are pairwise distinct, converting the raw value of a point returns that point's physical value. *)
Theorem lookup_table_reproduces_points (kvs : list (string * json)) (tbl : list json) (p : json) (xp yp : Q) :
  obj_get "table" kvs = Some (JList tbl) ->
  (2 <= List.length tbl)%nat ->
  forallb (point_ok parse_float) tbl = true ->
  (forall q q' x x', In q tbl -> In q' tbl -> point_raw parse_float q = POk x ->
                     point_raw parse_float q' = POk x' -> x == x' -> q = q') ->
  In p tbl -> point_raw parse_float p = POk xp -> point_physical parse_float p = POk yp ->
  exists y, apply_conversion parse_float "lookup_table" (JObj kvs) xp = POk (Some y) /\ y == yp.
Proof.
  intros Hget Hlen Hall Hdist Hp Hxp Hyp.
  unfold apply_conversion; simpl. unfold apply_lookup_table; simpl. rewrite Hget.
  destruct (Nat.ltb_ge (List.length tbl) 2) as [_ Hltb]. rewrite (Hltb Hlen).
  destruct (LookupProofs.decorate_ok parse_float tbl Hall) as [keyed [Hk Hm]]. rewrite Hk.
  pose proof (decorate_keys tbl keyed Hk) as Hkeys.
  pose proof (sort_by_key_sorted keyed) as Hss.
  assert (Hl : List.length (sort_by_key keyed) = List.length tbl).
  { rewrite LookupProofs.length_sort_by_key, <- Hm, length_map. reflexivity. }
  assert (Hok : keyed_ok (sort_by_key keyed)).
  { split.
    - intros kq Hkq. apply LookupProofs.in_sort_by_key in Hkq. split; [exact (Hkeys kq Hkq)|].
      assert (Hin : In (snd kq) tbl) by (rewrite <- Hm; apply in_map; exact Hkq).
      rewrite forallb_forall in Hall.
      destruct (LookupProofs.point_ok_inv parse_float _ (Hall _ Hin)) as [_ Hy]. exact Hy.
    - intros a b Ha Hb E. apply LookupProofs.in_sort_by_key in Ha, Hb.
      apply (Hdist _ _ (fst a) (fst b)); try (rewrite <- Hm; apply in_map; assumption);
        [apply Hkeys; exact Ha | apply Hkeys; exact Hb | exact E]. }
  assert (Hin : In (xp, p) (sort_by_key keyed)).
  { apply in_sort_by_key_r. rewrite <- Hm in Hp. apply in_map_iff in Hp as (kq & Hkq & Hin).
    pose proof (Hkeys kq Hin) as Hr. rewrite Hkq, Hxp in Hr. injection Hr as Hr.
    destruct kq as [k q]. simpl in *. subst. exact Hin. }
  destruct (sort_by_key keyed) as [|a0 [|a1 rest]]; [simpl in Hl; lia | simpl in Hl; lia|].
  destruct Hok as [Hpts Hinj].
  change (map snd (a0 :: a1 :: rest)) with (snd a0 :: map snd (a1 :: rest)). cbv beta iota.
  destruct (Hpts a0 (or_introl eq_refl)) as [Hx0 [y0 Hy0]].
  rewrite Hx0. cbn [pybind].
  pose proof (ss_head_min a0 _ _ Hss Hin) as Hmin. simpl in Hmin.
  destruct (Qle_bool xp (fst a0)) eqn:Hlo.
  { apply Qle_bool_iff in Hlo.
    assert (Hpa : p = snd a0) by (apply (Hinj (xp, p) a0 Hin (or_introl eq_refl)); simpl; lra).
    rewrite <- Hpa, Hyp. cbn [pybind]. exists yp. split; reflexivity. }
  change (snd a0 :: map snd (a1 :: rest)) with (map snd (a0 :: a1 :: rest)).
  rewrite last_map_snd.
  pose proof (LookupProofs.last_in_cons a0 (a1 :: rest) a0) as Hlast.
  destruct (Hpts _ Hlast) as [Hxl [yl Hyl]].
  rewrite Hxl. cbn [pybind].
  pose proof (last_max a0 _ Hss _ Hin) as Hmax. change (xp <= fst (last (a0 :: a1 :: rest) a0)) in Hmax.
  destruct (Qle_bool (fst (last (a0 :: a1 :: rest) a0)) xp) eqn:Hhi.
  { apply Qle_bool_iff in Hhi.
    assert (Hpl : p = snd (last (a0 :: a1 :: rest) a0))
      by (apply (Hinj (xp, p) _ Hin Hlast); change (xp == fst (last (a0 :: a1 :: rest) a0)); lra).
    rewrite <- Hpl, Hyp. cbn [pybind]. exists yp. split; reflexivity. }
  apply (interp_loop_point xp yp p rest a0 a1 Hss (conj Hpts Hinj) Hin); [|exact Hyp].
  apply Qlt_le_weak. apply Qnot_le_lt. intro C. apply Qle_bool_iff in C. congruence.
Qed.

End Extras.

Lemma conversion_non_dict_payload_witness :
  (In "linear"%string ["linear"; "polynomial"; "lookup_table"]%string ->
     exists msg, apply_conversion ConversionTests.no_str_float "linear"%string (JList []) 1
                 = PRaise (AttributeError msg)) /\
  (~ In "linear"%string ["linear"; "polynomial"; "lookup_table"]%string ->
     apply_conversion ConversionTests.no_str_float "linear"%string (JList []) 1 = POk None).
Proof.
  apply (conversion_non_dict_payload ConversionTests.no_str_float "linear"%string (JList []) 1).
  intros kvs H. discriminate H.
Defined.

Lemma lookup_table_within_physical_range_witness :
  exists y, apply_conversion ConversionTests.no_str_float "lookup_table"%string
              (JObj [("table"%string, ConversionTests.simple_table)]) 15 = POk (Some y) /\
  exists tbl, dict_get (JObj [("table"%string, ConversionTests.simple_table)]) "table"%string = POk (Some (JList tbl)) /\
    exists p q yp yq, In p tbl /\ In q tbl /\
      point_physical ConversionTests.no_str_float p = POk yp /\
      point_physical ConversionTests.no_str_float q = POk yq /\ yp <= y <= yq.
Proof.
  eexists. split; [reflexivity|].
  apply (lookup_table_within_physical_range ConversionTests.no_str_float _ 15). reflexivity.
Defined.

Lemma lookup_table_reproduces_points_witness :
  exists y, apply_conversion ConversionTests.no_str_float "lookup_table"%string
              (JObj [("table"%string, ConversionTests.simple_table)]) 10 = POk (Some y) /\ y == 100.
Proof.
  apply (lookup_table_reproduces_points ConversionTests.no_str_float
           [("table"%string, ConversionTests.simple_table)]
           [ConversionTests.pt 0 0; ConversionTests.pt 10 100; ConversionTests.pt 20 200]
           (ConversionTests.pt 10 100)).
  - reflexivity.
  - simpl. lia.
  - reflexivity.
  - intros q q' x x' Hq Hq' Hx Hx' E.
    destruct Hq as [<-|[<-|[<-|[]]]], Hq' as [<-|[<-|[<-|[]]]]; try reflexivity;
      vm_compute in Hx, Hx'; injection Hx as <-; injection Hx' as <-; vm_compute in E; discriminate E.
  - right. left. reflexivity.
  - reflexivity.
  - reflexivity.
Defined.

End ConversionExtras.

(** ** Further properties of the backfill worker *)

Module BackfillExtras.
Import Conversion Backfill BackfillSpec TaskQueue BackfillProofs.

Section ExitState.
Context (parse_float : string -> option Q) (kind : string) (payload : json)
        (tid sensor_id profile_id total : Z) (c0 : cursor) (recs0 : list telemetry_record).
Hypothesis Hsorted : keys_ascending recs0 = true.

(** A normal exit of the page loop leaves a state satisfying the loop
    invariant, at a cursor where the count reached [total] or the page is
    empty. *)
Lemma page_loop_ret_inv (fuel : nat) :
  forall p c s p' c' s',
  loop_inv parse_float kind payload sensor_id profile_id c0 recs0 p c s ->
  page_loop parse_float fuel kind payload tid sensor_id profile_id total p c s = Ret (p', c') s' ->
  loop_inv parse_float kind payload sensor_id profile_id c0 recs0 p' c' s' /\
  (total <= p' \/ page_of sensor_id profile_id c' recs0 = []).
Proof.
  induction fuel as [|f IH]; intros p c s p' c' s' Hinv H; [discriminate|].
  pose proof Hinv as (Hrec & H0 & Hp & Hok).
  cbn [page_loop] in H.
  destruct (p <? total) eqn:Hlt.
  2: { injection H as <- <- <-. split; [exact Hinv|]. left. apply Z.ltb_ge. exact Hlt. }
  cbv [bind fetch_page gets ret lift raise execute_updates modify update_progress update_task] in H.
  rewrite Hrec, (page_of_mark parse_float kind payload sensor_id profile_id c0 recs0) in H.
  destruct (page_of sensor_id profile_id c recs0) as [|q rest] eqn:Hpg.
  { injection H as <- <- <-. split; [exact Hinv | right; exact Hpg]. }
  destruct (compute_updates parse_float kind payload sensor_id profile_id (q :: rest)) as [us|e] eqn:Hcu;
    [|discriminate].
  destruct (compute_updates_ok parse_float kind payload sensor_id profile_id _ _ Hcu) as [Hus Hconv].
  subst us. rewrite fold_cursor_last in H.
  destruct (loop_step parse_float kind payload sensor_id profile_id c0 recs0 Hsorted c q rest H0 Hpg)
    as (Hcc' & Hupd & Hcnt).
  eapply IH; [|exact H].
  split; [|split; [|split]].
  - simpl. rewrite Hrec. exact Hupd.
  - apply (key_le_trans _ _ _ H0 (key_lt_le _ _ Hcc')).
  - rewrite Hcnt, Hp. lia.
  - intros r Hr Hin. unfold in_window in Hin.
    destruct (key_leb (rec_key r) c) eqn:Hle.
    + apply Hok; [exact Hr|]. unfold in_window.
      apply andb_prop in Hin as [Hin _]. rewrite Hin, Hle. reflexivity.
    + apply Hconv. rewrite (page_as_filter sensor_id profile_id recs0 Hsorted c q rest Hpg).
      apply filter_In. split; [exact Hr|].
      apply andb_prop in Hin as [Hin Hle']. apply andb_prop in Hin as [Hs _].
      rewrite Hs, Hle'. unfold key_leb in Hle. apply negb_false_iff in Hle. rewrite Hle.
      reflexivity.
Qed.

End ExitState.

Lemma in_window_exit (sensor_id profile_id : Z) (c0 c : cursor) (recs0 : list telemetry_record) :
  (forall r, In r recs0 -> needs_work sensor_id profile_id r && key_ltb c0 (rec_key r) &&
                           negb (key_leb (rec_key r) c) = false) ->
  filter (in_window sensor_id profile_id c0 c) recs0 =
  filter (fun r => needs_work sensor_id profile_id r && key_ltb c0 (rec_key r)) recs0.
Proof.
  intro Hj. apply filter_ext_in. intros r Hr. specialize (Hj r Hr). unfold in_window.
  destruct (needs_work sensor_id profile_id r && key_ltb c0 (rec_key r)); [|reflexivity].
  destruct (key_leb (rec_key r) c); [reflexivity | discriminate].
Qed.

(** A body that completes has rewritten every row needing work above the
    initial cursor, and its count is the number of those rows. *)
Lemma backfill_body_completed_state (parse_float : string -> option Q) (t : backfill_task) (s s' : db)
    (tid n : Z) :
  keys_ascending (db_records s) = true ->
  backfill_body parse_float t s = Ret (ReportCompleted tid n) s' ->
  exists prof, find_profile (task_conversion_profile_id t) (db_profiles s) = Some prof /\
    db_records s' = mark_all parse_float (profile_kind prof) (profile_payload prof)
                      (task_sensor_id t) (task_conversion_profile_id t) cursor0 (db_records s) /\
    n = Z.of_nat (List.length (filter (fun r => needs_work (task_sensor_id t) (task_conversion_profile_id t) r
                                               && key_ltb cursor0 (rec_key r)) (db_records s))).
Proof.
  intro Hs. unfold backfill_body.
  cbv [bind gets ret count_needing set_total mark_completed mark_failed update_task modify].
  destruct (find_profile (task_conversion_profile_id t) (db_profiles s)) as [prof|] eqn:Hf;
    [|discriminate].
  intro H. exists prof. split; [reflexivity|].
  set (S0 := task_sensor_id t) in *. set (P := task_conversion_profile_id t) in *.
  set (kind := profile_kind prof) in *. set (payload := profile_payload prof) in *.
  set (total := Z.of_nat (List.length (filter (needs_work S0 P) (db_records s)))) in *.
  assert (Hsub : forall r, In r (db_records s) -> needs_work S0 P r && key_ltb cursor0 (rec_key r) = true ->
                 In r (filter (needs_work S0 P) (db_records s))).
  { intros r Hr Hw. apply andb_prop in Hw as [Hw _]. apply filter_In. auto. }
  destruct (Z.eqb_spec total 0) as [Hz|Hz].
  - injection H as _ <- <-. simpl.
    assert (Hnil : filter (needs_work S0 P) (db_records s) = []).
    { apply length_zero_iff_nil. unfold total in Hz. lia. }
    split; [symmetry; apply mark_all_none; exact Hnil|].
    rewrite filter_all_false; [reflexivity|]. intros r Hr.
    destruct (needs_work S0 P r && key_ltb cursor0 (rec_key r)) eqn:Hw; [|reflexivity].
    pose proof (Hsub r Hr Hw) as Hin. rewrite Hnil in Hin. destruct Hin.
  - set (s1 := set_tasks s (map (fun u => if task_id u =? task_id t then with_total total u else u) (db_tasks s))) in *.
    assert (Hinv : loop_inv parse_float kind payload S0 P cursor0 (db_records s) 0 cursor0 s1).
    { split; [|split; [|split]].
      - symmetry. apply mark_range_empty.
      - apply key_le_refl.
      - rewrite (filter_all_false (in_window S0 P cursor0 cursor0)); [reflexivity|].
        intros r _. unfold in_window. destruct (key_ltb cursor0 (rec_key r)) eqn:E;
          [rewrite (key_lt_not_le _ _ E)|]; rewrite ?andb_false_r; reflexivity.
      - intros r _ Hw. unfold in_window in Hw.
        destruct (key_ltb cursor0 (rec_key r)) eqn:E; [rewrite (key_lt_not_le _ _ E) in Hw|];
          rewrite ?andb_false_r in Hw; discriminate. }
    destruct (page_loop parse_float (S (Z.to_nat total)) kind payload (task_id t) S0 P total 0 cursor0 s1)
      as [[p' c'] s2|e s2|s2] eqn:HL; [|discriminate|discriminate].
    injection H as _ <- <-. simpl.
    destruct (page_loop_ret_inv parse_float kind payload (task_id t) S0 P total cursor0 (db_records s) Hs
                _ _ _ _ _ _ _ Hinv HL) as ((Hrec & _ & Hp & _) & Hexit).
    assert (Hj : forall r, In r (db_records s) ->
                 needs_work S0 P r && key_ltb cursor0 (rec_key r) && negb (key_leb (rec_key r) c') = false).
    { destruct Hexit as [Hx|Hx].
      - exact (count_reached S0 P total cursor0 (db_records s) eq_refl c' p' Hp Hx).
      - exact (page_empty_reached S0 P cursor0 (db_records s) c' Hx). }
    split.
    + rewrite Hrec. apply mark_range_all. exact Hj.
    + rewrite Hp. rewrite (in_window_exit S0 P cursor0 c' (db_records s) Hj). reflexivity.
Qed.

Lemma option_Z_eqb_some (a : option Z) (b : Z) : option_Z_eqb a (Some b) = true -> a = Some b.
Proof. destruct a as [x|]; simpl; [intro H; apply Z.eqb_eq in H; congruence | discriminate]. Qed.

(** The report of a finished [try] block names the task it was given. *)
Lemma backfill_body_reports (parse_float : string -> option Q) (t : backfill_task) (s s' : db) (rep : report) :
  backfill_body parse_float t s = Ret rep s' ->
  (exists n, rep = ReportCompleted (task_id t) n) \/ (exists msg, rep = ReportFailed (task_id t) msg).
Proof.
  unfold backfill_body.
  cbv [bind gets ret count_needing set_total mark_completed mark_failed update_task modify].
  destruct (find_profile (task_conversion_profile_id t) (db_profiles s)) as [prof|];
    [|intro H; injection H as <- _; right; eexists; reflexivity].
  destruct (_ =? 0); [intro H; injection H as <- _; left; eexists; reflexivity|].
  match goal with |- context [page_loop parse_float ?fu ?k ?pl ?ti ?S ?P ?T ?p ?c ?s1] =>
    destruct (page_loop parse_float fu k pl ti S P T p c s1) as [[p' c'] s2|e s2|s2] end;
    intro H; [injection H as <- _; left; eexists; reflexivity | discriminate | discriminate].
Qed.

(** *** Whole runs of the worker *)

(** X5: when the claimed task's conversion profile does not exist, the worker changes no telemetry record and marks the task failed with the message [Conversion profile not found] and [completed_at = now]. *)
Theorem backfill_profile_missing (parse_float : string -> option Q) (s s1 : db) (t : backfill_task) :
  claim_pending s = Ret (Some t) s1 ->
  find_profile (task_conversion_profile_id t) (db_profiles s) = None ->
  exists s', conversion_backfill parse_float s = Ret (ReportFailed (task_id t) "profile not found") s' /\
    db_records s' = db_records s /\
    forall u, In u (db_tasks s') -> task_id u = task_id t ->
      task_status u = Failed /\ task_error_message u = Some "Conversion profile not found"%string /\
      task_completed_at u = Some (db_now s).
Proof.
  intros Hc Hf. destruct (claim_pending_frame s s1 _ Hc) as (Hr1 & Hp1 & Hn1).
  rewrite (conversion_backfill_claimed parse_float s s1 t Hc). unfold try_except, backfill_body.
  cbv [bind gets ret mark_failed update_task modify]. rewrite Hp1, Hf.
  eexists. split; [reflexivity|]. split; [exact Hr1|].
  intros u Hu Hid. simpl in Hu. apply in_map_iff in Hu as (u0 & <- & _).
  destruct (Z.eqb_spec (task_id u0) (task_id t)) as [E|E].
  - simpl. rewrite Hn1. auto.
  - contradiction.
Qed.

(** X6: when no record of the task's sensor needs conversion, the worker changes no record and marks the task completed with total 0 and 0 processed records. *)
Theorem backfill_nothing_to_convert (parse_float : string -> option Q) (s s1 : db) (t : backfill_task)
    (prof : conversion_profile) :
  claim_pending s = Ret (Some t) s1 ->
  find_profile (task_conversion_profile_id t) (db_profiles s) = Some prof ->
  (forall r, In r (db_records s) -> needs_work (task_sensor_id t) (task_conversion_profile_id t) r = false) ->
  exists s', conversion_backfill parse_float s = Ret (ReportCompleted (task_id t) 0) s' /\
    db_records s' = db_records s /\
    forall u, In u (db_tasks s') -> task_id u = task_id t ->
      task_status u = Completed /\ task_total_records u = Some 0 /\ task_processed_records u = 0.
Proof.
  intros Hc Hf Hn. destruct (claim_pending_frame s s1 _ Hc) as (Hr1 & Hp1 & Hn1).
  rewrite (conversion_backfill_claimed parse_float s s1 t Hc). unfold try_except, backfill_body.
  cbv [bind gets ret count_needing set_total mark_completed update_task modify]. rewrite Hp1, Hf, Hr1.
  rewrite (filter_all_false _ _ Hn). simpl.
  eexists. split; [reflexivity|]. split; [exact Hr1|].
  intros u Hu Hid. simpl in Hu. rewrite map_map in Hu. apply in_map_iff in Hu as (u0 & <- & _).
  destruct (Z.eqb_spec (task_id u0) (task_id t)) as [E|E]; simpl in Hid |- *.
  - rewrite E, Z.eqb_refl. simpl. auto.
  - apply Z.eqb_neq in E. rewrite E in Hid. apply Z.eqb_neq in E. contradiction.
Qed.

(** X7: when a run completes, the task it claimed is marked completed; its processed count is the number of records that needed work above the initial cursor, and its stored total is the number of records that needed work. *)
Theorem backfill_completed_counts (parse_float : string -> option Q) (s s' : db) (tid n : Z) :
  keys_ascending (db_records s) = true ->
  conversion_backfill parse_float s = Ret (ReportCompleted tid n) s' ->
  exists t s1, claim_pending s = Ret (Some t) s1 /\ task_id t = tid /\
    n = Z.of_nat (List.length (filter (fun r => needs_work (task_sensor_id t) (task_conversion_profile_id t) r
                                               && key_ltb cursor0 (rec_key r)) (db_records s))) /\
    forall u, In u (db_tasks s') -> task_id u = tid ->
      task_status u = Completed /\ task_processed_records u = n /\
      task_total_records u = Some (Z.of_nat (List.length
        (filter (needs_work (task_sensor_id t) (task_conversion_profile_id t)) (db_records s)))).
Proof.
  intros Hs H.
  destruct (conversion_backfill_completed parse_float s s' tid n H) as (t & s1 & Hc & Hb).
  destruct (claim_pending_frame s s1 _ Hc) as (Hr1 & _ & _).
  exists t, s1. split; [exact Hc|].
  destruct (backfill_body_completed parse_float t s1 s' tid n Hb) as (Hid & _ & Hu).
  rewrite <- Hr1 in Hs.
  destruct (backfill_body_completed_state parse_float t s1 s' tid n Hs Hb) as (_ & _ & _ & Hn).
  rewrite Hr1 in Hn, Hu. split; [symmetry; exact Hid|]. split; [exact Hn|]. exact Hu.
Qed.

(** X8: after a completed run, every record of the task's sensor above the initial cursor carries the task's profile id and has status converted or conversion_failed. *)
Theorem backfill_completed_sensor_consistent (parse_float : string -> option Q) (s s' : db) (tid n : Z) :
  keys_ascending (db_records s) = true ->
  conversion_backfill parse_float s = Ret (ReportCompleted tid n) s' ->
  exists t s1, claim_pending s = Ret (Some t) s1 /\ task_id t = tid /\
    forall r, In r (db_records s') -> rec_sensor_id r = task_sensor_id t ->
      key_ltb cursor0 (rec_key r) = true ->
      rec_conversion_profile_id r = Some (task_conversion_profile_id t) /\
      (rec_conversion_status r = Converted \/ rec_conversion_status r = ConversionFailed).
Proof.
  intros Hs H.
  destruct (conversion_backfill_completed parse_float s s' tid n H) as (t & s1 & Hc & Hb).
  destruct (claim_pending_frame s s1 _ Hc) as (Hr1 & _ & _).
  exists t, s1. split; [exact Hc|].
  destruct (backfill_body_completed parse_float t s1 s' tid n Hb) as (Hid & _ & _).
  split; [symmetry; exact Hid|].
  rewrite <- Hr1 in Hs.
  destruct (backfill_body_completed_state parse_float t s1 s' tid n Hs Hb) as (prof & _ & Hrec & _).
  intros r Hr Hsen Hkey. rewrite Hrec in Hr. unfold mark_all in Hr.
  apply in_map_iff in Hr as (r0 & Hr0 & _).
  destruct (needs_work (task_sensor_id t) (task_conversion_profile_id t) r0 && key_ltb cursor0 (rec_key r0))
    eqn:Hw.
  - subst r. unfold recomputed, set_conversion. simpl. split; [reflexivity|].
    destruct (conv_result _ _ _ r0); [left | right]; reflexivity.
  - subst r0. rewrite Hkey, andb_true_r in Hw. unfold needs_work in Hw.
    rewrite Hsen, Z.eqb_refl in Hw. simpl in Hw. apply orb_false_iff in Hw as [Hp Hst].
    apply negb_false_iff, option_Z_eqb_some in Hp. split; [exact Hp|].
    destruct (rec_conversion_status r); [left; reflexivity | discriminate | discriminate].
Qed.

(** X9: a run with no pending task changes nothing and reports no task; otherwise, with [t] the earliest pending task, it reports completion or failure of exactly the task id [task_id t] and changes no other task. *)
Theorem backfill_touches_only_claimed_task (parse_float : string -> option Q) (s s' : db) (rep : report) :
  conversion_backfill parse_float s = Ret rep s' ->
  (earliest_pending (db_tasks s) = None /\ rep = NoTask /\ s' = s) \/
  (exists t, earliest_pending (db_tasks s) = Some t /\
     ((exists n, rep = ReportCompleted (task_id t) n) \/ (exists msg, rep = ReportFailed (task_id t) msg)) /\
     tasks_frame (task_id t) s s').
Proof.
  intro H. destruct (claim_pending_ret s) as (ot & s1 & Hc & _). destruct ot as [t|].
  - right. destruct (claim_pending_tasks s s1 t Hc) as ((t0 & E & Hid) & _ & Hf1).
    exists t0. split; [exact E|]. rewrite <- Hid.
    rewrite (conversion_backfill_claimed parse_float s s1 t Hc) in H. unfold try_except in H.
    pose proof (backfill_body_reports parse_float t s1) as HR.
    pose proof (backfill_body_tasks parse_float t s1) as HB.
    destruct (backfill_body parse_float t s1) as [a s2|e s2|s2].
    + injection H as <- <-. split; [exact (HR s2 a eq_refl)|].
      eapply tasks_frame_trans; [exact Hf1 | exact HB].
    + cbv [bind ret mark_failed gets update_task modify] in H. injection H as <- <-.
      split; [right; eexists; reflexivity|].
      eapply tasks_frame_trans; [exact Hf1|]. eapply tasks_frame_trans; [exact HB|].
      apply tasks_frame_update; reflexivity.
    + discriminate.
  - left. unfold conversion_backfill, bind in H. rewrite Hc in H. injection H as <- <-.
    split; [|split; [reflexivity | exact (claim_pending_none s s1 Hc)]].
    unfold claim_pending in Hc. destruct (earliest_pending (db_tasks s)) as [t0|] eqn:E; [|reflexivity].
    rewrite update_task_ret in Hc. injection Hc as Hf _. exfalso.
    destruct (earliest_pending_spec _ _ E) as [Hin _].
    assert (Hm : In (start_task (db_now s) t0)
                   (map (fun u => if task_id u =? task_id t0 then start_task (db_now s) u else u)
                        (db_tasks s))).
    { apply in_map_iff. exists t0. rewrite Z.eqb_refl. auto. }
    pose proof (find_none _ _ Hf _ Hm) as Hx. simpl in Hx. rewrite Z.eqb_refl in Hx. discriminate.
Qed.


Lemma backfill_profile_missing_witness :
  exists s', conversion_backfill BackfillTests.no_str_float ExtraTests.missing_profile_db
               = Ret (ReportFailed 1 "profile not found") s' /\
    db_records s' = db_records ExtraTests.missing_profile_db /\
    forall u, In u (db_tasks s') -> task_id u = 1 ->
      task_status u = Failed /\ task_error_message u = Some "Conversion profile not found"%string /\
      task_completed_at u = Some (db_now ExtraTests.missing_profile_db).
Proof.
  apply (backfill_profile_missing BackfillTests.no_str_float ExtraTests.missing_profile_db
           (BackfillTests.claimed ExtraTests.missing_profile_db)
           (BackfillTests.claimed_task ExtraTests.missing_profile_db)); vm_compute; reflexivity.
Defined.

Lemma backfill_nothing_to_convert_witness :
  exists s', conversion_backfill BackfillTests.no_str_float ExtraTests.idle_db
               = Ret (ReportCompleted 1 0) s' /\
    db_records s' = db_records ExtraTests.idle_db /\
    forall u, In u (db_tasks s') -> task_id u = 1 ->
      task_status u = Completed /\ task_total_records u = Some 0 /\ task_processed_records u = 0.
Proof.
  apply (backfill_nothing_to_convert BackfillTests.no_str_float ExtraTests.idle_db
           (BackfillTests.claimed ExtraTests.idle_db)
           (BackfillTests.claimed_task ExtraTests.idle_db) ExtraTests.linear_10).
  - vm_compute. reflexivity.
  - vm_compute. reflexivity.
  - intros r [<-|[]]. vm_compute. reflexivity.
Defined.

Lemma backfill_completed_counts_witness :
  exists t s1, claim_pending BackfillTests.demo_db = Ret (Some t) s1 /\ task_id t = 1 /\
    2 = Z.of_nat (List.length (filter (fun r => needs_work (task_sensor_id t) (task_conversion_profile_id t) r
                                               && key_ltb cursor0 (rec_key r))
                                      (db_records BackfillTests.demo_db))) /\
    forall u, In u (db_tasks (BackfillTests.run BackfillTests.demo_db)) -> task_id u = 1 ->
      task_status u = Completed /\ task_processed_records u = 2 /\
      task_total_records u = Some (Z.of_nat (List.length
        (filter (needs_work (task_sensor_id t) (task_conversion_profile_id t))
                (db_records BackfillTests.demo_db)))).
Proof.
  apply (backfill_completed_counts BackfillTests.no_str_float BackfillTests.demo_db
           (BackfillTests.run BackfillTests.demo_db) 1 2); vm_compute; reflexivity.
Defined.

Lemma backfill_completed_sensor_consistent_witness :
  exists t s1, claim_pending BackfillTests.demo_db = Ret (Some t) s1 /\ task_id t = 1 /\
    forall r, In r (db_records (BackfillTests.run BackfillTests.demo_db)) -> rec_sensor_id r = task_sensor_id t ->
      key_ltb cursor0 (rec_key r) = true ->
      rec_conversion_profile_id r = Some (task_conversion_profile_id t) /\
      (rec_conversion_status r = Converted \/ rec_conversion_status r = ConversionFailed).
Proof.
  apply (backfill_completed_sensor_consistent BackfillTests.no_str_float BackfillTests.demo_db
           (BackfillTests.run BackfillTests.demo_db) 1 2); vm_compute; reflexivity.
Defined.

Lemma backfill_touches_only_claimed_task_witness :
  (earliest_pending (db_tasks BackfillTests.demo_db) = None /\
   BackfillTests.run_report BackfillTests.demo_db = NoTask /\
   BackfillTests.run BackfillTests.demo_db = BackfillTests.demo_db) \/
  (exists t, earliest_pending (db_tasks BackfillTests.demo_db) = Some t /\
   ((exists n, BackfillTests.run_report BackfillTests.demo_db = ReportCompleted (task_id t) n) \/
    (exists msg, BackfillTests.run_report BackfillTests.demo_db = ReportFailed (task_id t) msg)) /\
   tasks_frame (task_id t) BackfillTests.demo_db (BackfillTests.run BackfillTests.demo_db)).
Proof.
  apply (backfill_touches_only_claimed_task BackfillTests.no_str_float). vm_compute. reflexivity.
Defined.

End BackfillExtras.

(** ** Further properties of the ingest route *)

Module IngestExtras.
Import Ingest.
Local Open Scope string_scope.

(** *** [str.strip] *)

Definition no_lead_space (l : pystr) : Prop :=
  forall c, hd_error l = Some c -> is_py_space c = false.

Lemma drop_spaces_head (l : pystr) : no_lead_space (drop_spaces l).
Proof.
  induction l as [|a l IH]; simpl; [intros c H; discriminate|].
  destruct (is_py_space a) eqn:E; [exact IH|]. intros c H. injection H as <-. exact E.
Qed.

Lemma drop_spaces_id (l : pystr) : no_lead_space l -> drop_spaces l = l.
Proof.
  destruct l as [|a l]; [reflexivity|]. intro H. simpl. rewrite (H a eq_refl). reflexivity.
Qed.

Lemma drop_spaces_suffix (l : pystr) : exists pre, l = (pre ++ drop_spaces l)%list.
Proof.
  induction l as [|a l [pre IH]]; [exists []; reflexivity|]. simpl.
  destruct (is_py_space a); [exists (a :: pre); simpl; rewrite <- IH; reflexivity | exists []; reflexivity].
Qed.

(** What [strip] keeps: no white space at either end. *)
Definition stripped (l : pystr) : Prop := no_lead_space l /\ no_lead_space (rev l).

Lemma strip_stripped (l : pystr) : stripped (strip l).
Proof.
  unfold strip. set (m := drop_spaces l). set (m' := drop_spaces (rev m)).
  split.
  - destruct (drop_spaces_suffix (rev m)) as [pre Hpre]. fold m' in Hpre.
    assert (Hm : m = (rev m' ++ rev pre)%list).
    { rewrite <- rev_app_distr, <- Hpre, rev_involutive. reflexivity. }
    intros c Hc. destruct (rev m') as [|a r] eqn:Er; [discriminate|].
    injection Hc as <-. apply (drop_spaces_head l). fold m. rewrite Hm. reflexivity.
  - rewrite rev_involutive. apply drop_spaces_head.
Qed.

Lemma strip_fixed (l : pystr) : stripped l -> strip l = l.
Proof.
  intros [H1 H2]. unfold strip. rewrite (drop_spaces_id l H1), (drop_spaces_id (rev l) H2).
  apply rev_involutive.
Qed.

Lemma strip_idem (l : pystr) : strip (strip l) = strip l.
Proof. apply strip_fixed, strip_stripped. Qed.

(** *** [str.startswith] and slicing *)

Lemma startswith_app (p r : pystr) : startswith (p ++ r)%list p = true.
Proof. induction p as [|a p IH]; simpl; [destruct r; reflexivity | rewrite Z.eqb_refl; exact IH]. Qed.

Lemma startswith_split (h p : pystr) : startswith h p = true -> exists r, h = (p ++ r)%list.
Proof.
  revert h. induction p as [|a p IH]; intros h H; [exists h; reflexivity|].
  destruct h as [|b h]; [discriminate|]. simpl in H. apply andb_prop in H as [E H].
  apply Z.eqb_eq in E. subst b. destruct (IH h H) as [r ->]. exists r. reflexivity.
Qed.

Lemma skipn_prefix (p r : pystr) : skipn (List.length p) (p ++ r)%list = r.
Proof. induction p as [|a p IH]; [reflexivity | exact IH]. Qed.

Lemma bearer_cons : exists b bs, BEARER = b :: bs.
Proof. eexists. eexists. reflexivity. Qed.

(** *** The bearer token and the batch schema *)

Lemma extract_token_iff (h tok : pystr) :
  extract_sensor_token (Some h) = Some tok <->
  exists rest, h = (BEARER ++ rest)%list /\ tok = strip rest /\ tok <> [] /\ strip tok = tok.
Proof.
  split.
  - intro H. unfold extract_sensor_token in H.
    destruct h as [|c h0]; [discriminate|]. cbv beta iota zeta in H.
    destruct (startswith (c :: h0) BEARER) eqn:Hp; [|discriminate]. cbn [negb] in H.
    destruct (startswith_split _ _ Hp) as [rest Hr]. rewrite Hr in H |- *.
    rewrite skipn_prefix in H.
    destruct (strip rest) as [|x xs] eqn:Hs; [discriminate|]. injection H as <-.
    exists rest. split; [reflexivity|]. split; [symmetry; exact Hs|]. split; [discriminate|].
    rewrite <- Hs. apply strip_idem.
  - intros (rest & -> & -> & Hs & _).
    destruct bearer_cons as (b & bs & Hb).
    replace (BEARER ++ rest)%list with (b :: (bs ++ rest))%list by (rewrite Hb; reflexivity).
    unfold extract_sensor_token. cbv beta iota zeta.
    change (b :: (bs ++ rest))%list with ((b :: bs) ++ rest)%list. rewrite <- Hb.
    rewrite startswith_app, skipn_prefix. cbn [negb].
    destruct (strip rest) as [|x xs]; [contradiction | reflexivity].
Qed.

(** X10: [_extract_sensor_token] returns a token exactly when the header is [Bearer ] followed by a rest whose stripped form is non-empty; the token is that rest stripped of the white space [str.strip] removes (Unicode white space included), so it neither starts nor ends with such white space. *)
Theorem extract_sensor_token_spec (h tok : pystr) :
  extract_sensor_token (Some h) = Some tok <->
  exists rest, h = (BEARER ++ rest)%list /\ tok = strip rest /\ tok <> [] /\ strip tok = tok.
Proof. apply extract_token_iff. Qed.

(** X11: a non-empty token that neither starts nor ends with white space (in the sense of [str.strip], Unicode white space included), sent as [Bearer <token>], is extracted unchanged. *)
Theorem extract_sensor_token_roundtrip (tok : pystr) :
  tok <> [] -> strip tok = tok -> extract_sensor_token (Some (BEARER ++ tok)%list) = Some tok.
Proof.
  intros Hne Hs. apply extract_token_iff. exists tok. rewrite Hs. auto.
Qed.

Section Reject.
Context (parse_uuid parse_datetime : json -> option Z) (coerce_float : json -> option Q)
        (service_ingest : ingest_dto -> pystr -> store -> service_outcome * store).

Lemma keys_allowed_false (allowed : list string) (kvs : list (string * json)) (k : string) (v : json) :
  In (k, v) kvs -> ~ In k allowed -> keys_allowed allowed kvs = false.
Proof.
  intros Hin Hk. unfold keys_allowed. apply not_true_iff_false. intro H.
  rewrite forallb_forall in H. specialize (H _ Hin). simpl in H.
  apply existsb_exists in H as (k' & Hk' & E). apply String.eqb_eq in E. subst k'. contradiction.
Qed.

Lemma validate_readings_none (l : list json) (j : json) :
  In j l -> validate_reading parse_datetime coerce_float j = None ->
  validate_readings parse_datetime coerce_float l = None.
Proof.
  induction l as [|a l IH]; [intros []|]. intros [<-|Hin] Hj; simpl.
  - rewrite Hj. reflexivity.
  - rewrite (IH Hin Hj). destruct (validate_reading parse_datetime coerce_float a); reflexivity.
Qed.

Lemma validate_ingest_none (body : list (string * json)) :
  ((exists k v, In (k, v) body /\ ~ In k ["sensor_id"; "run_id"; "capture_session_id"; "meta"; "readings"]) \/
   (exists rs j, obj_get "readings" body = Some (JList rs) /\ In j rs /\
                 validate_reading parse_datetime coerce_float j = None)) ->
  validate_ingest parse_uuid parse_datetime coerce_float body = None.
Proof.
  intros [(k & v & Hin & Hk)|(rs & j & Hr & Hj & Hv)]; unfold validate_ingest.
  - rewrite (keys_allowed_false _ _ k v Hin Hk). reflexivity.
  - destruct (keys_allowed _ body); [|reflexivity].
    destruct (obj_get "sensor_id" body); [|reflexivity]. rewrite Hr.
    destruct ((MIN_READINGS <=? List.length rs) && (List.length rs <=? MAX_READINGS))%nat; [|reflexivity].
    rewrite (validate_readings_none rs j Hj Hv).
    destruct (parse_uuid _), (validate_optional parse_uuid (obj_get "run_id" body)),
      (validate_optional parse_uuid (obj_get "capture_session_id" body)),
      (validate_dict_field (obj_get "meta" body)); reflexivity.
Qed.

(** X12: a JSON body with a field outside [sensor_id], [run_id], [capture_session_id], [meta] and [readings], or with one invalid reading, is answered 400 (401 without a bearer token) and nothing is written. *)
Theorem ingest_rejects_invalid_batch (req : request) (st : store) (kvs : list (string * json)) :
  req_body req = Some (JObj kvs) ->
  ((exists k v, In (k, v) kvs /\ ~ In k ["sensor_id"; "run_id"; "capture_session_id"; "meta"; "readings"]) \/
   (exists rs j, obj_get "readings" kvs = Some (JList rs) /\ In j rs /\
                 validate_reading parse_datetime coerce_float j = None)) ->
  ingest_telemetry parse_uuid parse_datetime coerce_float service_ingest req st =
    (match extract_sensor_token (req_authorization req) with
     | None => HttpError 401
     | Some _ => HttpError 400
     end, st).
Proof.
  intros Hb Hbad. unfold ingest_telemetry.
  destruct (extract_sensor_token (req_authorization req)); [|reflexivity].
  rewrite Hb. simpl. rewrite (validate_ingest_none kvs Hbad). reflexivity.
Qed.

End Reject.


Lemma extract_sensor_token_roundtrip_witness :
  extract_sensor_token (Some (BEARER ++ pystr_of "abc")%list) = Some (pystr_of "abc").
Proof.
  apply extract_sensor_token_roundtrip; [intro C; discriminate C | reflexivity].
Defined.

Lemma ingest_rejects_invalid_batch_witness :
  ingest_telemetry IngestTests.toy_uuid IngestTests.toy_datetime IngestTests.toy_float
    (spec_service_ingest IngestTests.token_of_sensor_7 IngestTests.no_scope_error IngestTests.row_of_reading)
    ExtraTests.extra_key_request [] =
  (match extract_sensor_token (req_authorization ExtraTests.extra_key_request) with
   | None => HttpError 401
   | Some _ => HttpError 400
   end, []).
Proof.
  apply (ingest_rejects_invalid_batch IngestTests.toy_uuid IngestTests.toy_datetime IngestTests.toy_float
           (spec_service_ingest IngestTests.token_of_sensor_7 IngestTests.no_scope_error IngestTests.row_of_reading)
           ExtraTests.extra_key_request [] ExtraTests.extra_key_fields).
  - reflexivity.
  - left. exists "source", (JStr "lab"). split.
    + right. right. left. reflexivity.
    + simpl. intuition discriminate.
Defined.

End IngestExtras.

(** ** The active-profile cache *)

Module ProfileCacheProofs.
Import ProfileCache.
Local Open Scope Q_scope.

Section Proofs.
Context (json_loads : string -> pyres json) (ttl : Q) (dbt : Q -> profile_db).

Lemma qlt_true (a b : Q) : Conversion.qlt a b = true <-> a < b.
Proof.
  unfold Conversion.qlt. rewrite negb_true_iff. split; intro H.
  - apply Qnot_le_lt. intro C. apply Qle_bool_iff in C. congruence.
  - destruct (Qle_bool b a) eqn:E; [|reflexivity]. apply Qle_bool_iff in E. exfalso. lra.
Qed.

Lemma qlt_false (a b : Q) : Conversion.qlt a b = false <-> b <= a.
Proof.
  unfold Conversion.qlt. rewrite negb_false_iff. apply Qle_bool_iff.
Qed.

(** Every entry was loaded at a time [t] no later than the clock, and
    expires at [t + ttl]. *)
Definition entries_ok (now : Q) (c : cache) : Prop :=
  forall k p e, c k = Some (p, e) ->
    exists t, t <= now /\ e == t + ttl /\ load_from_db json_loads (dbt t) k = POk p.

Lemma entries_ok_mono (now now' : Q) (c : cache) :
  now <= now' -> entries_ok now c -> entries_ok now' c.
Proof.
  intros Hle H k p e Hk. destruct (H k p e Hk) as (t & Ht & He & Hl). exists t. split; [lra|]. auto.
Qed.

Lemma get_entries_ok (now : Q) (sensor_id : Z) (c : cache) :
  entries_ok now c ->
  entries_ok now (snd (get_active_profile json_loads ttl (dbt now) now sensor_id c)).
Proof.
  intros H. unfold get_active_profile.
  assert (Hre : entries_ok now
    (snd (match load_from_db json_loads (dbt now) sensor_id with
          | POk profile => (POk profile, cache_set c sensor_id (profile, now + ttl))
          | PRaise e => (PRaise e, c)
          end))).
  { destruct (load_from_db json_loads (dbt now) sensor_id) as [p|e] eqn:El; simpl; [|exact H].
    intros k p' e' Hk. unfold cache_set in Hk. destruct (Z.eqb_spec k sensor_id) as [->|Hne].
    - injection Hk as <- <-. exists now. split; [apply Qle_refl|]. split; [reflexivity | exact El].
    - exact (H k p' e' Hk). }
  destruct (c sensor_id) as [[p e]|]; [|exact Hre].
  destruct (Conversion.qlt now e); [exact H | exact Hre].
Qed.

Lemma cache_trace_ok (now : Q) (c : cache) :
  cache_trace json_loads ttl dbt now c -> entries_ok now c.
Proof.
  induction 1 as [now|now now' sid c _ IH Hle|now sid c _ IH].
  - intros k p e Hk. discriminate.
  - apply get_entries_ok. exact (entries_ok_mono _ _ _ Hle IH).
  - intros k p e Hk. unfold invalidate in Hk. destruct (k =? sid); [discriminate|]. exact (IH k p e Hk).
Qed.

End Proofs.

(** X13: over any sequence of calls with a clock that never goes back, a profile returned by [get_active_profile] at time [now'] is what [_load_from_db] returned at some time [t] with [now' - ttl < t <= now']. *)
Theorem profile_cache_fresh (json_loads : string -> pyres json) (ttl : Q) (dbt : Q -> profile_db)
    (now now' : Q) (c : cache) (sensor_id : Z) (p : option cached_profile) :
  0 < ttl ->
  cache_trace json_loads ttl dbt now c -> now <= now' ->
  fst (get_active_profile json_loads ttl (dbt now') now' sensor_id c) = POk p ->
  exists t, now' - ttl < t <= now' /\ load_from_db json_loads (dbt t) sensor_id = POk p.
Proof.
  intros Httl Htr Hle H.
  pose proof (entries_ok_mono json_loads ttl dbt _ _ _ Hle (cache_trace_ok json_loads ttl dbt _ _ Htr)) as Hok.
  unfold get_active_profile in H.
  assert (Hre : fst (match load_from_db json_loads (dbt now') sensor_id with
                     | POk profile => (POk profile, cache_set c sensor_id (profile, now' + ttl))
                     | PRaise e => (PRaise e, c)
                     end) = POk p ->
                exists t, now' - ttl < t <= now' /\ load_from_db json_loads (dbt t) sensor_id = POk p).
  { destruct (load_from_db json_loads (dbt now') sensor_id) as [q|e] eqn:El; simpl; intro E;
      [|discriminate].
    injection E as <-. exists now'. split; [lra | exact El]. }
  destruct (c sensor_id) as [[q e]|] eqn:Hc; [|exact (Hre H)].
  destruct (Conversion.qlt now' e) eqn:Hlt; [|exact (Hre H)].
  simpl in H. injection H as <-. apply qlt_true in Hlt.
  destruct (Hok sensor_id q e Hc) as (t & Ht & He & Hl).
  exists t. split; [|exact Hl]. split; lra.
Qed.

(** X14: a lookup at time [now1] that misses the cache (no entry for the sensor, or one whose expiry is at most [now1]) and returns [p] leaves the cache [c1] holding [p] with expiry [now1 + ttl]; a second lookup from [c1] at any time [now2 < now1 + ttl] (no order between [now1] and [now2] is assumed), against any database, returns [p] and leaves the cache exactly [c1]. *)
Theorem profile_cache_serves_loaded (json_loads : string -> pyres json) (ttl : Q) (d1 : profile_db)
    (now1 : Q) (sensor_id : Z) (c c1 : cache) (p : option cached_profile) :
  (c sensor_id = None \/ exists q e, c sensor_id = Some (q, e) /\ e <= now1) ->
  get_active_profile json_loads ttl d1 now1 sensor_id c = (POk p, c1) ->
  c1 sensor_id = Some (p, now1 + ttl) /\
  forall (d2 : profile_db) (now2 : Q), now2 < now1 + ttl ->
    fst (get_active_profile json_loads ttl d2 now2 sensor_id c1) = POk p /\
    snd (get_active_profile json_loads ttl d2 now2 sensor_id c1) = c1.
Proof.
  intros Hmiss0 H.
  assert (Hmiss : match c sensor_id with Some (_, e) => e <= now1 | None => True end).
  { destruct Hmiss0 as [-> | (q & e & -> & He)]; [exact I | exact He]. }
  assert (E : c1 = cache_set c sensor_id (p, now1 + ttl) /\ load_from_db json_loads d1 sensor_id = POk p).
  { unfold get_active_profile in H.
    assert (Hre : forall r, match load_from_db json_loads d1 sensor_id with
                   | POk profile => (POk profile, cache_set c sensor_id (profile, now1 + ttl))
                   | PRaise e => (PRaise e, c)
                   end = r -> r = (POk p, c1) ->
                   c1 = cache_set c sensor_id (p, now1 + ttl) /\ load_from_db json_loads d1 sensor_id = POk p).
    { intros r Er ->. destruct (load_from_db json_loads d1 sensor_id) as [q|e]; [|discriminate].
      injection Er as <- <-. auto. }
    destruct (c sensor_id) as [[q e]|] eqn:Hc.
    - assert (Hq : Conversion.qlt now1 e = false) by (apply qlt_false; exact Hmiss).
      rewrite Hq in H. exact (Hre _ eq_refl H).
    - exact (Hre _ eq_refl H). }
  destruct E as [-> _].
  assert (Hk : cache_set c sensor_id (p, now1 + ttl) sensor_id = Some (p, now1 + ttl)).
  { unfold cache_set. rewrite Z.eqb_refl. reflexivity. }
  split; [exact Hk|].
  intros d2 now2 Hlt. unfold get_active_profile. rewrite Hk.
  assert (Hq : Conversion.qlt now2 (now1 + ttl) = true) by (apply qlt_true; exact Hlt).
  rewrite Hq. split; reflexivity.
Qed.

(** X15: for every cache [c]: after [invalidate sensor_id] the next lookup of that sensor returns what [_load_from_db] returns; [invalidate sensor_id] leaves the entry of every other sensor as it is in [c]; and a lookup of [sensor_id] from [c] (hit or miss) leaves the entry of every other sensor as it is in [c]. *)
Theorem profile_cache_invalidate (json_loads : string -> pyres json) (ttl : Q) (d : profile_db)
    (now : Q) (sensor_id : Z) :
  (forall c : cache,
     fst (get_active_profile json_loads ttl d now sensor_id (invalidate sensor_id c)) =
       load_from_db json_loads d sensor_id) /\
  (forall (c : cache) (k : Z), k <> sensor_id -> invalidate sensor_id c k = c k) /\
  (forall (c : cache) (k : Z), k <> sensor_id ->
     snd (get_active_profile json_loads ttl d now sensor_id c) k = c k).
Proof.
  split; [|split].
  - intro c. unfold get_active_profile, invalidate. rewrite Z.eqb_refl.
    destruct (load_from_db json_loads d sensor_id); reflexivity.
  - intros c k Hk. apply Z.eqb_neq in Hk. unfold invalidate. rewrite Hk. reflexivity.
  - intros c k Hk. apply Z.eqb_neq in Hk.
    unfold get_active_profile.
    assert (Hre : snd (match load_from_db json_loads d sensor_id with
                       | POk profile => (POk profile, cache_set c sensor_id (profile, now + ttl))
                       | PRaise e => (PRaise e, c)
                       end) k = c k).
    { destruct (load_from_db json_loads d sensor_id); simpl; [|reflexivity].
      unfold cache_set. rewrite Hk. reflexivity. }
    destruct (c sensor_id) as [[q e]|]; [|exact Hre].
    destruct (Conversion.qlt now e); [reflexivity | exact Hre].
Qed.


Lemma profile_cache_fresh_witness :
  exists t, 1 - 5 < t <= 1 /\
    load_from_db ExtraTests.failing_loads ((fun _ : Q => ExtraTests.demo_profile_db) t) 7%Z
      = POk (Some ExtraTests.demo_cached).
Proof.
  apply (profile_cache_fresh ExtraTests.failing_loads 5 (fun _ => ExtraTests.demo_profile_db) 0 1
           (snd (get_active_profile ExtraTests.failing_loads 5 ExtraTests.demo_profile_db 0 7%Z empty_cache)) 7%Z).
  - vm_compute. reflexivity.
  - apply (ct_get ExtraTests.failing_loads 5 (fun _ => ExtraTests.demo_profile_db) 0 0 7%Z empty_cache); [apply ct_init | apply Qle_refl].
  - vm_compute. intro C. discriminate C.
  - reflexivity.
Defined.

Lemma profile_cache_serves_loaded_witness :
  snd (get_active_profile ExtraTests.failing_loads 5 ExtraTests.demo_profile_db 0 7%Z empty_cache) 7%Z
    = Some (Some ExtraTests.demo_cached, 0 + 5) /\
  forall (d2 : profile_db) (now2 : Q), now2 < 0 + 5 ->
    fst (get_active_profile ExtraTests.failing_loads 5 d2 now2 7%Z
           (snd (get_active_profile ExtraTests.failing_loads 5 ExtraTests.demo_profile_db 0 7%Z empty_cache)))
      = POk (Some ExtraTests.demo_cached) /\
    snd (get_active_profile ExtraTests.failing_loads 5 d2 now2 7%Z
           (snd (get_active_profile ExtraTests.failing_loads 5 ExtraTests.demo_profile_db 0 7%Z empty_cache)))
      = snd (get_active_profile ExtraTests.failing_loads 5 ExtraTests.demo_profile_db 0 7%Z empty_cache).
Proof.
  apply (profile_cache_serves_loaded ExtraTests.failing_loads 5 ExtraTests.demo_profile_db
           0 7%Z empty_cache).
  - left. reflexivity.
  - reflexivity.
Defined.

End ProfileCacheProofs.
